(** * Luos message allocator (Robus/src/msg_alloc.c)

    A shallow embedding of the single-buffer message allocator and the
    properties its specification states about it.

    Pointers are addresses, kept as [Z]; a cast [(uint32_t)p] is written
    [u32 p].  The allocator's globals form the record [state]; the message
    buffer lives in a byte memory addressed by [Z].  [LUOS_ASSERT] halts the
    program, and an access through [mem_stat] needs a record behind the
    pointer: both are outcomes of the monad [alloc]. *)

From stdpp Require Import gmap list.

Local Open Scope Z_scope.

(** ** Machine integers *)

Definition u8 (x : Z) : Z := x mod 2 ^ 8.
Definition u16 (x : Z) : Z := x mod 2 ^ 16.
Definition u32 (x : Z) : Z := x mod 2 ^ 32.

Definition NULL : Z := 0.

(** ** Data model *)

(** [error_return_t], declared in a header outside msg_alloc.c, with the
    two values the allocator returns. *)
Inductive error_return_t : Type := SUCCEED | FAILED.

Record luos_task_t : Type := mk_luos_task {
  msg_pt : Z;            (* msg_t *msg_pt *)
  ll_container_pt : Z    (* ll_container_t *ll_container_pt *)
}.

Record tx_task_t : Type := mk_tx_task {
  data_pt : Z;           (* char *data_pt *)
  size : Z               (* uint16_t size *)
}.

(** The three [uint8_t] fields of [memory_stats_t] the allocator uses. *)
Record memory_stats_t : Type := mk_memory_stats {
  msg_stack_ratio : Z;
  luos_stack_ratio : Z;
  msg_drop_number : Z
}.

(** The build configuration and the layout of the target, which come from
    headers outside msg_alloc.c ([config.h], [msg_alloc.h]): the address of
    [msg_buffer], the compile-time constants, the size of [header_t] and the
    readers of the header fields; and the words that lie in memory right
    after each task array, which the slide loops read when a stack is full
    ([a[rm + 1]] with [rm + 1 = MAX_MSG_NB]). *)
Class Target : Type := mk_target {
  msg_buffer : Z;
  MSG_BUFFER_SIZE : Z;
  MAX_MSG_NB : Z;
  MAX_DATA_MSG_SIZE : Z;
  sizeof_header_t : Z;
  header_size : (Z -> Z) -> Z -> Z;     (* msg->header.size *)
  header_cmd : (Z -> Z) -> Z -> Z;      (* msg->header.cmd *)
  header_source : (Z -> Z) -> Z -> Z;   (* msg->header.source *)
  msg_tasks_past : Z;
  luos_tasks_past : luos_task_t;
  tx_tasks_past : tx_task_t
}.

(** The globals of msg_alloc.c, the byte memory and the statistics records
    that [mem_stat] may point to (owned by the caller, found by address). *)
Record state : Type := mk_state {
  memory : Z -> Z;
  stats : gmap Z memory_stats_t;
  mem_stat : Z;
  current_msg : Z;
  data_ptr : Z;
  data_end_estimation : Z;
  copy_task_pointer : Z;
  msg_tasks : list Z;
  msg_tasks_stack_id : Z;
  used_msg : Z;
  luos_tasks : list luos_task_t;
  luos_tasks_stack_id : Z;
  tx_tasks : list tx_task_t;
  tx_tasks_stack_id : Z
}.

Definition set_memory (v : Z -> Z) (s : state) : state :=
  mk_state v (stats s) (mem_stat s) (current_msg s) (data_ptr s)
    (data_end_estimation s) (copy_task_pointer s) (msg_tasks s)
    (msg_tasks_stack_id s) (used_msg s) (luos_tasks s) (luos_tasks_stack_id s)
    (tx_tasks s) (tx_tasks_stack_id s).

Definition set_stats (v : gmap Z memory_stats_t) (s : state) : state :=
  mk_state (memory s) v (mem_stat s) (current_msg s) (data_ptr s)
    (data_end_estimation s) (copy_task_pointer s) (msg_tasks s)
    (msg_tasks_stack_id s) (used_msg s) (luos_tasks s) (luos_tasks_stack_id s)
    (tx_tasks s) (tx_tasks_stack_id s).

Definition set_mem_stat (v : Z) (s : state) : state :=
  mk_state (memory s) (stats s) v (current_msg s) (data_ptr s)
    (data_end_estimation s) (copy_task_pointer s) (msg_tasks s)
    (msg_tasks_stack_id s) (used_msg s) (luos_tasks s) (luos_tasks_stack_id s)
    (tx_tasks s) (tx_tasks_stack_id s).

Definition set_current_msg (v : Z) (s : state) : state :=
  mk_state (memory s) (stats s) (mem_stat s) v (data_ptr s)
    (data_end_estimation s) (copy_task_pointer s) (msg_tasks s)
    (msg_tasks_stack_id s) (used_msg s) (luos_tasks s) (luos_tasks_stack_id s)
    (tx_tasks s) (tx_tasks_stack_id s).

Definition set_data_ptr (v : Z) (s : state) : state :=
  mk_state (memory s) (stats s) (mem_stat s) (current_msg s) v
    (data_end_estimation s) (copy_task_pointer s) (msg_tasks s)
    (msg_tasks_stack_id s) (used_msg s) (luos_tasks s) (luos_tasks_stack_id s)
    (tx_tasks s) (tx_tasks_stack_id s).

Definition set_data_end_estimation (v : Z) (s : state) : state :=
  mk_state (memory s) (stats s) (mem_stat s) (current_msg s) (data_ptr s)
    v (copy_task_pointer s) (msg_tasks s)
    (msg_tasks_stack_id s) (used_msg s) (luos_tasks s) (luos_tasks_stack_id s)
    (tx_tasks s) (tx_tasks_stack_id s).

Definition set_copy_task_pointer (v : Z) (s : state) : state :=
  mk_state (memory s) (stats s) (mem_stat s) (current_msg s) (data_ptr s)
    (data_end_estimation s) v (msg_tasks s)
    (msg_tasks_stack_id s) (used_msg s) (luos_tasks s) (luos_tasks_stack_id s)
    (tx_tasks s) (tx_tasks_stack_id s).

Definition set_msg_tasks (v : list Z) (s : state) : state :=
  mk_state (memory s) (stats s) (mem_stat s) (current_msg s) (data_ptr s)
    (data_end_estimation s) (copy_task_pointer s) v
    (msg_tasks_stack_id s) (used_msg s) (luos_tasks s) (luos_tasks_stack_id s)
    (tx_tasks s) (tx_tasks_stack_id s).

Definition set_msg_tasks_stack_id (v : Z) (s : state) : state :=
  mk_state (memory s) (stats s) (mem_stat s) (current_msg s) (data_ptr s)
    (data_end_estimation s) (copy_task_pointer s) (msg_tasks s)
    v (used_msg s) (luos_tasks s) (luos_tasks_stack_id s)
    (tx_tasks s) (tx_tasks_stack_id s).

Definition set_used_msg (v : Z) (s : state) : state :=
  mk_state (memory s) (stats s) (mem_stat s) (current_msg s) (data_ptr s)
    (data_end_estimation s) (copy_task_pointer s) (msg_tasks s)
    (msg_tasks_stack_id s) v (luos_tasks s) (luos_tasks_stack_id s)
    (tx_tasks s) (tx_tasks_stack_id s).

Definition set_luos_tasks (v : list luos_task_t) (s : state) : state :=
  mk_state (memory s) (stats s) (mem_stat s) (current_msg s) (data_ptr s)
    (data_end_estimation s) (copy_task_pointer s) (msg_tasks s)
    (msg_tasks_stack_id s) (used_msg s) v (luos_tasks_stack_id s)
    (tx_tasks s) (tx_tasks_stack_id s).

Definition set_luos_tasks_stack_id (v : Z) (s : state) : state :=
  mk_state (memory s) (stats s) (mem_stat s) (current_msg s) (data_ptr s)
    (data_end_estimation s) (copy_task_pointer s) (msg_tasks s)
    (msg_tasks_stack_id s) (used_msg s) (luos_tasks s) v
    (tx_tasks s) (tx_tasks_stack_id s).

Definition set_tx_tasks (v : list tx_task_t) (s : state) : state :=
  mk_state (memory s) (stats s) (mem_stat s) (current_msg s) (data_ptr s)
    (data_end_estimation s) (copy_task_pointer s) (msg_tasks s)
    (msg_tasks_stack_id s) (used_msg s) (luos_tasks s) (luos_tasks_stack_id s)
    v (tx_tasks_stack_id s).

Definition set_tx_tasks_stack_id (v : Z) (s : state) : state :=
  mk_state (memory s) (stats s) (mem_stat s) (current_msg s) (data_ptr s)
    (data_end_estimation s) (copy_task_pointer s) (msg_tasks s)
    (msg_tasks_stack_id s) (used_msg s) (luos_tasks s) (luos_tasks_stack_id s)
    (tx_tasks s) v.

(** ** The monad of allocator code *)

Inductive outcome (A : Type) : Type :=
| Done (a : A) (s : state)   (* the call returns [a] in state [s] *)
| AssertFailed               (* a LUOS_ASSERT does not hold: the node halts *)
| Fault.                     (* access through a pointer with nothing behind it *)

Arguments Done {A} a s.
Arguments AssertFailed {A}.
Arguments Fault {A}.

Definition alloc (A : Type) : Type := state -> outcome A.

#[global] Instance alloc_ret : MRet alloc := fun A a s => Done a s.

#[global] Instance alloc_bind : MBind alloc := fun A B f m s =>
  match m s with
  | Done a s' => f a s'
  | AssertFailed => AssertFailed
  | Fault => Fault
  end.

Definition get : alloc state := fun s => Done s s.
Definition modify (f : state -> state) : alloc unit := fun s => Done tt (f s).
Definition fault {A : Type} : alloc A := fun _ => Fault.

(** Modelled from the spec: the macro [LUOS_ASSERT] of luos_utils.h, which
    is not among the sources.  An assertion that does not hold is fatal: it
    invokes the host's assert and the node halts. *)
Definition LUOS_ASSERT (b : bool) : alloc unit :=
  fun s => if b then Done tt s else AssertFailed.

(** ** Arrays and memory *)

(** [a[i]] for an unsigned index; past the end of the array the load
    returns the word that lies there, [past]. *)
Definition rd {A : Type} (past : A) (a : list A) (i : Z) : A :=
  default past (a !! Z.to_nat i).

(** [a[i] = v].  The allocator stores only below [MAX_MSG_NB] when its
    stack counters are at most [MAX_MSG_NB]; a store past the end is left
    out of the model (it changes nothing here). *)
Definition wr {A : Type} (a : list A) (i : Z) (v : A) : list A :=
  <[Z.to_nat i := v]> a.

(** [for (rm = from; rm < from + count; rm++) a[rm] = a[rm + 1];] *)
Fixpoint slide_left {A : Type} (past : A) (count : nat) (rm : Z) (a : list A)
  : list A :=
  match count with
  | O => a
  | S k => slide_left past k (rm + 1) (wr a rm (rd past a (rm + 1)))
  end.

Definition store (m : Z -> Z) (a v : Z) : Z -> Z :=
  fun x => if x =? a then v else m x.

(** [memcpy(dst, src, n)].  C defines the call for regions that do not
    overlap ([apart]); there the destination receives the bytes the
    source held before the call, in whatever order they are copied
    ([memcpy_copy_up], [memcpy_copy_down]).  On regions that overlap the
    call is undefined in C; the definition reads every source byte before
    the copy there too, and the statements about copied bytes keep to
    regions apart. *)
Definition memcpy (m : Z -> Z) (dst src n : Z) : Z -> Z :=
  fun x => if (dst <=? x) && (x <? dst + n) then m (src + (x - dst)) else m x.

(** The regions of [n] bytes at [a] and at [b] do not overlap. *)
Definition apart (a b n : Z) : Prop := a + n <= b \/ b + n <= a.

(** The two orders of a copy byte by byte:
    [for (i = 0; i < n; i++) dst[i] = src[i];] *)
Fixpoint copy_up (n : nat) (m : Z -> Z) (dst src : Z) : Z -> Z :=
  match n with
  | O => m
  | S k => copy_up k (store m dst (m src)) (dst + 1) (src + 1)
  end.

(** [while (n--) dst[n] = src[n];] *)
Fixpoint copy_down (n : nat) (m : Z -> Z) (dst src : Z) : Z -> Z :=
  match n with
  | O => m
  | S k =>
      copy_down k (store m (dst + Z.of_nat k) (m (src + Z.of_nat k))) dst src
  end.

Section Allocator.

Context `{T : Target}.

(** [mem_stat->field]: the record behind the pointer. *)
Definition mem_stat_load : alloc memory_stats_t := fun s =>
  if mem_stat s =? NULL then Fault
  else match stats s !! mem_stat s with
       | Some r => Done r s
       | None => Fault
       end.

Definition mem_stat_store (r : memory_stats_t) : alloc unit :=
  modify (fun s => set_stats (<[mem_stat s := r]> (stats s)) s).

(** [if (mem_stat->msg_drop_number < 0xFF) mem_stat->msg_drop_number++;]
    The guard keeps the [uint8_t] increment from wrapping. *)
Definition count_drop : alloc unit :=
  r ← mem_stat_load;
  if msg_drop_number r <? 255
  then mem_stat_store
         (mk_memory_stats (msg_stack_ratio r) (luos_stack_ratio r)
            (msg_drop_number r + 1))
  else mret tt.

(** [if (stat > mem_stat->msg_stack_ratio) mem_stat->msg_stack_ratio = stat;] *)
Definition raise_msg_stack_ratio (stat : Z) : alloc unit :=
  r ← mem_stat_load;
  if msg_stack_ratio r <? stat
  then mem_stat_store
         (mk_memory_stats stat (luos_stack_ratio r) (msg_drop_number r))
  else mret tt.

(** [if (stat > mem_stat->luos_stack_ratio) mem_stat->luos_stack_ratio = stat;] *)
Definition raise_luos_stack_ratio (stat : Z) : alloc unit :=
  r ← mem_stat_load;
  if luos_stack_ratio r <? stat
  then mem_stat_store
         (mk_memory_stats (msg_stack_ratio r) stat (msg_drop_number r))
  else mret tt.

(** [(uint32_t)p >= (uint32_t)from && (uint32_t)p <= (uint32_t)to] *)
Definition in_space (from to p : Z) : bool :=
  (u32 from <=? u32 p) && (u32 p <=? u32 to).

(** *** Generic *)

Definition MsgAlloc_Init (memory_stats : Z) : alloc unit :=
  modify (set_current_msg msg_buffer);;
  modify (set_data_ptr msg_buffer);;
  s ← get;
  modify (set_data_end_estimation (current_msg s + sizeof_header_t + 2));;
  modify (set_msg_tasks_stack_id 0);;
  modify (set_msg_tasks (replicate (Z.to_nat MAX_MSG_NB) 0));;
  modify (set_luos_tasks_stack_id 0);;
  modify (set_luos_tasks (replicate (Z.to_nat MAX_MSG_NB) (mk_luos_task 0 0)));;
  modify (set_copy_task_pointer NULL);;
  modify (set_used_msg NULL);;
  if memory_stats =? NULL then mret tt
  else modify (set_mem_stat memory_stats).

Definition MsgAlloc_loop : alloc unit :=
  s ← get;
  let stat := u8 (u32 (msg_tasks_stack_id s * 100) / MAX_MSG_NB) in
  raise_msg_stack_ratio stat;;
  s ← get;
  if copy_task_pointer s =? NULL then mret tt
  else
    modify (set_memory
              (memcpy (memory s) msg_buffer (copy_task_pointer s)
                 sizeof_header_t));;
    modify (set_copy_task_pointer NULL).

(** *** Message buffering *)

Definition MsgAlloc_DoWeHaveSpace (to : Z) : error_return_t :=
  if u32 (msg_buffer + (MSG_BUFFER_SIZE - 1)) <? u32 to then FAILED
  else SUCCEED.

(** *** Task stacks: clearing a slot *)

Definition MsgAlloc_ClearMsgTask : alloc unit :=
  s ← get;
  LUOS_ASSERT ((msg_tasks_stack_id s <=? MAX_MSG_NB)
               && (0 <? msg_tasks_stack_id s));;
  modify (set_msg_tasks
            (slide_left msg_tasks_past (Z.to_nat (msg_tasks_stack_id s)) 0
               (msg_tasks s)));;
  modify (set_msg_tasks_stack_id (u16 (msg_tasks_stack_id s - 1)));;
  s ← get;
  modify (set_msg_tasks (wr (msg_tasks s) (msg_tasks_stack_id s) 0)).

Definition MsgAlloc_ClearLuosTask (luos_task_id : Z) : alloc unit :=
  s ← get;
  LUOS_ASSERT ((luos_task_id <=? luos_tasks_stack_id s)
               || (luos_tasks_stack_id s <=? MAX_MSG_NB));;
  modify (set_luos_tasks
            (slide_left luos_tasks_past
               (Z.to_nat (luos_tasks_stack_id s - luos_task_id)) luos_task_id
               (luos_tasks s)));;
  if luos_tasks_stack_id s =? 0 then mret tt
  else modify (set_luos_tasks_stack_id (u16 (luos_tasks_stack_id s - 1))).

(** *** Allocator task stack: the overlap reclaimer *)

(** The two [while] loops of [MsgAlloc_ClearMsgSpace].  Every turn takes
    one entry off its stack, so the stack counter bounds the number of
    turns: it is the fuel the loops are started with. *)
Fixpoint ClearMsgSpace_luos_tasks (fuel : nat) (from to : Z) : alloc unit :=
  match fuel with
  | O => mret tt
  | S k =>
      s ← get;
      if in_space from to (msg_pt (rd luos_tasks_past (luos_tasks s) 0))
         && (0 <? luos_tasks_stack_id s)
      then MsgAlloc_ClearLuosTask 0;; count_drop;;
           ClearMsgSpace_luos_tasks k from to
      else mret tt
  end.

Fixpoint ClearMsgSpace_msg_tasks (fuel : nat) (from to : Z) : alloc unit :=
  match fuel with
  | O => mret tt
  | S k =>
      s ← get;
      if in_space from to (rd msg_tasks_past (msg_tasks s) 0)
         && (0 <? msg_tasks_stack_id s)
      then MsgAlloc_ClearMsgTask;; count_drop;;
           ClearMsgSpace_msg_tasks k from to
      else mret tt
  end.

Definition MsgAlloc_ClearMsgSpace (from to : Z) : alloc error_return_t :=
  if u32 (msg_buffer + (MSG_BUFFER_SIZE - 1)) <? u32 to then mret FAILED
  else
    s ← get;
    (if in_space from to (used_msg s)
     then modify (set_used_msg NULL);; count_drop
     else mret tt);;
    s ← get;
    ClearMsgSpace_luos_tasks (Z.to_nat (luos_tasks_stack_id s)) from to;;
    s ← get;
    ClearMsgSpace_msg_tasks (Z.to_nat (msg_tasks_stack_id s)) from to;;
    mret SUCCEED.

(** *** Message buffering: the reception cursor

    [msg_t] (msg_alloc.h) is a header followed by the payload, overlaid by
    the byte array [stream]: [&current_msg->data[n]] is
    [current_msg + sizeof(header_t) + n], [&current_msg->stream[n]] is
    [current_msg + n], and [&current_msg->header] is [current_msg]. *)

Definition MsgAlloc_InvalidMsg : alloc unit :=
  s ← get;
  MsgAlloc_ClearMsgSpace (current_msg s) (data_ptr s);;
  s ← get;
  modify (set_data_ptr (current_msg s));;
  modify (set_data_end_estimation (current_msg s + sizeof_header_t + 2));;
  if current_msg s =? msg_buffer then modify (set_copy_task_pointer NULL)
  else mret tt.

Definition MsgAlloc_ValidHeader (valid data_size : Z) : alloc unit :=
  if valid =? 1 then
    s ← get;
    (match MsgAlloc_DoWeHaveSpace
             (current_msg s + sizeof_header_t + (data_size + 2)) with
     | FAILED =>
         modify (set_copy_task_pointer (current_msg s));;
         modify (set_current_msg msg_buffer);;
         modify (set_data_ptr (msg_buffer + sizeof_header_t))
     | SUCCEED => mret tt
     end);;
    s ← get;
    modify (set_data_end_estimation
              (current_msg s + sizeof_header_t + (data_size + 2)));;
    if (u32 (current_msg s) <=? u32 (used_msg s))
       && (u32 (used_msg s)
           <=? u32 (current_msg s + sizeof_header_t + (data_size + 2)))
    then modify (set_used_msg NULL);; count_drop
    else mret tt
  else
    s ← get;
    modify (set_data_ptr (current_msg s)).

Definition MsgAlloc_EndMsg : alloc unit :=
  s ← get;
  MsgAlloc_ClearMsgSpace (current_msg s) (data_ptr s);;
  s ← get;
  (if msg_tasks_stack_id s =? MAX_MSG_NB
   then MsgAlloc_ClearMsgTask;; count_drop
   else mret tt);;
  s ← get;
  LUOS_ASSERT (rd msg_tasks_past (msg_tasks s) (msg_tasks_stack_id s) =? 0);;
  LUOS_ASSERT
    (negb (0 <? msg_tasks_stack_id s)
     || ((u32 msg_buffer <=? u32 (rd msg_tasks_past (msg_tasks s) 0))
         && (u32 (rd msg_tasks_past (msg_tasks s) 0)
             <? u32 (msg_buffer + MSG_BUFFER_SIZE))));;
  modify (set_msg_tasks
            (wr (msg_tasks s) (msg_tasks_stack_id s) (current_msg s)));;
  modify (set_msg_tasks_stack_id (u16 (msg_tasks_stack_id s + 1)));;
  modify (set_data_ptr (data_ptr s - 2));;
  s ← get;
  (match MsgAlloc_DoWeHaveSpace (data_ptr s + sizeof_header_t + 2) with
   | FAILED => modify (set_data_ptr msg_buffer)
   | SUCCEED =>
       if u8 (memory s (data_ptr s)) mod 2 =? 1 then mret tt
       else modify (set_data_ptr (data_ptr s + 1))
   end);;
  s ← get;
  modify (set_current_msg (data_ptr s));;
  modify (set_data_end_estimation (data_ptr s + sizeof_header_t + 2));;
  MsgAlloc_ClearMsgSpace (data_ptr s) (data_ptr s + (sizeof_header_t + 2));;
  mret tt.

Definition MsgAlloc_SetData (data : Z) : alloc unit :=
  s ← get;
  modify (set_memory (store (memory s) (data_ptr s) data));;
  modify (set_data_ptr (data_ptr s + 1)).

Definition MsgAlloc_SetMessage (msg : Z) : alloc unit :=
  s ← get;
  let data_size :=
    if MAX_DATA_MSG_SIZE <? header_size (memory s) msg
    then u16 (MAX_DATA_MSG_SIZE + sizeof_header_t)
    else u16 (header_size (memory s) msg + sizeof_header_t) in
  (match MsgAlloc_DoWeHaveSpace (current_msg s + data_size) with
   | FAILED => modify (set_current_msg msg_buffer)
   | SUCCEED => mret tt
   end);;
  s ← get;
  MsgAlloc_ClearMsgSpace (current_msg s) (current_msg s + data_size);;
  let cpy_msg := current_msg s in
  modify (set_data_ptr (current_msg s + (data_size + 2)));;
  MsgAlloc_EndMsg;;
  s ← get;
  modify (set_memory (memcpy (memory s) cpy_msg msg data_size)).

Definition MsgAlloc_GetCurrentMsg : alloc Z :=
  s ← get; mret (current_msg s).

Definition MsgAlloc_IsEmpty : alloc error_return_t :=
  s ← get;
  if data_ptr s =? msg_buffer then mret SUCCEED else mret FAILED.

(** *** Message interpretation task stack

    A function with an out parameter returns, next to its status, what it
    stored through the parameter: [None] when it stored nothing. *)

Definition MsgAlloc_PullMsgToInterpret : alloc (error_return_t * option Z) :=
  s ← get;
  if 0 <? msg_tasks_stack_id s then
    let returned_msg := rd msg_tasks_past (msg_tasks s) 0 in
    LUOS_ASSERT ((u32 msg_buffer <=? u32 returned_msg)
                 && (u32 returned_msg <? u32 (msg_buffer + MSG_BUFFER_SIZE)));;
    MsgAlloc_ClearMsgTask;;
    mret (SUCCEED, Some returned_msg)
  else mret (FAILED, None).

(** *** Luos task stack *)

Definition MsgAlloc_UsedMsgEnd : alloc unit :=
  modify (set_used_msg NULL).

Definition MsgAlloc_LuosTaskAlloc
    (container_concerned_by_current_msg concerned_msg : Z) : alloc unit :=
  s ← get;
  (if luos_tasks_stack_id s =? MAX_MSG_NB then MsgAlloc_ClearLuosTask 0
   else mret tt);;
  s ← get;
  modify (set_luos_tasks
            (wr (luos_tasks s) (luos_tasks_stack_id s)
               (mk_luos_task concerned_msg
                  container_concerned_by_current_msg)));;
  modify (set_luos_tasks_stack_id (u16 (luos_tasks_stack_id s + 1)));;
  s ← get;
  let stat := u8 (u32 (luos_tasks_stack_id s * 100) / MAX_MSG_NB) in
  raise_luos_stack_ratio stat.

(** [for (i = 0; i < luos_tasks_stack_id; i++)] of [MsgAlloc_PullMsg]; a
    turn that does not return leaves the state as it is, so [count] turns
    remain when the loop is at [i = luos_tasks_stack_id - count]. *)
Fixpoint PullMsg_search (count : nat) (i target_module : Z)
  : alloc (error_return_t * option Z) :=
  match count with
  | O => mret (FAILED, None)
  | S k =>
      s ← get;
      if ll_container_pt (rd luos_tasks_past (luos_tasks s) i)
         =? target_module
      then
        let returned_msg := msg_pt (rd luos_tasks_past (luos_tasks s) i) in
        modify (set_used_msg returned_msg);;
        MsgAlloc_ClearLuosTask i;;
        mret (SUCCEED, Some returned_msg)
      else PullMsg_search k (i + 1) target_module
  end.

Definition MsgAlloc_PullMsg (target_module : Z)
  : alloc (error_return_t * option Z) :=
  s ← get;
  PullMsg_search (Z.to_nat (luos_tasks_stack_id s)) 0 target_module.

Definition MsgAlloc_PullMsgFromLuosTask (luos_task_id : Z)
  : alloc (error_return_t * option Z) :=
  s ← get;
  if luos_task_id <? luos_tasks_stack_id s then
    let returned_msg :=
      msg_pt (rd luos_tasks_past (luos_tasks s) luos_task_id) in
    modify (set_used_msg returned_msg);;
    MsgAlloc_ClearLuosTask luos_task_id;;
    mret (SUCCEED, Some returned_msg)
  else mret (FAILED, None).

Definition MsgAlloc_LookAtLuosTask (luos_task_id : Z)
  : alloc (error_return_t * option Z) :=
  s ← get;
  if luos_task_id <? luos_tasks_stack_id s then
    mret (SUCCEED,
          Some (ll_container_pt
                  (rd luos_tasks_past (luos_tasks s) luos_task_id)))
  else mret (FAILED, None).

Definition MsgAlloc_GetLuosTaskCmd (luos_task_id : Z)
  : alloc (error_return_t * option Z) :=
  s ← get;
  if luos_task_id <? luos_tasks_stack_id s then
    mret (SUCCEED,
          Some (header_cmd (memory s)
                  (msg_pt (rd luos_tasks_past (luos_tasks s) luos_task_id))))
  else mret (FAILED, None).

Definition MsgAlloc_GetLuosTaskSourceId (luos_task_id : Z)
  : alloc (error_return_t * option Z) :=
  s ← get;
  if luos_task_id <? luos_tasks_stack_id s then
    mret (SUCCEED,
          Some (header_source (memory s)
                  (msg_pt (rd luos_tasks_past (luos_tasks s) luos_task_id))))
  else mret (FAILED, None).

Definition MsgAlloc_GetLuosTaskSize (luos_task_id : Z)
  : alloc (error_return_t * option Z) :=
  s ← get;
  if luos_task_id <? luos_tasks_stack_id s then
    mret (SUCCEED,
          Some (header_size (memory s)
                  (msg_pt (rd luos_tasks_past (luos_tasks s) luos_task_id))))
  else mret (FAILED, None).

Definition MsgAlloc_LuosTasksNbr : alloc Z :=
  s ← get; mret (luos_tasks_stack_id s).

(** [while (id < luos_tasks_stack_id)] of [MsgAlloc_ClearMsgFromLuosTasks]:
    a turn either takes an entry off the stack or moves [id] up, so the
    stack counter bounds the number of turns. *)
Fixpoint ClearMsgFromLuosTasks_loop (fuel : nat) (id msg : Z) : alloc unit :=
  match fuel with
  | O => mret tt
  | S k =>
      s ← get;
      if id <? luos_tasks_stack_id s then
        if msg_pt (rd luos_tasks_past (luos_tasks s) id) =? msg
        then MsgAlloc_ClearLuosTask id;; ClearMsgFromLuosTasks_loop k id msg
        else ClearMsgFromLuosTasks_loop k (u16 (id + 1)) msg
      else mret tt
  end.

Definition MsgAlloc_ClearMsgFromLuosTasks (msg : Z) : alloc unit :=
  s ← get;
  ClearMsgFromLuosTasks_loop (Z.to_nat (luos_tasks_stack_id s)) 0 msg.

(** *** Tx tasks *)

Definition MsgAlloc_PullMsgFromTxTask : alloc unit :=
  s ← get;
  LUOS_ASSERT ((0 <? tx_tasks_stack_id s)
               && (tx_tasks_stack_id s <? MAX_MSG_NB));;
  modify (set_tx_tasks
            (slide_left tx_tasks_past (Z.to_nat (tx_tasks_stack_id s)) 0
               (tx_tasks s)));;
  modify (set_tx_tasks_stack_id (u16 (tx_tasks_stack_id s - 1)));;
  s ← get;
  modify (set_tx_tasks (wr (tx_tasks s) (tx_tasks_stack_id s) (mk_tx_task 0 0))).

Definition MsgAlloc_SetTxTask (data size : Z) : alloc unit :=
  s ← get;
  LUOS_ASSERT ((0 <=? tx_tasks_stack_id s)
               && (tx_tasks_stack_id s <? MAX_MSG_NB)
               && (0 <? u32 data)
               && (u32 (current_msg s) <? u32 (msg_buffer + MSG_BUFFER_SIZE))
               && (u32 msg_buffer <=? u32 (current_msg s)));;
  let progression_size := u16 (u32 (u32 (data_ptr s) - u32 (current_msg s))) in
  let estimated_size :=
    u16 (u32 (u32 (data_end_estimation s) - u32 (current_msg s))) in
  let rx_msg_bkp := current_msg s in
  tx_msg ←
    (match MsgAlloc_DoWeHaveSpace (u32 (u32 (current_msg s) + size)) with
     | FAILED =>
         let tx_msg := msg_buffer in
         modify (set_current_msg (u32 (u32 msg_buffer + size)));;
         s ← get;
         modify (set_data_ptr (u32 (u32 (current_msg s) + progression_size)));;
         modify (set_data_end_estimation
                   (u32 (u32 (current_msg s) + estimated_size)));;
         s ← get;
         MsgAlloc_ClearMsgSpace tx_msg (data_end_estimation s);;
         mret tx_msg
     | SUCCEED =>
         let tx_msg := current_msg s in
         (match MsgAlloc_DoWeHaveSpace
                  (u32 (u32 (current_msg s) + size + estimated_size)) with
          | FAILED =>
              MsgAlloc_ClearMsgSpace tx_msg (u32 (u32 tx_msg + size));;
              modify (set_current_msg msg_buffer);;
              s ← get;
              modify (set_data_end_estimation
                        (u32 (u32 (current_msg s) + estimated_size)));;
              s ← get;
              MsgAlloc_ClearMsgSpace (current_msg s) (data_end_estimation s)
          | SUCCEED =>
              modify (set_current_msg (u32 (u32 (current_msg s) + size)));;
              s ← get;
              modify (set_data_end_estimation
                        (u32 (u32 (current_msg s) + estimated_size)));;
              s ← get;
              MsgAlloc_ClearMsgSpace tx_msg (data_end_estimation s)
          end);;
         s ← get;
         modify (set_data_ptr (u32 (u32 (current_msg s) + progression_size)));;
         s ← get;
         LUOS_ASSERT (u32 (data_ptr s) <? u32 (msg_buffer + MSG_BUFFER_SIZE));;
         LUOS_ASSERT (u32 (data_ptr s) <? u32 (msg_buffer + MSG_BUFFER_SIZE));;
         mret tx_msg
     end);
  s ← get;
  modify (set_memory
            (memcpy (memory s) (current_msg s) rx_msg_bkp progression_size));;
  s ← get;
  modify (set_memory (memcpy (memory s) tx_msg data 3));;
  modify (set_tx_tasks
            (wr (tx_tasks s) (tx_tasks_stack_id s) (mk_tx_task tx_msg size)));;
  modify (set_tx_tasks_stack_id (u16 (tx_tasks_stack_id s + 1)));;
  s ← get;
  (if tx_tasks_stack_id s =? MAX_MSG_NB
   then MsgAlloc_PullMsgFromTxTask;; count_drop
   else mret tt);;
  s ← get;
  modify (set_memory
            (memcpy (memory s) (tx_msg + 3) (data + 3) (u32 (size - 3)))).

Definition MsgAlloc_GetTxTask : alloc (error_return_t * option (Z * Z)) :=
  s ← get;
  LUOS_ASSERT ((0 <=? tx_tasks_stack_id s)
               && (tx_tasks_stack_id s <? MAX_MSG_NB));;
  if 0 <? tx_tasks_stack_id s then
    mret (SUCCEED,
          Some (data_pt (rd tx_tasks_past (tx_tasks s) 0),
                size (rd tx_tasks_past (tx_tasks s) 0)))
  else mret (FAILED, None).

(** *** The allocator's interface *)

Inductive op : Type :=
| Init (memory_stats : Z)
| Loop
| InvalidMsg
| ValidHeader (valid data_size : Z)
| EndMsg
| SetData (data : Z)
| SetMessage (msg : Z)
| GetCurrentMsg
| IsEmpty
| PullMsgToInterpret
| UsedMsgEnd
| LuosTaskAlloc (container msg : Z)
| PullMsg (target_module : Z)
| PullMsgFromLuosTask (luos_task_id : Z)
| LookAtLuosTask (luos_task_id : Z)
| GetLuosTaskCmd (luos_task_id : Z)
| GetLuosTaskSourceId (luos_task_id : Z)
| GetLuosTaskSize (luos_task_id : Z)
| LuosTasksNbr
| ClearMsgFromLuosTasks (msg : Z)
| SetTxTask (data size : Z)
| PullMsgFromTxTask
| GetTxTask.

(** One call, seen at its boundary: the state it leaves, its result dropped. *)
Definition run_op (o : op) : alloc unit :=
  match o with
  | Init memory_stats => MsgAlloc_Init memory_stats
  | Loop => MsgAlloc_loop
  | InvalidMsg => MsgAlloc_InvalidMsg
  | ValidHeader valid data_size => MsgAlloc_ValidHeader valid data_size
  | EndMsg => MsgAlloc_EndMsg
  | SetData data => MsgAlloc_SetData data
  | SetMessage msg => MsgAlloc_SetMessage msg
  | GetCurrentMsg => MsgAlloc_GetCurrentMsg;; mret tt
  | IsEmpty => MsgAlloc_IsEmpty;; mret tt
  | PullMsgToInterpret => MsgAlloc_PullMsgToInterpret;; mret tt
  | UsedMsgEnd => MsgAlloc_UsedMsgEnd
  | LuosTaskAlloc container msg => MsgAlloc_LuosTaskAlloc container msg
  | PullMsg target_module => MsgAlloc_PullMsg target_module;; mret tt
  | PullMsgFromLuosTask i => MsgAlloc_PullMsgFromLuosTask i;; mret tt
  | LookAtLuosTask i => MsgAlloc_LookAtLuosTask i;; mret tt
  | GetLuosTaskCmd i => MsgAlloc_GetLuosTaskCmd i;; mret tt
  | GetLuosTaskSourceId i => MsgAlloc_GetLuosTaskSourceId i;; mret tt
  | GetLuosTaskSize i => MsgAlloc_GetLuosTaskSize i;; mret tt
  | LuosTasksNbr => MsgAlloc_LuosTasksNbr;; mret tt
  | ClearMsgFromLuosTasks msg => MsgAlloc_ClearMsgFromLuosTasks msg
  | SetTxTask data size => MsgAlloc_SetTxTask data size
  | PullMsgFromTxTask => MsgAlloc_PullMsgFromTxTask
  | GetTxTask => MsgAlloc_GetTxTask;; mret tt
  end.

(** The arguments of a call fit their C types. *)
Definition op_typed (o : op) : Prop :=
  match o with
  | ValidHeader valid data_size => 0 <= valid < 2 ^ 8 /\ 0 <= data_size < 2 ^ 16
  | SetData data => 0 <= data < 2 ^ 8
  | PullMsgFromLuosTask i | LookAtLuosTask i | GetLuosTaskCmd i
  | GetLuosTaskSourceId i | GetLuosTaskSize i => 0 <= i < 2 ^ 16
  | SetTxTask data size => 0 <= size < 2 ^ 16
  | _ => True
  end.

Fixpoint run_ops (l : list op) : alloc unit :=
  match l with
  | [] => mret tt
  | o :: l' => run_op o;; run_ops l'
  end.

End Allocator.

(** ** A concrete target

    The configuration of the specification's scenarios (a 64-byte buffer,
    stacks of 4 entries), with the 7-byte header of the wire protocol and
    the buffer at the start of the RAM of a Cortex-M node. *)

Definition scenario : Target := {|
  msg_buffer := 536870912;
  MSG_BUFFER_SIZE := 64;
  MAX_MSG_NB := 4;
  MAX_DATA_MSG_SIZE := 128;
  sizeof_header_t := 7;
  header_size := fun m p => m (p + 5) + 256 * m (p + 6);
  header_cmd := fun m p => m (p + 4);
  header_source := fun m p => m (p + 2) / 16 + 16 * m (p + 3);
  msg_tasks_past := 0;
  luos_tasks_past := mk_luos_task 0 0;
  tx_tasks_past := mk_tx_task 0 0
|}.

(** A node before [MsgAlloc_Init]: zeroed globals, and one statistics
    record at address 4096. *)
Definition boot : state := {|
  memory := fun _ => 0;
  stats := {[ 4096 := mk_memory_stats 0 0 0 ]};
  mem_stat := NULL;
  current_msg := 0;
  data_ptr := 0;
  data_end_estimation := 0;
  copy_task_pointer := NULL;
  msg_tasks := replicate 4 0;
  msg_tasks_stack_id := 0;
  used_msg := NULL;
  luos_tasks := replicate 4 (mk_luos_task 0 0);
  luos_tasks_stack_id := 0;
  tx_tasks := replicate 4 (mk_tx_task 0 0);
  tx_tasks_stack_id := 0
|}.

(** ** Vocabulary of the statements *)

(** The record after [n] drops were counted on it: the counter saturates. *)
Definition drops_counted (n : Z) (r : memory_stats_t) : memory_stats_t :=
  mk_memory_stats (msg_stack_ratio r) (luos_stack_ratio r)
    (Z.min 255 (msg_drop_number r + n)).

(** How many entries at the head of a stack satisfy [P]. *)
Fixpoint leading {A : Type} (P : A -> bool) (l : list A) : nat :=
  match l with
  | x :: l' => if P x then S (leading P l') else O
  | [] => O
  end.

(** The entries a stack holds: the first [stack_id] slots of its array. *)
Definition live {A : Type} (a : list A) (stack_id : Z) : list A :=
  take (Z.to_nat stack_id) a.

(** A call with an out parameter fails cleanly when, each time it returns
    FAILED, the state is the one it was called in and nothing was stored
    through the parameter. *)
Definition fails_cleanly {A : Type} (m : alloc (error_return_t * option A))
  : Prop :=
  forall s out s', m s = Done (FAILED, out) s' -> s' = s /\ out = None.

(** [m] keeps the relation [R] between the state it is called in and the
    state it returns in. *)
Definition preserves {A : Type} (R : state -> state -> Prop) (m : alloc A)
  : Prop :=
  forall s a s', m s = Done a s' -> R s s'.

(** [f] reads the same in both states. *)
Definition same_on {B : Type} (f : state -> B) (s s' : state) : Prop :=
  f s' = f s.

(** No statistics record disappears, no drop counter goes down, and a
    counter that fits 8 bits still does. *)
Definition drops_grow (s s' : state) : Prop :=
  forall p r, stats s !! p = Some r ->
    exists r', stats s' !! p = Some r'
      /\ msg_drop_number r <= msg_drop_number r'
      /\ (msg_drop_number r <= 255 -> msg_drop_number r' <= 255).

(** [mem_stat] points to the record [r], whose drop counter fits 8 bits. *)
Definition mem_stat_is (r : memory_stats_t) (s : state) : Prop :=
  mem_stat s <> NULL
  /\ stats s !! mem_stat s = Some r
  /\ msg_drop_number r <= 255.

(** [1] when the test holds, as a number of drops. *)
Definition one_if (b : bool) : Z := if b then 1 else 0.

(** The array of a stack after its [k] oldest entries were taken off one
    by one: the newer entries slid left, [k] copies of [fill] behind them,
    and the slots from the old stack counter on as they were. *)
Definition popped {A : Type} (k : nat) (fill : A) (a : list A) (stack_id : Z)
  : list A :=
  drop k (live a stack_id) ++ replicate k fill ++ drop (Z.to_nat stack_id) a.

(** What the task stacks never touch: the byte memory and the reception
    cursor. *)
Definition reception (s : state) : (Z -> Z) * Z * Z * Z :=
  (memory s, current_msg s, data_ptr s, data_end_estimation s).

Section Vocabulary.

Context `{T : Target}.

(** [(uint32_t)p >= (uint32_t)&msg_buffer[0]
     && (uint32_t)p < (uint32_t)&msg_buffer[MSG_BUFFER_SIZE]] *)
Definition in_buffer (p : Z) : bool :=
  (u32 msg_buffer <=? u32 p) && (u32 p <? u32 (msg_buffer + MSG_BUFFER_SIZE)).

(** The stacks as the allocator keeps them: arrays of [MAX_MSG_NB] slots,
    counters within them, and a statistics record behind [mem_stat]. *)
Definition stacks_ok (s : state) : Prop :=
  length (msg_tasks s) = Z.to_nat MAX_MSG_NB
  /\ 0 <= msg_tasks_stack_id s <= MAX_MSG_NB
  /\ length (luos_tasks s) = Z.to_nat MAX_MSG_NB
  /\ 0 <= luos_tasks_stack_id s <= MAX_MSG_NB
  /\ exists r, mem_stat_is r s.

(** MsgTasks as [MsgAlloc_EndMsg] asserts it: its entries point into the
    buffer and the slots past them are zero. *)
Definition msg_tasks_ok (s : state) : Prop :=
  Forall (fun p => in_buffer p = true)
    (live (msg_tasks s) (msg_tasks_stack_id s))
  /\ Forall (fun p => p = 0) (drop (Z.to_nat (msg_tasks_stack_id s)) (msg_tasks s)).

(** Where [MsgAlloc_EndMsg] puts the cursor: two bytes back over the CRC,
    then to the buffer start if a header and a CRC no longer fit, else one
    byte on when the byte under the cursor is even. *)
Definition next_msg (s : state) : Z :=
  let p := data_ptr s - 2 in
  if u32 (msg_buffer + (MSG_BUFFER_SIZE - 1)) <? u32 (p + sizeof_header_t + 2)
  then msg_buffer
  else if Z.even (u8 (memory s p)) then p + 1 else p.

End Vocabulary.

(** The reception cursor. *)
Definition cursor (s : state) : Z * Z * Z :=
  (current_msg s, data_ptr s, data_end_estimation s).

Section Reachability.

Context `{T : Target}.

(** The ordering of the cursor the specification states. *)
Definition cursor_ordered (s : state) : Prop :=
  current_msg s <= data_ptr s
  /\ data_ptr s <= data_end_estimation s
  /\ data_end_estimation s <= msg_buffer + MSG_BUFFER_SIZE.

(** The ordering together with what keeps it across calls: the frame
    starts in the buffer and leaves room for a header and a CRC. *)
Definition cursor_kept (s : state) : Prop :=
  msg_buffer <= current_msg s
  /\ cursor_ordered s
  /\ current_msg s + sizeof_header_t + 2 <= data_end_estimation s.


(** A target on which the allocator's integer arithmetic does not wrap:
    a header and a CRC fit in the buffer, the buffer is shorter than
    64 KiB (the cursor offsets are held in [uint16_t]) and lies in the
    32-bit address space with room behind it for the largest sums the code
    forms before it compares them with the buffer end. *)
Definition sane_target : Prop :=
  0 <= sizeof_header_t
  /\ sizeof_header_t + 2 <= MSG_BUFFER_SIZE
  /\ MSG_BUFFER_SIZE < 2 ^ 16
  /\ 0 < msg_buffer
  /\ msg_buffer + MSG_BUFFER_SIZE + 2 ^ 18 <= 2 ^ 32.


(** What the callers owe the allocator, which checks none of it: a byte
    is stored only below the estimated end of the frame; a header is
    validated before the cursor has passed the end it announces; a frame
    is ended with its two CRC bytes stored in the buffer; and a frame to
    transmit fits in the buffer together with the frame in reception. *)
Definition caller_contract (o : op) (s : state) : Prop :=
  match o with
  | SetData data => data_ptr s < data_end_estimation s
  | ValidHeader valid data_size =>
      sizeof_header_t + data_size + 2 <= MSG_BUFFER_SIZE
      /\ data_ptr s <= current_msg s + sizeof_header_t + data_size + 2
  | EndMsg => msg_buffer + 2 <= data_ptr s
  | SetTxTask data size =>
      size + (data_end_estimation s - current_msg s) <= MSG_BUFFER_SIZE
  | _ => True
  end.



End Reachability.

(** ** Concrete runs on the scenario target *)

(** The node after [MsgAlloc_Init] with the statistics record. *)
Definition started : state :=
  match @MsgAlloc_Init scenario 4096 boot with
  | Done _ s => s
  | _ => boot
  end.



(** A node in the middle of its work: a frame in reception at offset 20,
    twelve bytes in; MsgTasks full; three LuosTasks entries for endpoints 1
    and 2; the application reading the message at offset 28; one frame
    staged for transmission; seven drops counted so far. *)
Definition busy : state := {|
  memory := fun _ => 0;
  stats := {[ 4096 := mk_memory_stats 50 75 7 ]};
  mem_stat := 4096;
  current_msg := 536870932;
  data_ptr := 536870944;
  data_end_estimation := 536870944;
  copy_task_pointer := NULL;
  msg_tasks := [536870936; 536870952; 536870912; 536870922];
  msg_tasks_stack_id := 4;
  used_msg := 536870940;
  luos_tasks := [mk_luos_task 536870932 1; mk_luos_task 536870942 2;
                 mk_luos_task 536870962 1; mk_luos_task 0 0];
  luos_tasks_stack_id := 3;
  tx_tasks := [mk_tx_task 536870956 6; mk_tx_task 0 0; mk_tx_task 0 0;
               mk_tx_task 0 0];
  tx_tasks_stack_id := 1
|}.

(** The same node with a full LuosTasks stack. *)
Definition busy_full : state :=
  set_luos_tasks_stack_id 4
    (set_luos_tasks
       [mk_luos_task 536870932 1; mk_luos_task 536870942 2;
        mk_luos_task 536870962 1; mk_luos_task 536870912 3]
       busy).

(** The same node with one free slot left in TxTasks. *)
Definition busy_tx : state :=
  set_tx_tasks_stack_id 3
    (set_tx_tasks
       [mk_tx_task 536870956 6; mk_tx_task 536870962 4;
        mk_tx_task 536870966 4; mk_tx_task 0 0]
       busy).




(** [busy] after the frame in reception was ended and a next one
    abandoned two bytes in. *)
Definition busy_run : list op := [EndMsg; SetData 1; SetData 1; InvalidMsg].

Definition busy_run_state : state :=
  match @run_ops scenario busy_run busy with
  | Done _ s => s
  | _ => boot
  end.

(** Reception of one 12-byte frame: a 7-byte header, validated with 3
    payload bytes announced, the payload, two CRC bytes, end of frame. *)
Definition frame12 : list op :=
  replicate 7 (SetData 1) ++ [ValidHeader 1 3] ++ replicate 5 (SetData 1)
  ++ [EndMsg].

(** [busy] with nothing in the way of the frame in reception: MsgTasks full
    of frames that lie elsewhere, LuosTasks empty, no message in use. *)
Definition busy_quiet : state :=
  set_used_msg NULL
    (set_luos_tasks_stack_id 0
       (set_msg_tasks [536870952; 536870962; 536870912; 536870922] busy)).

(** ** More concrete states *)

(** [busy] with two LuosTasks entries for the message at offset 20 and
    one, between them, for the message at offset 30. *)
Definition busy_shared : state :=
  set_luos_tasks
    [mk_luos_task 536870932 1; mk_luos_task 536870942 2;
     mk_luos_task 536870932 3; mk_luos_task 0 0]
    busy.

(** [busy] with the seven bytes 1 to 7 of a header received at offset
    20. *)
Definition busy_header : state :=
  set_memory
    (fun a => if (536870932 <=? a) && (a <? 536870939)
              then a - 536870931 else 0)
    busy.

(** [busy] after the frame in reception was ended. *)
Definition busy_ended : state :=
  match @MsgAlloc_EndMsg scenario busy with
  | Done _ s => s
  | _ => boot
  end.

(** [busy] with, at address 8192 outside the buffer, a message of the
    node itself whose header announces three bytes of payload. *)
Definition busy_local : state :=
  set_memory (fun a => if a =? 8197 then 3 else 0) busy.

(** ** Vocabulary of the stacks *)

(** The entries each stack holds, the oldest first. *)
Definition msg_queue (s : state) : list Z :=
  live (msg_tasks s) (msg_tasks_stack_id s).

Definition luos_queue (s : state) : list luos_task_t :=
  live (luos_tasks s) (luos_tasks_stack_id s).

Definition tx_queue (s : state) : list tx_task_t :=
  live (tx_tasks s) (tx_tasks_stack_id s).

(** What the consumers of LuosTasks leave alone: everything but the
    LuosTasks stack and [used_msg]. *)
Definition beside_luos_tasks (s : state) :=
  (memory s, stats s, mem_stat s, cursor s, copy_task_pointer s,
   msg_tasks s, msg_tasks_stack_id s, tx_tasks s, tx_tasks_stack_id s).

Section Stacks.

Context `{T : Target}.

(** The LuosTasks stack as the allocator keeps it: an array of
    [MAX_MSG_NB] slots and a counter within it. *)
Definition luos_tasks_ok (s : state) : Prop :=
  length (luos_tasks s) = Z.to_nat MAX_MSG_NB
  /\ 0 <= luos_tasks_stack_id s <= MAX_MSG_NB.

(** The TxTasks stack as its assertions want it: an array of [MAX_MSG_NB]
    slots and a counter below [MAX_MSG_NB]. *)
Definition tx_tasks_ok (s : state) : Prop :=
  length (tx_tasks s) = Z.to_nat MAX_MSG_NB
  /\ 0 <= tx_tasks_stack_id s < MAX_MSG_NB.

(** What [MsgAlloc_ClearMsgSpace from to] leaves of the MsgTasks queue
    [q]: all of it when [to] lies past the last byte of the buffer, else
    [q] less the entries at its head that lie in the window. *)
Definition reclaimed (from to : Z) (q : list Z) : list Z :=
  if u32 (msg_buffer + (MSG_BUFFER_SIZE - 1)) <? u32 to then q
  else drop (leading (in_space from to) q) q.

(** What [MsgAlloc_EndMsg] leaves of the MsgTasks queue [q] when it makes
    room for the frame: [q] less its oldest entry if [q] fills the
    stack. *)
Definition evicted (q : list Z) : list Z :=
  if Z.of_nat (length q) =? MAX_MSG_NB then drop 1 q else q.

End Stacks.

(** What [MsgAlloc_LuosTaskAlloc] leaves alone: everything but the
    LuosTasks stack and the statistics. *)
Definition beside_luos_tasks_stats (s : state) :=
  (memory s, mem_stat s, cursor s, copy_task_pointer s, used_msg s,
   msg_tasks s, msg_tasks_stack_id s, tx_tasks s, tx_tasks_stack_id s).

Section Occupancy.

Context `{T : Target}.

(** The share of its [MAX_MSG_NB] slots that a stack of [n] entries
    uses, in percent. *)
Definition percent (n : Z) : Z := n * 100 / MAX_MSG_NB.

End Occupancy.

(** What a pull from MsgTasks leaves alone: everything but the MsgTasks
    stack. *)
Definition beside_msg_tasks (s : state) :=
  (memory s, stats s, mem_stat s, cursor s, copy_task_pointer s, used_msg s,
   luos_tasks s, luos_tasks_stack_id s, tx_tasks s, tx_tasks_stack_id s).

(** The memory after [bytes] were stored one by one from address [p]
    on. *)
Fixpoint stored (bytes : list Z) (p : Z) (m : Z -> Z) : Z -> Z :=
  match bytes with
  | [] => m
  | b :: bytes' => stored bytes' (p + 1) (store m p b)
  end.

(** No statistics record disappears and neither stack ratio of a record
    goes down. *)
Definition ratios_grow (s s' : state) : Prop :=
  forall p r, stats s !! p = Some r ->
    exists r', stats s' !! p = Some r'
      /\ msg_stack_ratio r <= msg_stack_ratio r'
      /\ luos_stack_ratio r <= luos_stack_ratio r'.

(** [P] goes from the state a piece of code is called in to the state it
    returns in. *)
Definition keeps (P : state -> Prop) (s s' : state) : Prop := P s -> P s'.

Section WellKept.

Context `{T : Target}.

(** The stacks of the reception side as the allocator keeps them. *)
Definition tasks_ok (s : state) : Prop := stacks_ok s /\ msg_tasks_ok s.

(** A node whose allocator is in order: the cursor is ordered and inside
    the buffer, the stacks and their counters are within their arrays,
    MsgTasks points into the buffer and [mem_stat] to a record. *)
Definition well_kept (s : state) : Prop :=
  cursor_kept s /\ tasks_ok s /\ tx_tasks_ok s.

(** What the callers owe the allocator: [caller_contract], and for the
    statistics that [MsgAlloc_Init] is given NULL or the address of a
    record whose drop counter fits 8 bits. *)
Definition node_contract (o : op) (s : state) : Prop :=
  caller_contract o s
  /\ match o with
     | Init memory_stats =>
         memory_stats = NULL
         \/ exists r, stats s !! memory_stats = Some r
                      /\ msg_drop_number r <= 255
     | _ => True
     end.

(** The calls of the transmit side, whose assertions are about
    TxTasks. *)
Definition stages_tx (o : op) : bool :=
  match o with
  | SetTxTask _ _ | PullMsgFromTxTask => true
  | _ => false
  end.

End WellKept.

(** The TxTasks stack: its array and its counter. *)
Definition tx_view (s : state) : list tx_task_t * Z :=
  (tx_tasks s, tx_tasks_stack_id s).

(** What the consumer of TxTasks leaves alone: everything but the
    TxTasks stack. *)
Definition beside_tx_tasks (s : state) :=
  (memory s, stats s, mem_stat s, cursor s, copy_task_pointer s, used_msg s,
   msg_tasks s, msg_tasks_stack_id s, luos_tasks s, luos_tasks_stack_id s).

Section LocalMessages.

Context `{T : Target}.

(** The bytes of a message from the node itself that the allocator
    copies: its header and its payload, the payload cut at
    [MAX_DATA_MSG_SIZE]. *)
Definition local_msg_size (s : state) (msg : Z) : Z :=
  Z.min (header_size (memory s) msg) MAX_DATA_MSG_SIZE + sizeof_header_t.

(** Where [MsgAlloc_SetMessage] puts such a message: at [current_msg] if
    it ends before the end of the buffer, else at the start of the
    buffer. *)
Definition local_msg_place (s : state) (msg : Z) : Z :=
  if current_msg s + local_msg_size s msg <? msg_buffer + MSG_BUFFER_SIZE
  then current_msg s else msg_buffer.

End LocalMessages.

Section Transmission.

Context `{T : Target}.

(** Where [MsgAlloc_SetTxTask] moves the frame in reception: behind the
    frame to transmit, which goes to the start of the buffer when it does
    not fit behind [current_msg] and stays at [current_msg] otherwise;
    or, when the frame to transmit fits there but the two together do
    not, to the start of the buffer. *)
Definition moved_msg (s : state) (size : Z) : Z :=
  if msg_buffer + MSG_BUFFER_SIZE <=? current_msg s + size
  then msg_buffer + size
  else if msg_buffer + MSG_BUFFER_SIZE <=? data_end_estimation s + size
       then msg_buffer
       else current_msg s + size.

End Transmission.

(** ** Properties *)

(** *** Arrays *)

Lemma length_wr {A} (a : list A) i v : length (wr a i v) = length a.
Proof. apply length_insert. Qed.

Lemma length_slide_left {A} (past : A) count rm a :
  length (slide_left past count rm a) = length a.
Proof.
  revert rm a. induction count as [|k IH]; intros rm a; cbn; [done|].
  by rewrite IH, length_wr.
Qed.

Lemma lookup_slide_left {A} (past : A) count (r : nat) a (j : nat) :
  slide_left past count (Z.of_nat r) a !! j =
  if decide (r ≤ j < r + count ∧ j < length a)%nat
  then Some (rd past a (Z.of_nat (j + 1))) else a !! j.
Proof.
  revert r a. induction count as [|k IH]; intros r a; cbn.
  - case_decide; [lia|done].
  - replace (Z.of_nat r + 1) with (Z.of_nat (S r)) by lia.
    rewrite IH, length_wr. unfold wr, rd.
    rewrite !Nat2Z.id.
    destruct (decide (j = r)) as [->|Hne].
    + destruct (decide (r < length a)%nat).
      * rewrite list_lookup_insert_eq by lia.
        repeat case_decide; try lia.
        by rewrite Nat.add_1_r.
      * rewrite list_insert_ge by lia.
        repeat case_decide; try lia. done.
    + repeat case_decide; try lia;
        rewrite !list_lookup_insert_ne by lia; done.
Qed.

Lemma slide_left_pop {A} (past : A) (i n : nat) (a : list A) :
  (i < n ≤ length a)%nat →
  slide_left past (n - i) (Z.of_nat i) a =
  take i a ++ drop (S i) (take n a) ++ [rd past a (Z.of_nat n)] ++ drop n a.
Proof.
  intros H. apply list_eq. intros j.
  rewrite lookup_slide_left.
  case_decide as Hj.
  - rewrite lookup_app_r by (rewrite length_take; lia).
    rewrite length_take, Nat.min_l by lia.
    destruct (decide (j + 1 < n)%nat).
    + rewrite lookup_app_l by (rewrite length_drop, length_take; lia).
      rewrite lookup_drop, lookup_take_lt by lia.
      unfold rd. rewrite Nat2Z.id.
      replace (S i + (j - i))%nat with (j + 1)%nat by lia.
      destruct (lookup_lt_is_Some_2 a (j + 1)%nat) as [x Hx]; [lia|].
      rewrite Hx. done.
    + rewrite lookup_app_r by (rewrite length_drop, length_take; lia).
      rewrite length_drop, length_take, Nat.min_l by lia.
      replace (j - i - (n - S i))%nat with 0%nat by lia. cbn.
      assert (j + 1 = n)%nat as -> by lia. done.
  - destruct (decide (j < i)%nat).
    + rewrite lookup_app_l by (rewrite length_take; lia).
      rewrite lookup_take_lt by lia. done.
    + rewrite lookup_app_r by (rewrite length_take; lia).
      rewrite length_take, Nat.min_l by lia.
      rewrite lookup_app_r by (rewrite length_drop, length_take; lia).
      rewrite length_drop, length_take, Nat.min_l by lia.
      destruct (decide (j < length a)%nat).
      * assert (n ≤ j)%nat by lia.
        replace (j - i - (n - S i))%nat with (S (j - n)) by lia.
        rewrite <- app_comm_cons, lookup_cons_ne_0 by lia.
        rewrite app_nil_l, lookup_drop. f_equal. lia.
      * rewrite lookup_ge_None_2 by lia.
        symmetry. apply lookup_ge_None_2.
        rewrite length_app, length_drop. cbn. lia.
Qed.

Lemma u8_small x : 0 <= x < 2 ^ 8 -> u8 x = x.
Proof. intros. unfold u8. by rewrite Z.mod_small. Qed.

Lemma u16_small x : 0 <= x < 2 ^ 16 -> u16 x = x.
Proof. intros. unfold u16. by rewrite Z.mod_small. Qed.

Lemma u32_small x : 0 <= x < 2 ^ 32 -> u32 x = x.
Proof. intros. unfold u32. by rewrite Z.mod_small. Qed.

Lemma u16_range x : 0 <= u16 x < 2 ^ 16.
Proof. unfold u16. apply Z.mod_pos_bound. lia. Qed.


Section Properties.

Context `{T : Target}.

(** Running a piece of allocator code: the monad's operations unfold and
    the state projections compute. *)
Tactic Notation "state_simpl" :=
  cbn [memory stats mem_stat current_msg data_ptr data_end_estimation
       copy_task_pointer msg_tasks msg_tasks_stack_id used_msg luos_tasks
       luos_tasks_stack_id tx_tasks tx_tasks_stack_id
       set_memory set_stats set_mem_stat set_current_msg set_data_ptr
       set_data_end_estimation set_copy_task_pointer set_msg_tasks
       set_msg_tasks_stack_id set_used_msg set_luos_tasks
       set_luos_tasks_stack_id set_tx_tasks set_tx_tasks_stack_id
       msg_pt ll_container_pt data_pt size
       msg_stack_ratio luos_stack_ratio msg_drop_number
       andb orb negb one_if].

Tactic Notation "state_simpl" "in" hyp(H) :=
  cbn [memory stats mem_stat current_msg data_ptr data_end_estimation
       copy_task_pointer msg_tasks msg_tasks_stack_id used_msg luos_tasks
       luos_tasks_stack_id tx_tasks tx_tasks_stack_id
       set_memory set_stats set_mem_stat set_current_msg set_data_ptr
       set_data_end_estimation set_copy_task_pointer set_msg_tasks
       set_msg_tasks_stack_id set_used_msg set_luos_tasks
       set_luos_tasks_stack_id set_tx_tasks set_tx_tasks_stack_id
       msg_pt ll_container_pt data_pt size
       msg_stack_ratio luos_stack_ratio msg_drop_number
       andb orb negb one_if] in H.

Tactic Notation "state_simpl" "in" "*" :=
  cbn [memory stats mem_stat current_msg data_ptr data_end_estimation
       copy_task_pointer msg_tasks msg_tasks_stack_id used_msg luos_tasks
       luos_tasks_stack_id tx_tasks tx_tasks_stack_id
       set_memory set_stats set_mem_stat set_current_msg set_data_ptr
       set_data_end_estimation set_copy_task_pointer set_msg_tasks
       set_msg_tasks_stack_id set_used_msg set_luos_tasks
       set_luos_tasks_stack_id set_tx_tasks set_tx_tasks_stack_id
       msg_pt ll_container_pt data_pt size
       msg_stack_ratio luos_stack_ratio msg_drop_number
       andb orb negb one_if] in *.

Ltac exec :=
  cbv [mbind alloc_bind mret alloc_ret get modify LUOS_ASSERT fault];
  state_simpl.

(** Two states built from the same one are compared field by field. *)
Ltac state_norm :=
  cbv [memory stats mem_stat current_msg data_ptr data_end_estimation
       copy_task_pointer msg_tasks msg_tasks_stack_id used_msg luos_tasks
       luos_tasks_stack_id tx_tasks tx_tasks_stack_id
       set_memory set_stats set_mem_stat set_current_msg set_data_ptr
       set_data_end_estimation set_copy_task_pointer set_msg_tasks
       set_msg_tasks_stack_id set_used_msg set_luos_tasks
       set_luos_tasks_stack_id set_tx_tasks set_tx_tasks_stack_id].

Ltac same_state :=
  first [ reflexivity
        | state_simpl; reflexivity
        | state_norm; reflexivity ].

(** C9: [MsgAlloc_Init] always returns; it resets the reception cursor,
    MsgTasks, LuosTasks, the header-copy task pointer and [used_msg], and
    leaves [tx_tasks] and [tx_tasks_stack_id] as they were. *)
Theorem Init_leaves_tx_tasks (memory_stats : Z) (s : state) :
  exists s',
    MsgAlloc_Init memory_stats s = Done tt s'
    /\ current_msg s' = msg_buffer
    /\ data_ptr s' = msg_buffer
    /\ data_end_estimation s' = msg_buffer + sizeof_header_t + 2
    /\ msg_tasks_stack_id s' = 0
    /\ msg_tasks s' = replicate (Z.to_nat MAX_MSG_NB) 0
    /\ luos_tasks_stack_id s' = 0
    /\ luos_tasks s' = replicate (Z.to_nat MAX_MSG_NB) (mk_luos_task 0 0)
    /\ copy_task_pointer s' = NULL
    /\ used_msg s' = NULL
    /\ tx_tasks_stack_id s' = tx_tasks_stack_id s
    /\ tx_tasks s' = tx_tasks s.
Proof.
  unfold MsgAlloc_Init. exec.
  destruct (memory_stats =? NULL); eexists; (split; [reflexivity|]);
    cbn; tauto.
Qed.

(** *** Running straight-line code *)

Ltac split_outcome :=
  repeat match goal with
  | H : Done _ _ = Done _ _ |- _ => inversion H; subst; clear H
  | H : context [match ?x with _ => _ end] |- _ =>
      let E := fresh "E" in destruct x eqn:E; try discriminate
  | H : context [if ?b then _ else _] |- _ =>
      let E := fresh "E" in destruct b eqn:E; try discriminate
  end.

Ltac fails_branch :=
  let H := fresh "H" in exec; intros H; split_outcome; auto.

Lemma PullMsg_search_fail count i target_module :
  fails_cleanly (PullMsg_search count i target_module).
Proof.
  revert i. induction count as [|k IH]; intros i s out s' H.
  - cbv in H. by inversion H.
  - cbn [PullMsg_search] in H. revert H. exec. intros H.
    destruct (_ =? target_module).
    + split_outcome.
    + by apply IH in H.
Qed.

Lemma PullMsg_search_none count i target_module s :
  (forall j, i <= j < i + Z.of_nat count ->
     ll_container_pt (rd luos_tasks_past (luos_tasks s) j) <> target_module) ->
  PullMsg_search count i target_module s = Done (FAILED, None) s.
Proof.
  revert i. induction count as [|k IH]; intros i H; [done|].
  cbn [PullMsg_search]. exec.
  destruct (_ =? target_module) eqn:E.
  - apply Z.eqb_eq in E. exfalso. apply (H i); [lia|done].
  - apply IH. intros j Hj. apply H. lia.
Qed.

(** C10: a pull or peek that returns FAILED leaves the whole state as it
    was and stores nothing through its out parameter; and these four
    calls do return FAILED: [MsgAlloc_PullMsgToInterpret] on an
    empty MsgTasks stack, [MsgAlloc_PullMsg] when no entry of LuosTasks is
    for the endpoint, [MsgAlloc_PullMsgFromLuosTask] with an index at or
    past the stack counter, [MsgAlloc_GetTxTask] on an empty TxTasks
    stack. *)
Theorem failed_pull_changes_nothing (HMAX : 0 < MAX_MSG_NB) :
  (fails_cleanly MsgAlloc_PullMsgToInterpret
   /\ (forall target_module, fails_cleanly (MsgAlloc_PullMsg target_module))
   /\ (forall i, fails_cleanly (MsgAlloc_PullMsgFromLuosTask i))
   /\ (forall i, fails_cleanly (MsgAlloc_LookAtLuosTask i))
   /\ (forall i, fails_cleanly (MsgAlloc_GetLuosTaskCmd i))
   /\ (forall i, fails_cleanly (MsgAlloc_GetLuosTaskSourceId i))
   /\ (forall i, fails_cleanly (MsgAlloc_GetLuosTaskSize i))
   /\ fails_cleanly MsgAlloc_GetTxTask)
  /\ (forall s, msg_tasks_stack_id s = 0 ->
        MsgAlloc_PullMsgToInterpret s = Done (FAILED, None) s)
  /\ (forall s target_module,
        (forall i, 0 <= i < luos_tasks_stack_id s ->
           ll_container_pt (rd luos_tasks_past (luos_tasks s) i)
           <> target_module) ->
        MsgAlloc_PullMsg target_module s = Done (FAILED, None) s)
  /\ (forall s i, luos_tasks_stack_id s <= i ->
        MsgAlloc_PullMsgFromLuosTask i s = Done (FAILED, None) s)
  /\ (forall s, tx_tasks_stack_id s = 0 ->
        MsgAlloc_GetTxTask s = Done (FAILED, None) s).
Proof.
  split; [|split; [|split; [|split]]].
  - repeat apply conj.
    + intros s out s'. unfold MsgAlloc_PullMsgToInterpret. fails_branch.
    + intros t s out s'. unfold MsgAlloc_PullMsg. exec.
      apply PullMsg_search_fail.
    + intros i s out s'. unfold MsgAlloc_PullMsgFromLuosTask. fails_branch.
    + intros i s out s'. unfold MsgAlloc_LookAtLuosTask. fails_branch.
    + intros i s out s'. unfold MsgAlloc_GetLuosTaskCmd. fails_branch.
    + intros i s out s'. unfold MsgAlloc_GetLuosTaskSourceId. fails_branch.
    + intros i s out s'. unfold MsgAlloc_GetLuosTaskSize. fails_branch.
    + intros s out s'. unfold MsgAlloc_GetTxTask. fails_branch.
  - intros s H. unfold MsgAlloc_PullMsgToInterpret. exec. by rewrite H.
  - intros s t H. unfold MsgAlloc_PullMsg. exec.
    apply PullMsg_search_none. intros j Hj. apply H. lia.
  - intros s i H. unfold MsgAlloc_PullMsgFromLuosTask. exec.
    by rewrite (proj2 (Z.ltb_ge _ _) H).
  - intros s H. unfold MsgAlloc_GetTxTask. exec. rewrite H.
    rewrite (proj2 (Z.ltb_lt _ _) HMAX). done.
Qed.

(** *** Taking an entry off a stack *)

Lemma ClearLuosTask_pop (i : Z) (s : state) :
  0 <= i < luos_tasks_stack_id s ->
  (Z.to_nat (luos_tasks_stack_id s) <= length (luos_tasks s))%nat ->
  luos_tasks_stack_id s <= 2 ^ 16 ->
  MsgAlloc_ClearLuosTask i s =
  Done tt
    (set_luos_tasks_stack_id (luos_tasks_stack_id s - 1)
       (set_luos_tasks
          (take (Z.to_nat i) (luos_tasks s)
           ++ drop (S (Z.to_nat i)) (live (luos_tasks s) (luos_tasks_stack_id s))
           ++ [rd luos_tasks_past (luos_tasks s) (luos_tasks_stack_id s)]
           ++ drop (Z.to_nat (luos_tasks_stack_id s)) (luos_tasks s))
          s)).
Proof.
  intros Hi Hlen H16. unfold MsgAlloc_ClearLuosTask. exec.
  rewrite (proj2 (Z.leb_le i _)) by lia. cbn.
  rewrite (proj2 (Z.eqb_neq _ 0)) by lia.
  rewrite u16_small by lia.
  rewrite <- (Z2Nat.id i) at 2 by lia.
  rewrite Z2Nat.inj_sub by lia.
  rewrite slide_left_pop by lia.
  unfold live. by rewrite Z2Nat.id by lia.
Qed.

Lemma ClearLuosTask_pop_oldest (s : state) :
  0 < luos_tasks_stack_id s <= 2 ^ 16 ->
  (Z.to_nat (luos_tasks_stack_id s) <= length (luos_tasks s))%nat ->
  MsgAlloc_ClearLuosTask 0 s =
  Done tt
    (set_luos_tasks_stack_id (luos_tasks_stack_id s - 1)
       (set_luos_tasks
          (drop 1 (live (luos_tasks s) (luos_tasks_stack_id s))
           ++ [rd luos_tasks_past (luos_tasks s) (luos_tasks_stack_id s)]
           ++ drop (Z.to_nat (luos_tasks_stack_id s)) (luos_tasks s))
          s)).
Proof. intros. by rewrite ClearLuosTask_pop by lia. Qed.

Lemma ClearMsgTask_pop (s : state) :
  0 < msg_tasks_stack_id s <= MAX_MSG_NB ->
  (Z.to_nat (msg_tasks_stack_id s) <= length (msg_tasks s))%nat ->
  MAX_MSG_NB < 2 ^ 16 ->
  MsgAlloc_ClearMsgTask s =
  Done tt
    (set_msg_tasks_stack_id (msg_tasks_stack_id s - 1)
       (set_msg_tasks
          (drop 1 (live (msg_tasks s) (msg_tasks_stack_id s))
           ++ [0]
           ++ drop (Z.to_nat (msg_tasks_stack_id s)) (msg_tasks s))
          s)).
Proof.
  intros Hi Hlen H16. unfold MsgAlloc_ClearMsgTask. exec.
  rewrite (proj2 (Z.leb_le _ _)) by lia.
  rewrite (proj2 (Z.ltb_lt 0 _)) by lia. cbn.
  rewrite u16_small by lia.
  pose proof (slide_left_pop msg_tasks_past 0 (Z.to_nat (msg_tasks_stack_id s))
                (msg_tasks s)) as Hs.
  rewrite Nat.sub_0_r in Hs. change (Z.of_nat 0) with 0 in Hs.
  rewrite Hs by lia. clear Hs.
  unfold set_msg_tasks_stack_id, set_msg_tasks, live; cbn. f_equal.
  unfold wr. rewrite take_0, app_nil_l.
  set (l := drop 1 (take _ _)).
  assert (length l = Z.to_nat (msg_tasks_stack_id s - 1)) as Hl.
  { unfold l. rewrite length_drop, length_take. lia. }
  rewrite <- Hl. rewrite insert_app_r_alt by lia.
  by rewrite Nat.sub_diag.
Qed.

Lemma PullMsg_search_hit (n k : nat) (i target_module : Z) (s : state) :
  (forall j, i <= j < i + Z.of_nat n ->
     ll_container_pt (rd luos_tasks_past (luos_tasks s) j) <> target_module) ->
  ll_container_pt (rd luos_tasks_past (luos_tasks s) (i + Z.of_nat n))
  = target_module ->
  PullMsg_search (n + S k) i target_module s =
  (modify (set_used_msg
             (msg_pt (rd luos_tasks_past (luos_tasks s) (i + Z.of_nat n))));;
   MsgAlloc_ClearLuosTask (i + Z.of_nat n);;
   mret (SUCCEED,
         Some (msg_pt (rd luos_tasks_past (luos_tasks s) (i + Z.of_nat n))))) s.
Proof.
  revert i. induction n as [|n IH]; intros i Hne Heq.
  - rewrite Z.add_0_r in *. cbn [Nat.add PullMsg_search]. exec.
    by rewrite (proj2 (Z.eqb_eq _ _) Heq).
  - cbn [Nat.add PullMsg_search].
    replace (i + Z.of_nat (S n)) with (i + 1 + Z.of_nat n) in * by lia.
    rewrite <- IH; [|intros j Hj; apply Hne; lia|done].
    exec. rewrite (proj2 (Z.eqb_neq _ _)); [done|]. apply Hne. lia.
Qed.

Lemma set_stats_same (s : state) (r : memory_stats_t) :
  stats s !! mem_stat s = Some r ->
  set_stats (<[mem_stat s := r]> (stats s)) s = s.
Proof. intros H. rewrite insert_id by done. by destruct s. Qed.

(** [MsgAlloc_LuosTaskAlloc] returns whenever [mem_stat] points to a
    record: the entry is written at the stack counter, after the oldest
    entry was taken off a full stack, and [luos_stack_ratio] is the only
    statistic it may change. *)
Lemma LuosTaskAlloc_run (c m : Z) (s : state) (r : memory_stats_t) :
  0 < MAX_MSG_NB < 2 ^ 16 ->
  length (luos_tasks s) = Z.to_nat MAX_MSG_NB ->
  0 <= luos_tasks_stack_id s <= MAX_MSG_NB ->
  mem_stat s <> NULL ->
  stats s !! mem_stat s = Some r ->
  exists ratio,
    MsgAlloc_LuosTaskAlloc c m s =
    Done tt
      (set_stats
         (<[mem_stat s :=
              mk_memory_stats (msg_stack_ratio r) ratio (msg_drop_number r)]>
            (stats s))
         (if luos_tasks_stack_id s =? MAX_MSG_NB
          then set_luos_tasks (drop 1 (luos_tasks s) ++ [mk_luos_task m c]) s
          else set_luos_tasks_stack_id (luos_tasks_stack_id s + 1)
                 (set_luos_tasks
                    (wr (luos_tasks s) (luos_tasks_stack_id s)
                       (mk_luos_task m c)) s))).
Proof.
  intros H16 Hlen Hid Hp Hr.
  apply Z.eqb_neq in Hp.
  unfold MsgAlloc_LuosTaskAlloc.
  destruct (luos_tasks_stack_id s =? MAX_MSG_NB) eqn:E.
  - apply Z.eqb_eq in E.
    cbv [mbind alloc_bind get]. rewrite E, Z.eqb_refl.
    rewrite ClearLuosTask_pop_oldest by lia. rewrite E.
    set (L := drop 1 _ ++ _).
    assert (wr L (MAX_MSG_NB - 1) (mk_luos_task m c)
            = drop 1 (luos_tasks s) ++ [mk_luos_task m c]) as HL.
    { unfold L, live. rewrite <- Hlen, firstn_all, drop_all.
      assert (length (drop 1 (luos_tasks s)) = Z.to_nat (MAX_MSG_NB - 1))
        as Hl by (rewrite length_drop; lia).
      unfold wr. by rewrite <- Hl, insert_app_r_alt, Nat.sub_diag by lia. }
    unfold raise_luos_stack_ratio, mem_stat_load, mem_stat_store. exec.
    rewrite Hp, Hr, HL, u16_small by lia.
    replace (MAX_MSG_NB - 1 + 1) with (luos_tasks_stack_id s) by lia.
    destruct (_ <? _); eexists.
    + exec. same_state.
    + exec. instantiate (1 := luos_stack_ratio r).
      rewrite insert_id by (by destruct r). same_state.
  - cbv [mbind alloc_bind get]. rewrite E.
    unfold raise_luos_stack_ratio, mem_stat_load, mem_stat_store. exec.
    apply Z.eqb_neq in E. rewrite Hp, Hr, u16_small by lia.
    destruct (_ <? _); eexists.
    + exec. same_state.
    + exec. instantiate (1 := luos_stack_ratio r).
      rewrite insert_id by (by destruct r). same_state.
Qed.

Lemma rd_wr_eq {A} (past : A) (a : list A) (i : Z) (v : A) :
  (Z.to_nat i < length a)%nat -> rd past (wr a i v) i = v.
Proof. intros. unfold rd, wr. by rewrite list_lookup_insert_eq. Qed.

Lemma rd_wr_ne {A} (past : A) (a : list A) (i j : Z) (v : A) :
  0 <= i -> 0 <= j -> i <> j -> rd past (wr a i v) j = rd past a j.
Proof. intros. unfold rd, wr. by rewrite list_lookup_insert_ne by lia. Qed.

Lemma rd_take_app {A} (past : A) (a b : list A) (n : nat) (j : Z) :
  (Z.to_nat j < n <= length a)%nat -> rd past (take n a ++ b) j = rd past a j.
Proof.
  intros. unfold rd.
  rewrite lookup_app_l by (rewrite length_take; lia).
  by rewrite lookup_take_lt by lia.
Qed.

(** C2, on the code: on a full LuosTasks stack [MsgAlloc_LuosTaskAlloc]
    returns, takes the oldest entry off (index 0), slides the others left
    and writes the new entry last, but leaves [msg_drop_number] as it was:
    the eviction is not counted. *)
Theorem LuosTaskAlloc_full_counts_no_drop (c m : Z) (s : state)
    (r : memory_stats_t) :
  0 < MAX_MSG_NB < 2 ^ 16 ->
  length (luos_tasks s) = Z.to_nat MAX_MSG_NB ->
  luos_tasks_stack_id s = MAX_MSG_NB ->
  mem_stat s <> NULL ->
  stats s !! mem_stat s = Some r ->
  exists s' r',
    MsgAlloc_LuosTaskAlloc c m s = Done tt s'
    /\ luos_tasks s' = drop 1 (luos_tasks s) ++ [mk_luos_task m c]
    /\ luos_tasks_stack_id s' = MAX_MSG_NB
    /\ mem_stat s' = mem_stat s
    /\ stats s' !! mem_stat s' = Some r'
    /\ msg_drop_number r' = msg_drop_number r.
Proof.
  intros H16 Hlen Hid Hp Hr.
  destruct (LuosTaskAlloc_run c m s r) as [ratio Hrun]; try done; [lia|].
  rewrite Hid, Z.eqb_refl in Hrun.
  eexists _, _. split; [exact Hrun|]. cbn.
  rewrite lookup_insert_eq. done.
Qed.

(** C7: from a state whose LuosTasks stack is not full and holds no entry
    for endpoint [e], after [MsgAlloc_LuosTaskAlloc e F] the next
    [MsgAlloc_PullMsg e] returns SUCCEED with [F] and sets [used_msg] to
    [F], and one more [MsgAlloc_PullMsg e] returns FAILED. *)
Theorem alloc_then_pull (e F : Z) (s : state) (r : memory_stats_t) :
  0 < MAX_MSG_NB < 2 ^ 16 ->
  length (luos_tasks s) = Z.to_nat MAX_MSG_NB ->
  0 <= luos_tasks_stack_id s < MAX_MSG_NB ->
  mem_stat s <> NULL ->
  stats s !! mem_stat s = Some r ->
  (forall i, 0 <= i < luos_tasks_stack_id s ->
     ll_container_pt (rd luos_tasks_past (luos_tasks s) i) <> e) ->
  exists s1 s2,
    MsgAlloc_LuosTaskAlloc e F s = Done tt s1
    /\ MsgAlloc_PullMsg e s1 = Done (SUCCEED, Some F) s2
    /\ used_msg s2 = F
    /\ MsgAlloc_PullMsg e s2 = Done (FAILED, None) s2.
Proof.
  intros H16 Hlen Hid Hp Hr Hfree.
  destruct (LuosTaskAlloc_run e F s r) as [ratio Hrun]; try done; [lia|].
  rewrite (proj2 (Z.eqb_neq _ _)) in Hrun by lia.
  remember (luos_tasks_stack_id s) as n eqn:En.
  remember (wr (luos_tasks s) n (mk_luos_task F e)) as l1 eqn:El1.
  assert (length l1 = Z.to_nat MAX_MSG_NB) as Hlen1
    by (subst l1; by rewrite length_wr).
  assert (rd luos_tasks_past l1 n = mk_luos_task F e) as Hn
    by (subst l1; apply rd_wr_eq; lia).
  assert (forall j, 0 <= j < n ->
            rd luos_tasks_past l1 j = rd luos_tasks_past (luos_tasks s) j)
    as Hold by (intros; subst l1; apply rd_wr_ne; lia).
  clear El1.
  eexists _, _. split; [exact Hrun|].
  unfold MsgAlloc_PullMsg at 1. cbv [mbind alloc_bind get]. cbn.
  replace (Z.to_nat (n + 1)) with (Z.to_nat n + 1)%nat by lia.
  rewrite (PullMsg_search_hit (Z.to_nat n) 0 0 e); cbn.
  2: { intros j Hj. rewrite Hold by lia. apply Hfree. lia. }
  2: { rewrite Z.add_0_l, Z2Nat.id by lia. by rewrite Hn. }
  rewrite Z.add_0_l, Z2Nat.id, Hn by lia. cbn.
  cbv [mbind alloc_bind modify].
  rewrite ClearLuosTask_pop; cbn; [|lia..].
  cbv [mret alloc_ret]. split; [reflexivity|]. split; [reflexivity|].
  unfold MsgAlloc_PullMsg. cbv [mbind alloc_bind get]. cbn.
  replace (n + 1 - 1) with n by lia.
  apply PullMsg_search_none. cbn. intros j Hj.
  rewrite rd_take_app by lia. rewrite Hold by lia. apply Hfree. lia.
Qed.

(** *** Relations kept by allocator code *)

Section Preserves.

Context (R : state -> state -> Prop) `{!PreOrder R}.

Lemma preserves_ret {A} (a : A) : preserves R (mret a).
Proof. intros s a' s' H. inversion H. reflexivity. Qed.

Lemma preserves_get : preserves R get.
Proof. intros s a' s' H. inversion H. reflexivity. Qed.

Lemma preserves_assert b : preserves R (LUOS_ASSERT b).
Proof. intros s a' s' H. unfold LUOS_ASSERT in H. destruct b; inversion H. reflexivity. Qed.

Lemma preserves_modify f : (forall s, R s (f s)) -> preserves R (modify f).
Proof. intros Hf s a' s' H. inversion H. apply Hf. Qed.

Lemma preserves_bind {A B} (m : alloc A) (f : A -> alloc B) :
  preserves R m -> (forall a, preserves R (f a)) -> preserves R (m ≫= f).
Proof.
  intros Hm Hf s b s' H. cbv [mbind alloc_bind] in H.
  destruct (m s) as [a s1| |] eqn:E; try discriminate.
  transitivity s1; [by eapply Hm|by eapply Hf].
Qed.

End Preserves.

Ltac preserves_step :=
  match goal with
  | |- preserves _ (_ ≫= _) => apply preserves_bind; [tc_solve| |intros ?]
  | |- preserves _ (mret _) => apply preserves_ret; tc_solve
  | |- preserves _ get => apply preserves_get; tc_solve
  | |- preserves _ (LUOS_ASSERT _) => apply preserves_assert; tc_solve
  | |- preserves _ (modify _) => apply preserves_modify; intros ?
  | |- preserves _ (if ?b then _ else _) => destruct b
  | |- preserves _ (match ?x with _ => _ end) => destruct x
  | |- preserves _ (let _ := _ in _) => cbv zeta
  end.

#[local] Instance same_on_preorder {B} (f : state -> B) : PreOrder (same_on f).
Proof. split; unfold same_on; [done|congruence]. Qed.

#[local] Instance drops_grow_preorder : PreOrder drops_grow.
Proof.
  split.
  - intros s p r H. exists r. split; [done|lia].
  - intros s1 s2 s3 H12 H23 p r H.
    destruct (H12 p r H) as (r2 & H2 & Hle2 & Hb2).
    destruct (H23 p r2 H2) as (r3 & H3 & Hle3 & Hb3).
    exists r3. split; [done|lia].
Qed.

Lemma drops_grow_same_stats s s' : stats s' = stats s -> drops_grow s s'.
Proof. intros H p r Hr. exists r. rewrite H. split; [done|lia]. Qed.

Lemma drops_grow_store s r r' :
  stats s !! mem_stat s = Some r ->
  msg_drop_number r <= msg_drop_number r' ->
  (msg_drop_number r <= 255 -> msg_drop_number r' <= 255) ->
  drops_grow s (set_stats (<[mem_stat s := r']> (stats s)) s).
Proof.
  intros Hr Hd Hb p r0 H0. cbn.
  destruct (decide (p = mem_stat s)) as [->|Hne].
  - rewrite lookup_insert_eq. exists r'. split; [done|].
    rewrite Hr in H0. inversion H0; subst. lia.
  - rewrite lookup_insert_ne by done. exists r0. split; [done|lia].
Qed.

Lemma count_drop_grows : preserves drops_grow count_drop.
Proof.
  intros s a s'. unfold count_drop, mem_stat_load, mem_stat_store. exec.
  intros H. split_outcome; [|reflexivity].
  eapply drops_grow_store; [done|cbn; lia|cbn; lia].
Qed.

Create HintDb pres.

Ltac pres_leaf :=
  solve [ eauto with pres
        | unfold same_on; reflexivity
        | apply drops_grow_same_stats; reflexivity ].

Ltac pres := repeat preserves_step; try pres_leaf.

(** What [MsgAlloc_ClearMsgSpace] keeps: any relation that holds across a
    store to [used_msg], to the LuosTasks and MsgTasks stacks and their
    counters, and across counting a drop. *)
Section Reclaimer.

Context (R : state -> state -> Prop) `{!PreOrder R}.
Hypothesis R_used_msg : forall v s, R s (set_used_msg v s).
Hypothesis R_luos_tasks : forall v s, R s (set_luos_tasks v s).
Hypothesis R_luos_tasks_stack_id : forall v s, R s (set_luos_tasks_stack_id v s).
Hypothesis R_msg_tasks : forall v s, R s (set_msg_tasks v s).
Hypothesis R_msg_tasks_stack_id : forall v s, R s (set_msg_tasks_stack_id v s).
Hypothesis R_count_drop : preserves R count_drop.

Lemma ClearMsgTask_preserves : preserves R MsgAlloc_ClearMsgTask.
Proof. unfold MsgAlloc_ClearMsgTask. pres. Qed.

Lemma ClearLuosTask_preserves i : preserves R (MsgAlloc_ClearLuosTask i).
Proof. unfold MsgAlloc_ClearLuosTask. pres. Qed.

Lemma ClearMsgSpace_luos_tasks_preserves fuel from to :
  preserves R (ClearMsgSpace_luos_tasks fuel from to).
Proof.
  induction fuel as [|k IH]; cbn [ClearMsgSpace_luos_tasks]; pres.
  apply ClearLuosTask_preserves.
Qed.

Lemma ClearMsgSpace_msg_tasks_preserves fuel from to :
  preserves R (ClearMsgSpace_msg_tasks fuel from to).
Proof.
  induction fuel as [|k IH]; cbn [ClearMsgSpace_msg_tasks]; pres.
  apply ClearMsgTask_preserves.
Qed.

Lemma ClearMsgSpace_preserves from to :
  preserves R (MsgAlloc_ClearMsgSpace from to).
Proof.
  unfold MsgAlloc_ClearMsgSpace. pres.
  - apply ClearMsgSpace_luos_tasks_preserves.
  - apply ClearMsgSpace_msg_tasks_preserves.
Qed.

End Reclaimer.

(** *** The drop counter *)

Lemma raise_msg_stack_ratio_grows stat :
  preserves drops_grow (raise_msg_stack_ratio stat).
Proof.
  intros s a s'. unfold raise_msg_stack_ratio, mem_stat_load, mem_stat_store.
  exec. intros H. split_outcome; [|reflexivity].
  eapply drops_grow_store; [done|cbn; lia|cbn; lia].
Qed.

Lemma raise_luos_stack_ratio_grows stat :
  preserves drops_grow (raise_luos_stack_ratio stat).
Proof.
  intros s a s'. unfold raise_luos_stack_ratio, mem_stat_load, mem_stat_store.
  exec. intros H. split_outcome; [|reflexivity].
  eapply drops_grow_store; [done|cbn; lia|cbn; lia].
Qed.

#[local] Hint Resolve count_drop_grows raise_msg_stack_ratio_grows
  raise_luos_stack_ratio_grows : pres.

Lemma ClearMsgTask_grows : preserves drops_grow MsgAlloc_ClearMsgTask.
Proof. apply ClearMsgTask_preserves; try tc_solve; intros; pres_leaf. Qed.

Lemma ClearLuosTask_grows i : preserves drops_grow (MsgAlloc_ClearLuosTask i).
Proof. apply ClearLuosTask_preserves; try tc_solve; intros; pres_leaf. Qed.

Lemma ClearMsgSpace_grows from to :
  preserves drops_grow (MsgAlloc_ClearMsgSpace from to).
Proof. apply ClearMsgSpace_preserves; try tc_solve; intros; pres_leaf. Qed.

#[local] Hint Resolve ClearMsgTask_grows ClearLuosTask_grows
  ClearMsgSpace_grows : pres.

Lemma EndMsg_grows : preserves drops_grow MsgAlloc_EndMsg.
Proof. unfold MsgAlloc_EndMsg. pres. Qed.

#[local] Hint Resolve EndMsg_grows : pres.

Lemma PullMsg_search_grows count i target_module :
  preserves drops_grow (PullMsg_search count i target_module).
Proof.
  revert i. induction count as [|k IH]; intros i; cbn [PullMsg_search]; pres.
Qed.

Lemma ClearMsgFromLuosTasks_loop_grows fuel id msg :
  preserves drops_grow (ClearMsgFromLuosTasks_loop fuel id msg).
Proof.
  revert id. induction fuel as [|k IH]; intros id;
    cbn [ClearMsgFromLuosTasks_loop]; pres.
Qed.

Lemma PullMsgFromTxTask_grows : preserves drops_grow MsgAlloc_PullMsgFromTxTask.
Proof. unfold MsgAlloc_PullMsgFromTxTask. pres. Qed.

#[local] Hint Resolve PullMsg_search_grows ClearMsgFromLuosTasks_loop_grows
  PullMsgFromTxTask_grows : pres.

Lemma run_op_grows o : preserves drops_grow (run_op o).
Proof.
  destruct o; cbn [run_op];
    unfold MsgAlloc_Init, MsgAlloc_loop, MsgAlloc_InvalidMsg,
      MsgAlloc_ValidHeader, MsgAlloc_SetData, MsgAlloc_SetMessage,
      MsgAlloc_GetCurrentMsg, MsgAlloc_IsEmpty, MsgAlloc_PullMsgToInterpret,
      MsgAlloc_UsedMsgEnd, MsgAlloc_LuosTaskAlloc, MsgAlloc_PullMsg,
      MsgAlloc_PullMsgFromLuosTask, MsgAlloc_LookAtLuosTask,
      MsgAlloc_GetLuosTaskCmd, MsgAlloc_GetLuosTaskSourceId,
      MsgAlloc_GetLuosTaskSize, MsgAlloc_LuosTasksNbr,
      MsgAlloc_ClearMsgFromLuosTasks, MsgAlloc_SetTxTask, MsgAlloc_GetTxTask;
    pres.
Qed.

(** C8: across every sequence of allocator calls no drop counter goes
    down, and a counter that is at most 255 stays at most 255; this holds
    for [mem_stat->msg_drop_number] and for every other statistics
    record. *)
Theorem drop_counter_monotone (l : list op) (s s' : state) :
  run_ops l s = Done tt s' ->
  forall p r, stats s !! p = Some r ->
    exists r', stats s' !! p = Some r'
      /\ msg_drop_number r <= msg_drop_number r'
      /\ (msg_drop_number r <= 255 -> msg_drop_number r' <= 255).
Proof.
  revert s. induction l as [|o l IH]; intros s H.
  - inversion H. intros p r Hr. exists r. split; [done|lia].
  - cbn [run_ops] in H. cbv [mbind alloc_bind] in H.
    destruct (run_op o s) as [[] s1| |] eqn:E; try discriminate.
    pose proof (run_op_grows o _ _ _ E) as HE.
    pose proof (IH _ H) as HI.
    intros p r Hr.
    destruct (HE p r Hr) as (r1 & H1 & Hle1 & Hb1).
    destruct (HI p r1 H1) as (r2 & H2 & Hle2 & Hb2).
    exists r2. split; [done|lia].
Qed.

(** *** The transmit stack *)

Lemma ClearMsgSpace_tx_tasks_stack_id from to s a s' :
  MsgAlloc_ClearMsgSpace from to s = Done a s' ->
  tx_tasks_stack_id s' = tx_tasks_stack_id s.
Proof.
  apply (ClearMsgSpace_preserves (same_on tx_tasks_stack_id));
    try tc_solve; try (intros; reflexivity).
  unfold count_drop, mem_stat_load, mem_stat_store.
  intros s0 a0 s0'. exec. intros H. split_outcome; reflexivity.
Qed.

Lemma PullMsgFromTxTask_asserts s a s' :
  MsgAlloc_PullMsgFromTxTask s = Done a s' ->
  0 < tx_tasks_stack_id s < MAX_MSG_NB.
Proof.
  unfold MsgAlloc_PullMsgFromTxTask. exec.
  destruct (0 <? _) eqn:E1; [|discriminate].
  destruct (_ <? MAX_MSG_NB) eqn:E2; [|discriminate].
  intros _. lia.
Qed.

(** C5, on the code: a call of [MsgAlloc_SetTxTask] whose push brings
    [tx_tasks_stack_id] to [MAX_MSG_NB] never returns.  It calls
    [MsgAlloc_PullMsgFromTxTask], whose LUOS_ASSERT wants
    [tx_tasks_stack_id < MAX_MSG_NB]: the oldest entry is not popped and
    the drop is not counted. *)
Theorem SetTxTask_overflow_never_returns (data size : Z) (s : state) :
  0 < MAX_MSG_NB < 2 ^ 16 ->
  tx_tasks_stack_id s = MAX_MSG_NB - 1 ->
  forall s', MsgAlloc_SetTxTask data size s <> Done tt s'.
Proof.
  intros HMAX Hid s'. unfold MsgAlloc_SetTxTask. exec. intros H.
  split_outcome;
    repeat match goal with
    | E : MsgAlloc_ClearMsgSpace _ _ _ = Done _ _ |- _ =>
        apply ClearMsgSpace_tx_tasks_stack_id in E; cbn in E
    | E : MsgAlloc_PullMsgFromTxTask _ = Done _ _ |- _ =>
        apply PullMsgFromTxTask_asserts in E; cbn in E
    | E : (_ =? _) = false |- _ => apply Z.eqb_neq in E; cbn in E
    end;
    cbn in *;
    repeat match goal with
    | E : tx_tasks_stack_id ?x = _ |- _ =>
        let t := fresh "t" in
        set (t := tx_tasks_stack_id x) in *; clearbody t; subst t
    end;
    replace (MAX_MSG_NB - 1 + 1) with MAX_MSG_NB in * by lia;
    rewrite u16_small in * by lia; lia.
Qed.

(** *** Counting drops *)

Lemma drops_counted_0 r : msg_drop_number r <= 255 -> drops_counted 0 r = r.
Proof.
  intros H. destruct r as [a b d]; cbn in *. unfold drops_counted; cbn.
  f_equal. lia.
Qed.

Lemma drops_counted_add n m r :
  0 <= n -> 0 <= m ->
  drops_counted m (drops_counted n r) = drops_counted (n + m) r.
Proof. intros. unfold drops_counted; cbn. f_equal. lia. Qed.

Lemma drops_counted_le n r :
  msg_drop_number (drops_counted n r) <= 255.
Proof. cbn. lia. Qed.

Lemma count_drop_run (s : state) (r : memory_stats_t) :
  mem_stat_is r s ->
  count_drop s
  = Done tt (set_stats (<[mem_stat s := drops_counted 1 r]> (stats s)) s).
Proof.
  intros (Hp & Hr & Hd). apply Z.eqb_neq in Hp.
  unfold count_drop, mem_stat_load, mem_stat_store. exec.
  rewrite Hp, Hr. destruct (_ <? 255) eqn:E; exec.
  - do 3 f_equal. unfold drops_counted. f_equal. lia.
  - replace (drops_counted 1 r) with r.
    + by rewrite set_stats_same.
    + destruct r as [a b d]; unfold drops_counted; cbn in *. f_equal. lia.
Qed.

Lemma mem_stat_is_counted n r s :
  mem_stat_is r s ->
  mem_stat_is (drops_counted n r)
    (set_stats (<[mem_stat s := drops_counted n r]> (stats s)) s).
Proof.
  intros (Hp & Hr & Hd). repeat split; cbn; [done| |lia].
  by rewrite lookup_insert_eq.
Qed.

(** *** The reception cursor: header validation *)

(** C3: [MsgAlloc_ValidHeader] with [valid = true].  When the frame end
    [current_msg + sizeof(header_t) + data_size + 2] lies past the last
    byte of the buffer, [copy_task_pointer] takes the old [current_msg],
    [current_msg] moves to the buffer start and [data_ptr] to
    [msg_buffer + sizeof(header_t)]; [data_end_estimation] is computed from
    the [current_msg] so obtained; and when [used_msg] lies between that
    [current_msg] and that end, it is nulled and one drop is counted.
    Nothing else changes.  With any other [valid] (false is 0), the call
    only resets [data_ptr] to [current_msg]. *)
Theorem ValidHeader_spec (data_size : Z) (s : state) (r : memory_stats_t) :
  mem_stat_is r s ->
  let wraps :=
    u32 (msg_buffer + (MSG_BUFFER_SIZE - 1))
    <? u32 (current_msg s + sizeof_header_t + (data_size + 2)) in
  let cm := if wraps then msg_buffer else current_msg s in
  let dend := cm + sizeof_header_t + (data_size + 2) in
  let hit := in_space cm dend (used_msg s) in
  MsgAlloc_ValidHeader 1 data_size s
  = Done tt
      (set_stats
         (<[mem_stat s := drops_counted (one_if hit) r]> (stats s))
         (set_used_msg (if hit then NULL else used_msg s)
            (set_data_end_estimation dend
               (set_data_ptr
                  (if wraps then msg_buffer + sizeof_header_t else data_ptr s)
                  (set_current_msg cm
                     (set_copy_task_pointer
                        (if wraps then current_msg s else copy_task_pointer s)
                        s))))))
  /\ forall valid, valid <> 1 ->
       MsgAlloc_ValidHeader valid data_size s
       = Done tt (set_data_ptr (current_msg s) s).
Proof.
  intros Hm wraps cm dend hit. subst hit dend cm wraps. split.
  - unfold MsgAlloc_ValidHeader, MsgAlloc_DoWeHaveSpace, in_space.
    change (1 =? 1) with true. exec.
    destruct (u32 _ <? u32 _); exec.
    + destruct (_ && _); exec.
      * rewrite (count_drop_run _ r) by exact Hm. same_state.
      * rewrite drops_counted_0 by apply Hm.
        destruct Hm as (_ & Hr & _). rewrite insert_id by done. same_state.
    + destruct (_ && _); exec.
      * rewrite (count_drop_run _ r) by exact Hm. same_state.
      * rewrite drops_counted_0 by apply Hm.
        destruct Hm as (_ & Hr & _). rewrite insert_id by done.
        by destruct s.
  - intros valid Hv. unfold MsgAlloc_ValidHeader.
    rewrite (proj2 (Z.eqb_neq _ _) Hv). by exec.
Qed.

(** *** The overlap reclaimer *)

Lemma live_cons {A} (past : A) (a : list A) (stack_id : Z) :
  0 < stack_id -> (Z.to_nat stack_id <= length a)%nat ->
  live a stack_id = rd past a 0 :: drop 1 (live a stack_id).
Proof.
  intros H Hlen. unfold live, rd.
  destruct (Z.to_nat stack_id) as [|n] eqn:E; [lia|].
  destruct a as [|x a]; [cbn in Hlen; lia|]. cbn. by rewrite drop_0.
Qed.

Lemma live_nil {A} (a : list A) (stack_id : Z) :
  stack_id <= 0 -> live a stack_id = [].
Proof. intros H. unfold live. by rewrite Z2Nat.nonpos. Qed.

Lemma length_live {A} (a : list A) (stack_id : Z) :
  (Z.to_nat stack_id <= length a)%nat ->
  length (live a stack_id) = Z.to_nat stack_id.
Proof. intros. unfold live. rewrite length_take. lia. Qed.

Lemma leading_le {A} (P : A -> bool) (l : list A) :
  (leading P l <= length l)%nat.
Proof. induction l as [|x l IH]; cbn; [lia|]. destruct (P x); cbn; lia. Qed.

Lemma popped_0 {A} (fill : A) (a : list A) (stack_id : Z) :
  popped 0 fill a stack_id = a.
Proof. unfold popped, live. cbn. by rewrite drop_0, take_drop. Qed.

Lemma length_popped {A} k (fill : A) (a : list A) (stack_id : Z) :
  (k <= Z.to_nat stack_id <= length a)%nat ->
  length (popped k fill a stack_id) = length a.
Proof.
  intros. unfold popped.
  rewrite !length_app, length_drop, length_live, length_replicate,
    length_drop by lia. lia.
Qed.

Lemma live_popped {A} k (fill : A) (a : list A) (stack_id : Z) :
  (k <= Z.to_nat stack_id <= length a)%nat ->
  live (popped k fill a stack_id) (stack_id - Z.of_nat k)
  = drop k (live a stack_id).
Proof.
  intros. unfold popped. unfold live at 1.
  rewrite take_app_length'; [done|].
  rewrite length_drop, length_live by lia. lia.
Qed.

Lemma popped_S {A} k (fill : A) (a : list A) (stack_id : Z) :
  (S k <= Z.to_nat stack_id <= length a)%nat ->
  popped k fill (popped 1 fill a stack_id) (stack_id - 1)
  = popped (S k) fill a stack_id.
Proof.
  intros. unfold popped at 1.
  replace (stack_id - 1) with (stack_id - Z.of_nat 1) by lia.
  rewrite live_popped by lia.
  unfold popped. rewrite drop_drop.
  replace (1 + k)%nat with (S k) by lia. f_equal.
  rewrite drop_app_length'.
  2: { rewrite length_drop, length_live by lia. lia. }
  replace (S k) with (k + 1)%nat by lia.
  by rewrite replicate_add, <- app_assoc.
Qed.

Lemma ClearMsgSpace_luos_tasks_run fuel from to : forall s r,
  mem_stat_is r s ->
  0 <= luos_tasks_stack_id s <= 2 ^ 16 ->
  (Z.to_nat (luos_tasks_stack_id s) <= length (luos_tasks s))%nat ->
  (Z.to_nat (luos_tasks_stack_id s) <= fuel)%nat ->
  let k := leading (fun e => in_space from to (msg_pt e))
             (live (luos_tasks s) (luos_tasks_stack_id s)) in
  ClearMsgSpace_luos_tasks fuel from to s
  = Done tt
      (set_stats (<[mem_stat s := drops_counted (Z.of_nat k) r]> (stats s))
         (set_luos_tasks_stack_id (luos_tasks_stack_id s - Z.of_nat k)
            (set_luos_tasks
               (popped k
                  (rd luos_tasks_past (luos_tasks s) (luos_tasks_stack_id s))
                  (luos_tasks s) (luos_tasks_stack_id s))
               s))).
Proof.
  assert (forall s r, mem_stat_is r s ->
            s = set_stats
                  (<[mem_stat s := drops_counted (Z.of_nat 0) r]> (stats s))
                  (set_luos_tasks_stack_id
                     (luos_tasks_stack_id s - Z.of_nat 0)
                     (set_luos_tasks
                        (popped 0
                           (rd luos_tasks_past (luos_tasks s)
                              (luos_tasks_stack_id s))
                           (luos_tasks s) (luos_tasks_stack_id s)) s)))
    as Hsame.
  { intros s r (Hp & Hr & Hd). change (Z.of_nat 0) with 0.
    rewrite drops_counted_0, insert_id, popped_0, Z.sub_0_r by done.
    by destruct s. }
  induction fuel as [|fuel IH]; intros s r Hm Hid Hlen Hfuel k.
  - subst k. rewrite live_nil by lia. cbn [leading ClearMsgSpace_luos_tasks].
    exec. f_equal. by apply Hsame.
  - cbn [ClearMsgSpace_luos_tasks]. cbv [mbind alloc_bind get].
    destruct (0 <? luos_tasks_stack_id s) eqn:Epos.
    2: { subst k. rewrite live_nil by lia. rewrite andb_false_r. exec.
         cbn [leading]. f_equal. by apply Hsame. }
    apply Z.ltb_lt in Epos.
    subst k. rewrite (live_cons luos_tasks_past) by lia.
    cbn [leading]. rewrite andb_true_r.
    destruct (in_space from to _) eqn:Ein.
    2: { exec. f_equal. by apply Hsame. }
    rewrite ClearLuosTask_pop_oldest by lia.
    set (fill := rd luos_tasks_past (luos_tasks s) (luos_tasks_stack_id s)).
    set (l1 := _ ++ _).
    assert (l1 = popped 1 fill (luos_tasks s) (luos_tasks_stack_id s))
      as Hl1 by done.
    clearbody l1. subst l1.
    rewrite (count_drop_run _ r) by exact Hm.
    set (s2 := set_stats _ _).
    assert (mem_stat_is (drops_counted 1 r) s2) as Hm2
      by (destruct Hm as (Hp & Hr & Hd); repeat split; cbn;
          [done|by rewrite lookup_insert_eq|lia]).
    assert (luos_tasks_stack_id s2 = luos_tasks_stack_id s - 1) as Hid2 by done.
    assert (luos_tasks s2
            = popped 1 fill (luos_tasks s) (luos_tasks_stack_id s))
      as Hl2 by done.
    rewrite (IH s2 (drops_counted 1 r) Hm2).
    2: { rewrite Hid2. lia. }
    2: { rewrite Hid2, Hl2, length_popped by lia. lia. }
    2: { rewrite Hid2. lia. }
    rewrite Hid2, Hl2.
    assert (live (popped 1 fill (luos_tasks s) (luos_tasks_stack_id s))
              (luos_tasks_stack_id s - 1)
            = drop 1 (live (luos_tasks s) (luos_tasks_stack_id s))) as ->
      by (rewrite <- live_popped with (fill := fill) by lia; f_equal).
    set (k := leading _ _).
    assert (k <= Z.to_nat (luos_tasks_stack_id s) - 1)%nat as Hk.
    { pose proof (leading_le
        (fun e => in_space from to (msg_pt e))
        (drop 1 (live (luos_tasks s) (luos_tasks_stack_id s)))) as Hle.
      fold k in Hle. rewrite length_drop, length_live in Hle by lia. lia. }
    assert (rd luos_tasks_past
              (popped 1 fill (luos_tasks s) (luos_tasks_stack_id s))
              (luos_tasks_stack_id s - 1) = fill) as ->.
    { unfold popped, rd.
      rewrite lookup_app_r; rewrite length_drop, length_live by lia; [|lia].
      replace (Z.to_nat (luos_tasks_stack_id s - 1)
               - (Z.to_nat (luos_tasks_stack_id s) - 1))%nat
        with 0%nat by lia. done. }
    rewrite popped_S by lia.
    f_equal. subst s2. state_simpl.
    rewrite insert_insert_eq, drops_counted_add by lia.
    replace (1 + Z.of_nat k) with (Z.of_nat (S k)) by lia.
    replace (luos_tasks_stack_id s - 1 - Z.of_nat k)
      with (luos_tasks_stack_id s - Z.of_nat (S k)) by lia.
    same_state.
Qed.

Lemma ClearMsgSpace_msg_tasks_run fuel from to : forall s r,
  MAX_MSG_NB < 2 ^ 16 ->
  mem_stat_is r s ->
  0 <= msg_tasks_stack_id s <= MAX_MSG_NB ->
  (Z.to_nat (msg_tasks_stack_id s) <= length (msg_tasks s))%nat ->
  (Z.to_nat (msg_tasks_stack_id s) <= fuel)%nat ->
  let k := leading (in_space from to)
             (live (msg_tasks s) (msg_tasks_stack_id s)) in
  ClearMsgSpace_msg_tasks fuel from to s
  = Done tt
      (set_stats (<[mem_stat s := drops_counted (Z.of_nat k) r]> (stats s))
         (set_msg_tasks_stack_id (msg_tasks_stack_id s - Z.of_nat k)
            (set_msg_tasks
               (popped k 0 (msg_tasks s) (msg_tasks_stack_id s)) s))).
Proof.
  assert (forall s r, mem_stat_is r s ->
            s = set_stats
                  (<[mem_stat s := drops_counted (Z.of_nat 0) r]> (stats s))
                  (set_msg_tasks_stack_id
                     (msg_tasks_stack_id s - Z.of_nat 0)
                     (set_msg_tasks
                        (popped 0 0 (msg_tasks s) (msg_tasks_stack_id s)) s)))
    as Hsame.
  { intros s r (Hp & Hr & Hd). change (Z.of_nat 0) with 0.
    rewrite drops_counted_0, insert_id, popped_0, Z.sub_0_r by done.
    by destruct s. }
  induction fuel as [|fuel IH]; intros s r H16 Hm Hid Hlen Hfuel k.
  - subst k. rewrite live_nil by lia. cbn [leading ClearMsgSpace_msg_tasks].
    exec. f_equal. by apply Hsame.
  - cbn [ClearMsgSpace_msg_tasks]. cbv [mbind alloc_bind get].
    destruct (0 <? msg_tasks_stack_id s) eqn:Epos.
    2: { subst k. rewrite live_nil by lia. rewrite andb_false_r. exec.
         cbn [leading]. f_equal. by apply Hsame. }
    apply Z.ltb_lt in Epos.
    subst k. rewrite (live_cons msg_tasks_past) by lia.
    cbn [leading]. rewrite andb_true_r.
    destruct (in_space from to _) eqn:Ein.
    2: { exec. f_equal. by apply Hsame. }
    rewrite ClearMsgTask_pop by lia.
    set (l1 := _ ++ _).
    assert (l1 = popped 1 0 (msg_tasks s) (msg_tasks_stack_id s))
      as Hl1 by done.
    clearbody l1. subst l1.
    rewrite (count_drop_run _ r) by exact Hm.
    set (s2 := set_stats _ _).
    assert (mem_stat_is (drops_counted 1 r) s2) as Hm2
      by (destruct Hm as (Hp & Hr & Hd); repeat split; cbn;
          [done|by rewrite lookup_insert_eq|lia]).
    assert (msg_tasks_stack_id s2 = msg_tasks_stack_id s - 1) as Hid2 by done.
    assert (msg_tasks s2 = popped 1 0 (msg_tasks s) (msg_tasks_stack_id s))
      as Hl2 by done.
    rewrite (IH s2 (drops_counted 1 r) H16 Hm2).
    2: { rewrite Hid2. lia. }
    2: { rewrite Hid2, Hl2, length_popped by lia. lia. }
    2: { rewrite Hid2. lia. }
    rewrite Hid2, Hl2.
    assert (live (popped 1 0 (msg_tasks s) (msg_tasks_stack_id s))
              (msg_tasks_stack_id s - 1)
            = drop 1 (live (msg_tasks s) (msg_tasks_stack_id s))) as ->
      by (rewrite <- live_popped with (fill := 0) by lia; f_equal).
    set (k := leading _ _).
    assert (k <= Z.to_nat (msg_tasks_stack_id s) - 1)%nat as Hk.
    { pose proof (leading_le (in_space from to)
        (drop 1 (live (msg_tasks s) (msg_tasks_stack_id s)))) as Hle.
      fold k in Hle. rewrite length_drop, length_live in Hle by lia. lia. }
    rewrite popped_S by lia.
    f_equal. subst s2. state_simpl.
    rewrite insert_insert_eq, drops_counted_add by lia.
    replace (1 + Z.of_nat k) with (Z.of_nat (S k)) by lia.
    replace (msg_tasks_stack_id s - 1 - Z.of_nat k)
      with (msg_tasks_stack_id s - Z.of_nat (S k)) by lia.
    same_state.
Qed.

(** The state [MsgAlloc_ClearMsgSpace from to] leaves when the window
    lies in the buffer. *)
Lemma ClearMsgSpace_run (from to : Z) (s : state) (r : memory_stats_t) :
  MAX_MSG_NB < 2 ^ 16 ->
  mem_stat_is r s ->
  0 <= luos_tasks_stack_id s <= 2 ^ 16 ->
  (Z.to_nat (luos_tasks_stack_id s) <= length (luos_tasks s))%nat ->
  0 <= msg_tasks_stack_id s <= MAX_MSG_NB ->
  (Z.to_nat (msg_tasks_stack_id s) <= length (msg_tasks s))%nat ->
  u32 to <= u32 (msg_buffer + (MSG_BUFFER_SIZE - 1)) ->
  let hit := in_space from to (used_msg s) in
  let kl := leading (fun e => in_space from to (msg_pt e))
              (live (luos_tasks s) (luos_tasks_stack_id s)) in
  let km := leading (in_space from to)
              (live (msg_tasks s) (msg_tasks_stack_id s)) in
  MsgAlloc_ClearMsgSpace from to s
  = Done SUCCEED
      (set_stats
         (<[mem_stat s :=
              drops_counted (one_if hit + Z.of_nat kl + Z.of_nat km) r]>
            (stats s))
         (set_msg_tasks_stack_id (msg_tasks_stack_id s - Z.of_nat km)
            (set_msg_tasks (popped km 0 (msg_tasks s) (msg_tasks_stack_id s))
               (set_luos_tasks_stack_id (luos_tasks_stack_id s - Z.of_nat kl)
                  (set_luos_tasks
                     (popped kl
                        (rd luos_tasks_past (luos_tasks s)
                           (luos_tasks_stack_id s))
                        (luos_tasks s) (luos_tasks_stack_id s))
                     (set_used_msg (if hit then NULL else used_msg s) s)))))).
Proof.
  intros H16 Hm Hlid Hllen Hmid Hmlen Hto hit kl km.
  unfold MsgAlloc_ClearMsgSpace.
  rewrite (proj2 (Z.ltb_ge _ _)) by lia.
  cbv [mbind alloc_bind get]. fold hit.
  set (s1 := set_used_msg (if hit then NULL else used_msg s) s).
  set (r1 := drops_counted (one_if hit) r).
  match goal with
  | |- match ?X with _ => _ end = _ =>
      assert (X = Done tt (set_stats (<[mem_stat s := r1]> (stats s)) s1))
        as ->
  end.
  { subst s1 r1. destruct hit.
    - exec. rewrite (count_drop_run _ r) by exact Hm. same_state.
    - exec. rewrite drops_counted_0 by apply Hm.
      destruct Hm as (_ & Hr & _). rewrite insert_id by done.
      by destruct s. }
  set (s1' := set_stats _ s1).
  assert (mem_stat_is r1 s1') as Hm1.
  { destruct Hm as (Hp & Hr & Hd). repeat split; cbn; [done| |lia].
    by rewrite lookup_insert_eq. }
  rewrite (ClearMsgSpace_luos_tasks_run _ _ _ s1' r1 Hm1) by (cbn; lia).
  change (luos_tasks s1') with (luos_tasks s).
  change (luos_tasks_stack_id s1') with (luos_tasks_stack_id s).
  fold kl. set (s2 := set_stats _ (set_luos_tasks_stack_id _ _)).
  assert (mem_stat_is (drops_counted (Z.of_nat kl) r1) s2) as Hm2.
  { destruct Hm1 as (Hp & Hr & Hd). repeat split; cbn; [done| |lia].
    by rewrite lookup_insert_eq. }
  rewrite (ClearMsgSpace_msg_tasks_run _ _ _ s2 _ H16 Hm2) by (cbn; lia).
  change (msg_tasks s2) with (msg_tasks s).
  change (msg_tasks_stack_id s2) with (msg_tasks_stack_id s).
  fold km. exec. f_equal. subst s2 s1' s1. state_simpl.
  rewrite !insert_insert_eq. subst r1.
  rewrite !drops_counted_add by (unfold one_if; destruct hit; lia).
  rewrite ?Z.add_assoc. same_state.
Qed.

(** C1: [MsgAlloc_ClearMsgSpace from to] returns FAILED, in an unchanged
    state, exactly when [to] lies past the last byte of the buffer
    (compared as the code compares, on [uint32_t]).  Otherwise it returns
    SUCCEED in a state where: [used_msg] is nulled if it lay in [from, to];
    the oldest entries of LuosTasks whose [msg_pt] lay in [from, to] are
    off the stack, as many as stood at its head, the newer entries slid
    left; the same for MsgTasks; [msg_drop_number] went up by one for
    [used_msg] and by one per entry taken off, up to 255; and the cursor,
    the memory, the header-copy task and TxTasks are as they were. *)
Theorem ClearMsgSpace_spec (from to : Z) (s : state) (r : memory_stats_t) :
  MAX_MSG_NB < 2 ^ 16 ->
  mem_stat_is r s ->
  0 <= luos_tasks_stack_id s <= MAX_MSG_NB ->
  length (luos_tasks s) = Z.to_nat MAX_MSG_NB ->
  0 <= msg_tasks_stack_id s <= MAX_MSG_NB ->
  length (msg_tasks s) = Z.to_nat MAX_MSG_NB ->
  let hit := in_space from to (used_msg s) in
  let kl := leading (fun e => in_space from to (msg_pt e))
              (live (luos_tasks s) (luos_tasks_stack_id s)) in
  let km := leading (in_space from to)
              (live (msg_tasks s) (msg_tasks_stack_id s)) in
  exists ret s',
    MsgAlloc_ClearMsgSpace from to s = Done ret s'
    /\ (ret = FAILED <-> u32 (msg_buffer + MSG_BUFFER_SIZE - 1) < u32 to)
    /\ (ret = FAILED -> s' = s)
    /\ (ret = SUCCEED ->
          used_msg s' = (if hit then NULL else used_msg s)
          /\ luos_tasks_stack_id s' = luos_tasks_stack_id s - Z.of_nat kl
          /\ live (luos_tasks s') (luos_tasks_stack_id s')
             = drop kl (live (luos_tasks s) (luos_tasks_stack_id s))
          /\ msg_tasks_stack_id s' = msg_tasks_stack_id s - Z.of_nat km
          /\ live (msg_tasks s') (msg_tasks_stack_id s')
             = drop km (live (msg_tasks s) (msg_tasks_stack_id s))
          /\ stats s'
             = <[mem_stat s :=
                   drops_counted (one_if hit + Z.of_nat kl + Z.of_nat km) r]>
                 (stats s)
          /\ same_on (fun s => (memory s, mem_stat s, current_msg s,
                                data_ptr s, data_end_estimation s,
                                copy_task_pointer s, tx_tasks s,
                                tx_tasks_stack_id s)) s s').
Proof.
  intros H16 Hm Hlid Hllen Hmid Hmlen hit kl km.
  replace (msg_buffer + MSG_BUFFER_SIZE - 1)
    with (msg_buffer + (MSG_BUFFER_SIZE - 1)) by lia.
  destruct (Z.ltb_spec (u32 (msg_buffer + (MSG_BUFFER_SIZE - 1))) (u32 to))
    as [Hout|Hin].
  - exists FAILED, s. unfold MsgAlloc_ClearMsgSpace.
    rewrite (proj2 (Z.ltb_lt _ _) Hout). repeat split; try done.
  - eexists SUCCEED, _. split.
    { apply (ClearMsgSpace_run from to s r); try done; lia. }
    split; [split; [done|lia]|]. split; [done|]. intros _.
    fold hit kl km. state_simpl.
    assert (kl <= Z.to_nat (luos_tasks_stack_id s))%nat.
    { pose proof (leading_le (fun e => in_space from to (msg_pt e))
        (live (luos_tasks s) (luos_tasks_stack_id s))) as Hle.
      rewrite length_live in Hle by lia. exact Hle. }
    assert (km <= Z.to_nat (msg_tasks_stack_id s))%nat.
    { pose proof (leading_le (in_space from to)
        (live (msg_tasks s) (msg_tasks_stack_id s))) as Hle.
      rewrite length_live in Hle by lia. exact Hle. }
    rewrite !live_popped by lia. repeat split.
Qed.

(** *** The reception cursor: end of a frame *)

Lemma count_drop_reception : preserves (same_on reception) count_drop.
Proof.
  unfold count_drop, mem_stat_load, mem_stat_store.
  intros s a s'. exec. intros H. split_outcome; reflexivity.
Qed.

Lemma ClearMsgSpace_reception from to :
  preserves (same_on reception) (MsgAlloc_ClearMsgSpace from to).
Proof.
  apply ClearMsgSpace_preserves; try tc_solve; try (intros; reflexivity).
  apply count_drop_reception.
Qed.

Lemma ClearMsgTask_reception :
  preserves (same_on reception) MsgAlloc_ClearMsgTask.
Proof.
  apply ClearMsgTask_preserves; try tc_solve; try (intros; reflexivity).
Qed.

Lemma same_reception s s' :
  same_on reception s s' ->
  memory s' = memory s /\ current_msg s' = current_msg s
  /\ data_ptr s' = data_ptr s
  /\ data_end_estimation s' = data_end_estimation s.
Proof. unfold same_on, reception. intros H. by inversion H. Qed.

(** The calls inside a piece of code that ran to its end left the memory
    and the cursor alone: their equations become equations on the fields. *)
Ltac frames :=
  repeat match goal with
  | E : MsgAlloc_ClearMsgSpace _ _ _ = Done _ _ |- _ =>
      apply ClearMsgSpace_reception, same_reception in E;
      state_simpl in E; destruct E as (? & ? & ? & ?)
  | E : MsgAlloc_ClearMsgTask _ = Done _ _ |- _ =>
      apply ClearMsgTask_reception, same_reception in E;
      state_simpl in E; destruct E as (? & ? & ? & ?)
  | E : count_drop _ = Done _ _ |- _ =>
      apply count_drop_reception, same_reception in E;
      state_simpl in E; destruct E as (? & ? & ? & ?)
  end.

(** The equations on the fields of the intermediate states are used up,
    the newest state first. *)
Ltac chain :=
  repeat match goal with
  | H : memory ?x = _ |- _ => is_var x; try rewrite H in *; clear H
  | H : current_msg ?x = _ |- _ => is_var x; try rewrite H in *; clear H
  | H : data_ptr ?x = _ |- _ => is_var x; try rewrite H in *; clear H
  | H : data_end_estimation ?x = _ |- _ =>
      is_var x; try rewrite H in *; clear H
  end.

Lemma mod2_even x : (x mod 2 =? 1) = negb (Z.even x).
Proof. rewrite Zmod_even. by destruct (Z.even x). Qed.

Lemma EndMsg_cursor (s s' : state) :
  MsgAlloc_EndMsg s = Done tt s' ->
  data_ptr s' = next_msg s
  /\ current_msg s' = next_msg s
  /\ data_end_estimation s' = next_msg s + sizeof_header_t + 2.
Proof.
  unfold MsgAlloc_EndMsg, MsgAlloc_DoWeHaveSpace, next_msg. exec.
  intros H. split_outcome; frames; state_simpl; chain;
    rewrite ?mod2_even in *;
    repeat match goal with
    | E : (u32 _ <? u32 _) = _ |- _ => rewrite E; clear E
    end;
    try (destruct (Z.even _); try discriminate); done.
Qed.

Lemma stacks_ok_counted n r s :
  stacks_ok s -> mem_stat_is r s ->
  stacks_ok (set_stats (<[mem_stat s := drops_counted n r]> (stats s)) s).
Proof.
  intros (H1 & H2 & H3 & H4 & _) Hm. repeat split; try done; try apply H2;
    try apply H4.
  exists (drops_counted n r). by apply mem_stat_is_counted.
Qed.

Lemma leading_live_le {A} (P : A -> bool) (a : list A) (stack_id : Z) :
  (Z.to_nat stack_id <= length a)%nat ->
  (leading P (live a stack_id) <= Z.to_nat stack_id)%nat.
Proof.
  intros H. pose proof (leading_le P (live a stack_id)) as Hle.
  by rewrite length_live in Hle.
Qed.

Lemma msg_tasks_ok_popped k (a : list Z) (stack_id : Z) :
  (k <= Z.to_nat stack_id <= length a)%nat ->
  Forall (fun p => in_buffer p = true) (live a stack_id) ->
  Forall (fun p => p = 0) (drop (Z.to_nat stack_id) a) ->
  Forall (fun p => in_buffer p = true)
    (live (popped k 0 a stack_id) (stack_id - Z.of_nat k))
  /\ Forall (fun p => p = 0)
       (drop (Z.to_nat (stack_id - Z.of_nat k)) (popped k 0 a stack_id)).
Proof.
  intros Hk Hlive Htail. split.
  - rewrite live_popped by lia. by apply Forall_drop.
  - unfold popped. rewrite drop_app_length'.
    2: { rewrite length_drop, length_live by lia. lia. }
    apply Forall_app. split; [|done]. by apply Forall_replicate.
Qed.

(** [MsgAlloc_ClearMsgSpace] returns on well-kept stacks, and keeps them
    well. *)
Lemma ClearMsgSpace_returns (from to : Z) (s : state) :
  MAX_MSG_NB < 2 ^ 16 ->
  stacks_ok s ->
  exists ret s',
    MsgAlloc_ClearMsgSpace from to s = Done ret s'
    /\ stacks_ok s' /\ (msg_tasks_ok s -> msg_tasks_ok s').
Proof.
  intros H16 Hok.
  destruct (Z.ltb_spec (u32 (msg_buffer + (MSG_BUFFER_SIZE - 1))) (u32 to))
    as [Hout|Hin].
  - exists FAILED, s. unfold MsgAlloc_ClearMsgSpace.
    by rewrite (proj2 (Z.ltb_lt _ _) Hout).
  - pose proof Hok as (Hml & Hmi & Hll & Hli & r & Hm).
    eexists SUCCEED, _. split.
    { apply (ClearMsgSpace_run from to s r); try done; lia. }
    set (km := leading (in_space from to) _).
    set (kl := leading _ (live (luos_tasks s) _)).
    assert (km <= Z.to_nat (msg_tasks_stack_id s))%nat
      by (apply leading_live_le; lia).
    assert (kl <= Z.to_nat (luos_tasks_stack_id s))%nat
      by (apply leading_live_le; lia).
    split.
    + repeat split; state_simpl; rewrite ?length_popped by lia;
        try done; try lia.
      eexists. repeat split; state_simpl;
        [apply Hm|by rewrite lookup_insert_eq|apply drops_counted_le].
    + intros (Hlive & Htail). unfold msg_tasks_ok. state_simpl.
      apply msg_tasks_ok_popped; [lia|done..].
Qed.

Lemma EndMsg_makes_room (s : state) :
  0 < MAX_MSG_NB < 2 ^ 16 ->
  stacks_ok s -> msg_tasks_ok s ->
  exists s',
    (if msg_tasks_stack_id s =? MAX_MSG_NB
     then MsgAlloc_ClearMsgTask;; count_drop
     else mret tt) s = Done tt s'
    /\ stacks_ok s' /\ msg_tasks_ok s'
    /\ msg_tasks_stack_id s' < MAX_MSG_NB.
Proof.
  intros H16 Hok Hmsg. pose proof Hok as (Hml & Hmi & Hll & Hli & r & Hm).
  destruct (msg_tasks_stack_id s =? MAX_MSG_NB) eqn:E.
  - apply Z.eqb_eq in E. cbv [mbind alloc_bind].
    rewrite ClearMsgTask_pop by lia.
    rewrite (count_drop_run _ r) by exact Hm.
    eexists. split; [reflexivity|]. state_simpl.
    change (drop 1 (live (msg_tasks s) (msg_tasks_stack_id s)) ++ [0]
            ++ drop (Z.to_nat (msg_tasks_stack_id s)) (msg_tasks s))
      with (popped 1 0 (msg_tasks s) (msg_tasks_stack_id s)).
    destruct Hmsg as (Hlive & Htail).
    destruct (msg_tasks_ok_popped 1 (msg_tasks s) (msg_tasks_stack_id s))
      as (Hlive' & Htail'); [lia|done..|].
    repeat split; state_simpl; rewrite ?length_popped by lia;
      try done; try lia.
    eexists. repeat split; state_simpl;
      [apply Hm|by rewrite lookup_insert_eq|apply drops_counted_le].
  - apply Z.eqb_neq in E. exists s.
    split; [done|]. split; [done|]. split; [done|lia].
Qed.

Lemma msg_tasks_ok_asserts (s : state) :
  stacks_ok s -> msg_tasks_ok s ->
  msg_tasks_stack_id s < MAX_MSG_NB ->
  rd msg_tasks_past (msg_tasks s) (msg_tasks_stack_id s) = 0
  /\ (0 < msg_tasks_stack_id s ->
      in_buffer (rd msg_tasks_past (msg_tasks s) 0) = true).
Proof.
  intros (Hml & Hmi & _) (Hlive & Htail) Hlt. split.
  - unfold rd.
    destruct (lookup_lt_is_Some_2 (msg_tasks s)
                (Z.to_nat (msg_tasks_stack_id s))) as [x Hx]; [lia|].
    rewrite Hx. cbn.
    rewrite Forall_lookup in Htail. apply (Htail 0%nat).
    rewrite lookup_drop. by rewrite Nat.add_0_r.
  - intros Hpos.
    rewrite (live_cons msg_tasks_past) in Hlive by lia.
    by inversion Hlive.
Qed.

(** [MsgAlloc_EndMsg] returns when the stacks are well kept: its
    assertions hold. *)
Lemma EndMsg_returns (s : state) :
  0 < MAX_MSG_NB < 2 ^ 16 ->
  stacks_ok s -> msg_tasks_ok s ->
  exists s', MsgAlloc_EndMsg s = Done tt s'.
Proof.
  intros H16 Hok Hmsg. unfold MsgAlloc_EndMsg.
  cbv [mbind alloc_bind get].
  destruct (ClearMsgSpace_returns (current_msg s) (data_ptr s) s)
    as (ret1 & s1 & -> & Hok1 & Hmsg1); [lia|done|].
  specialize (Hmsg1 Hmsg).
  destruct (EndMsg_makes_room s1) as (s2 & E2 & Hok2 & Hmsg2 & Hlt2);
    [done..|].
  cbv [mbind alloc_bind] in E2. rewrite E2.
  destruct (msg_tasks_ok_asserts s2) as (Hzero & Hhead); [done..|].
  unfold LUOS_ASSERT. rewrite Hzero. change (0 =? 0) with true.
  assert (negb (0 <? msg_tasks_stack_id s2)
          || (u32 msg_buffer <=? u32 (rd msg_tasks_past (msg_tasks s2) 0))
             && (u32 (rd msg_tasks_past (msg_tasks s2) 0)
                 <? u32 (msg_buffer + MSG_BUFFER_SIZE)) = true) as ->.
  { destruct (0 <? msg_tasks_stack_id s2) eqn:Epos; [|done].
    apply Z.ltb_lt in Epos. exact (Hhead Epos). }
  cbv [modify].
  set (s3 := set_data_ptr (data_ptr s2 - 2) _).
  assert (stacks_ok s3) as Hok3.
  { destruct Hok2 as (Hml & Hmi & Hll & Hli & Hm). subst s3.
    repeat split; state_simpl; rewrite ?length_wr, ?u16_small by lia;
      try done; lia. }
  assert (forall p, stacks_ok
            (set_data_end_estimation (p + sizeof_header_t + 2)
               (set_current_msg p (set_data_ptr p s3)))) as Hok4.
  { intros p. destruct Hok3 as (Hml & Hmi & Hll & Hli & Hm).
    repeat split; try done; try apply Hmi; apply Hli. }
  destruct (MsgAlloc_DoWeHaveSpace _); [destruct (_ =? 1)|];
    cbv [mret alloc_ret]; state_simpl;
    match goal with
    | |- context [MsgAlloc_ClearMsgSpace ?a ?b ?st] =>
        destruct (ClearMsgSpace_returns a b st) as (ret4 & s4 & -> & _)
    end; try lia; try (by eexists).
  - replace s3 with (set_data_ptr (data_ptr s3) s3) at 2 3 by (by destruct s3).
    apply Hok4.
  - apply Hok4.
  - apply Hok4.
Qed.

(** C4: each time [MsgAlloc_EndMsg] returns, it leaves the cursor as
    follows.  With [p] the old [data_ptr] less the 2 CRC bytes: if
    [p + sizeof(header_t) + 2] lies past the last byte of the buffer,
    [data_ptr] is the buffer start; otherwise it is [p + 1] when the byte
    stored at [p] is even and [p] when that byte is odd (the test reads
    the byte, not the address).  [current_msg] is that [data_ptr] and
    [data_end_estimation] is [current_msg + sizeof(header_t) + 2].  And on
    well-kept stacks, where its assertions hold, the call does return. *)
Theorem EndMsg_advances_cursor (s : state) :
  let p := data_ptr s - 2 in
  let next :=
    if u32 (msg_buffer + (MSG_BUFFER_SIZE - 1)) <? u32 (p + sizeof_header_t + 2)
    then msg_buffer
    else if Z.even (u8 (memory s p)) then p + 1 else p in
  (forall s',
     MsgAlloc_EndMsg s = Done tt s' ->
     data_ptr s' = next
     /\ current_msg s' = next
     /\ data_end_estimation s' = next + sizeof_header_t + 2)
  /\ (0 < MAX_MSG_NB < 2 ^ 16 -> stacks_ok s -> msg_tasks_ok s ->
      exists s', MsgAlloc_EndMsg s = Done tt s').
Proof.
  intros p next. split.
  - intros s' Hrun. by apply EndMsg_cursor.
  - intros H16 Hok Hmsg. by apply EndMsg_returns.
Qed.

(** *** The ordering of the reception cursor *)

Lemma mem_stat_load_cursor : preserves (same_on cursor) mem_stat_load.
Proof.
  intros s a s'. unfold mem_stat_load. intros H. split_outcome. reflexivity.
Qed.

Lemma ClearMsgSpace_cursor from to :
  preserves (same_on cursor) (MsgAlloc_ClearMsgSpace from to).
Proof.
  apply ClearMsgSpace_preserves; try tc_solve; try (intros; reflexivity).
  unfold count_drop, mem_stat_load, mem_stat_store.
  intros s a s'. exec. intros H. split_outcome; reflexivity.
Qed.

#[local] Hint Resolve mem_stat_load_cursor ClearMsgSpace_cursor : pres.

Lemma ClearLuosTask_cursor i :
  preserves (same_on cursor) (MsgAlloc_ClearLuosTask i).
Proof. unfold MsgAlloc_ClearLuosTask. pres. Qed.

Lemma ClearMsgTask_cursor : preserves (same_on cursor) MsgAlloc_ClearMsgTask.
Proof. unfold MsgAlloc_ClearMsgTask. pres. Qed.

#[local] Hint Resolve ClearLuosTask_cursor ClearMsgTask_cursor : pres.

Lemma PullMsg_search_cursor count i target_module :
  preserves (same_on cursor) (PullMsg_search count i target_module).
Proof.
  revert i. induction count as [|k IH]; intros i; cbn [PullMsg_search]; pres.
Qed.

Lemma ClearMsgFromLuosTasks_loop_cursor fuel id msg :
  preserves (same_on cursor) (ClearMsgFromLuosTasks_loop fuel id msg).
Proof.
  revert id. induction fuel as [|k IH]; intros id;
    cbn [ClearMsgFromLuosTasks_loop]; pres.
Qed.

#[local] Hint Resolve PullMsg_search_cursor ClearMsgFromLuosTasks_loop_cursor
  : pres.

(** The calls that are not about reception leave the cursor alone. *)
Lemma run_op_cursor (o : op) :
  match o with
  | Init _ | InvalidMsg | ValidHeader _ _ | EndMsg | SetData _ | SetMessage _
  | SetTxTask _ _ => True
  | _ => preserves (same_on cursor) (run_op o)
  end.
Proof.
  destruct o; try exact I; cbn [run_op];
    unfold MsgAlloc_loop, raise_msg_stack_ratio, mem_stat_store,
      MsgAlloc_GetCurrentMsg, MsgAlloc_IsEmpty, MsgAlloc_PullMsgToInterpret,
      MsgAlloc_UsedMsgEnd, MsgAlloc_LuosTaskAlloc, raise_luos_stack_ratio,
      mem_stat_store, MsgAlloc_PullMsg,
      MsgAlloc_PullMsgFromLuosTask, MsgAlloc_LookAtLuosTask,
      MsgAlloc_GetLuosTaskCmd, MsgAlloc_GetLuosTaskSourceId,
      MsgAlloc_GetLuosTaskSize, MsgAlloc_LuosTasksNbr,
      MsgAlloc_ClearMsgFromLuosTasks, MsgAlloc_PullMsgFromTxTask,
      MsgAlloc_GetTxTask;
    pres.
Qed.

Lemma PullMsgFromTxTask_reception :
  preserves (same_on reception) MsgAlloc_PullMsgFromTxTask.
Proof.
  unfold MsgAlloc_PullMsgFromTxTask. repeat preserves_step; reflexivity.
Qed.

Ltac frames' :=
  repeat match goal with
  | E : MsgAlloc_PullMsgFromTxTask _ = Done _ _ |- _ =>
      apply PullMsgFromTxTask_reception, same_reception in E;
      state_simpl in E; destruct E as (? & ? & ? & ?)
  | E : MsgAlloc_EndMsg _ = Done ?u _ |- _ =>
      destruct u; apply EndMsg_cursor in E; unfold next_msg in E;
      state_simpl in E; destruct E as (? & ? & ?)
  end; frames.

(** Comparisons become inequalities, casts of values in range go away. *)
Ltac bools :=
  repeat match goal with
  | H : (_ && _) = true |- _ => apply andb_prop in H; destruct H
  | H : (_ <? _) = true |- _ => apply Z.ltb_lt in H
  | H : (_ <? _) = false |- _ => apply Z.ltb_ge in H
  | H : (_ <=? _) = true |- _ => apply Z.leb_le in H
  | H : (_ <=? _) = false |- _ => apply Z.leb_gt in H
  | H : (_ =? _) = true |- _ => apply Z.eqb_eq in H
  | H : (_ =? _) = false |- _ => apply Z.eqb_neq in H
  end.

Ltac unsigned :=
  repeat match goal with
  | |- context [u32 ?x] => rewrite (u32_small x) by lia
  | H : context [u32 ?x] |- _ => rewrite (u32_small x) in H by lia
  | |- context [u16 ?x] => rewrite (u16_small x) by lia
  | H : context [u16 ?x] |- _ => rewrite (u16_small x) in H by lia
  end.

Ltac cursor_start :=
  let H := fresh "Hrun" in
  unfold cursor_kept, cursor_ordered, sane_target in *;
  exec; intros H; split_outcome; frames'; state_simpl; chain.

Lemma Init_cursor_kept memory_stats s s' :
  sane_target ->
  MsgAlloc_Init memory_stats s = Done tt s' -> cursor_kept s'.
Proof.
  intros Ht. unfold MsgAlloc_Init. cursor_start; lia.
Qed.

Lemma SetData_cursor_kept data s s' :
  sane_target -> cursor_kept s -> data_ptr s < data_end_estimation s ->
  MsgAlloc_SetData data s = Done tt s' -> cursor_kept s'.
Proof.
  intros Ht Hk Hc. unfold MsgAlloc_SetData. cursor_start; lia.
Qed.

Lemma InvalidMsg_cursor_kept s s' :
  sane_target -> cursor_kept s ->
  MsgAlloc_InvalidMsg s = Done tt s' -> cursor_kept s'.
Proof.
  intros Ht Hk. unfold MsgAlloc_InvalidMsg. cursor_start; lia.
Qed.

Lemma ValidHeader_cursor_kept valid data_size s s' :
  sane_target -> cursor_kept s ->
  0 <= data_size < 2 ^ 16 ->
  sizeof_header_t + data_size + 2 <= MSG_BUFFER_SIZE ->
  data_ptr s <= current_msg s + sizeof_header_t + data_size + 2 ->
  MsgAlloc_ValidHeader valid data_size s = Done tt s' -> cursor_kept s'.
Proof.
  intros Ht Hk Hty Hfit Hc.
  unfold MsgAlloc_ValidHeader, MsgAlloc_DoWeHaveSpace.
  cursor_start; bools; unsigned; lia.
Qed.

Lemma EndMsg_cursor_kept s s' :
  sane_target ->
  msg_buffer + 2 <= data_ptr s <= msg_buffer + MSG_BUFFER_SIZE + 2 ^ 17 ->
  MsgAlloc_EndMsg s = Done tt s' -> cursor_kept s'.
Proof.
  intros Ht Hc Hrun. apply EndMsg_cursor in Hrun. unfold next_msg in Hrun.
  destruct Hrun as (H1 & H2 & H3).
  unfold cursor_kept, cursor_ordered, sane_target in *.
  rewrite H1, H2, H3.
  destruct (_ <? _) eqn:E; [lia|]. bools. unsigned.
  destruct (Z.even _); lia.
Qed.

Lemma SetMessage_cursor_kept msg s s' :
  sane_target -> cursor_kept s ->
  MsgAlloc_SetMessage msg s = Done tt s' -> cursor_kept s'.
Proof.
  intros Ht Hk. unfold MsgAlloc_SetMessage, MsgAlloc_DoWeHaveSpace.
  cbv [mbind alloc_bind get].
  set (ds := if _ <? _ then u16 _ else u16 _).
  assert (0 <= ds < 2 ^ 16) as Hds
    by (subst ds; destruct (_ <? _); apply u16_range).
  clearbody ds.
  cursor_start; bools.
  all: repeat match goal with
       | |- context [if ?b then _ else _] => destruct b eqn:?
       end; bools; unsigned; lia.
Qed.

Lemma SetTxTask_cursor_kept data size s s' :
  sane_target -> cursor_kept s ->
  0 <= size < 2 ^ 16 ->
  size + (data_end_estimation s - current_msg s) <= MSG_BUFFER_SIZE ->
  MsgAlloc_SetTxTask data size s = Done tt s' -> cursor_kept s'.
Proof.
  intros Ht Hk Hty Hc. unfold MsgAlloc_SetTxTask, MsgAlloc_DoWeHaveSpace.
  cursor_start; bools; unsigned; lia.
Qed.

Lemma cursor_kept_same s s' :
  same_on cursor s s' -> cursor_kept s -> cursor_kept s'.
Proof.
  unfold same_on, cursor, cursor_kept, cursor_ordered.
  intros H. inversion H as [[H1 H2 H3]]. by rewrite H1, H2, H3.
Qed.

Lemma run_op_cursor_kept o s s' :
  sane_target -> cursor_kept s -> op_typed o -> caller_contract o s ->
  run_op o s = Done tt s' -> cursor_kept s'.
Proof.
  intros Ht Hk Hty Hc Hrun.
  pose proof (run_op_cursor o) as Hframe.
  destruct o; cbn [run_op op_typed caller_contract] in *;
    try (eapply cursor_kept_same; [eapply Hframe; exact Hrun|exact Hk]).
  - by eapply Init_cursor_kept.
  - by eapply InvalidMsg_cursor_kept.
  - eapply ValidHeader_cursor_kept; try exact Hrun; try done; lia.
  - eapply EndMsg_cursor_kept; try exact Hrun; try done.
    unfold cursor_kept, cursor_ordered, sane_target in *. lia.
  - by eapply SetData_cursor_kept.
  - by eapply SetMessage_cursor_kept.
  - eapply SetTxTask_cursor_kept; try exact Hrun; try done.
Qed.

(** *** The ordering of the cursor, wherever the frame starts *)
















(** *** The fuel of the loops is enough

    Each [while] loop is started with its stack counter as fuel; one more
    unit of fuel changes nothing, so the loops never stop for lack of it. *)

Lemma count_drop_stack_ids s a s' :
  count_drop s = Done a s' ->
  luos_tasks_stack_id s' = luos_tasks_stack_id s
  /\ msg_tasks_stack_id s' = msg_tasks_stack_id s.
Proof.
  unfold count_drop, mem_stat_load, mem_stat_store. exec.
  intros H. split_outcome; done.
Qed.

Lemma ClearLuosTask_stack_id i s a s' :
  MsgAlloc_ClearLuosTask i s = Done a s' ->
  luos_tasks_stack_id s' =
  (if luos_tasks_stack_id s =? 0 then luos_tasks_stack_id s
   else u16 (luos_tasks_stack_id s - 1)).
Proof.
  unfold MsgAlloc_ClearLuosTask. exec. intros H. split_outcome; done.
Qed.

Lemma ClearMsgTask_stack_id s a s' :
  MsgAlloc_ClearMsgTask s = Done a s' ->
  0 < msg_tasks_stack_id s
  /\ msg_tasks_stack_id s' = u16 (msg_tasks_stack_id s - 1).
Proof.
  unfold MsgAlloc_ClearMsgTask. exec. intros H. split_outcome.
  bools. done.
Qed.

Lemma ClearMsgSpace_luos_tasks_S fuel from to :
  ClearMsgSpace_luos_tasks (S fuel) from to =
  (s ← get;
   if in_space from to (msg_pt (rd luos_tasks_past (luos_tasks s) 0))
      && (0 <? luos_tasks_stack_id s)
   then MsgAlloc_ClearLuosTask 0;; count_drop;;
        ClearMsgSpace_luos_tasks fuel from to
   else mret tt).
Proof. reflexivity. Qed.

Lemma ClearMsgSpace_msg_tasks_S fuel from to :
  ClearMsgSpace_msg_tasks (S fuel) from to =
  (s ← get;
   if in_space from to (rd msg_tasks_past (msg_tasks s) 0)
      && (0 <? msg_tasks_stack_id s)
   then MsgAlloc_ClearMsgTask;; count_drop;;
        ClearMsgSpace_msg_tasks fuel from to
   else mret tt).
Proof. reflexivity. Qed.

Lemma ClearMsgFromLuosTasks_loop_S fuel id msg :
  ClearMsgFromLuosTasks_loop (S fuel) id msg =
  (s ← get;
   if id <? luos_tasks_stack_id s then
     if msg_pt (rd luos_tasks_past (luos_tasks s) id) =? msg
     then MsgAlloc_ClearLuosTask id;; ClearMsgFromLuosTasks_loop fuel id msg
     else ClearMsgFromLuosTasks_loop fuel (u16 (id + 1)) msg
   else mret tt).
Proof. reflexivity. Qed.

Lemma ClearMsgSpace_luos_tasks_fuel fuel from to : forall s,
  0 <= luos_tasks_stack_id s < 2 ^ 16 ->
  (Z.to_nat (luos_tasks_stack_id s) <= fuel)%nat ->
  ClearMsgSpace_luos_tasks (S fuel) from to s
  = ClearMsgSpace_luos_tasks fuel from to s.
Proof.
  induction fuel as [|fuel IH]; intros s Hid Hfuel.
  - cbn [ClearMsgSpace_luos_tasks]. cbv [mbind alloc_bind get].
    rewrite (proj2 (Z.ltb_ge 0 _)) by lia. by rewrite andb_false_r.
  - rewrite (ClearMsgSpace_luos_tasks_S (S fuel)),
      (ClearMsgSpace_luos_tasks_S fuel).
    cbv [mbind alloc_bind get].
    destruct (_ && _) eqn:Ec; [|done]. bools.
    destruct (MsgAlloc_ClearLuosTask 0 s) as [a1 s1| |] eqn:E1; try done.
    destruct (count_drop s1) as [a2 s2| |] eqn:E2; try done.
    apply ClearLuosTask_stack_id in E1.
    apply count_drop_stack_ids in E2 as [E2 _].
    rewrite (proj2 (Z.eqb_neq _ 0)), u16_small in E1 by lia.
    apply IH; lia.
Qed.

Lemma ClearMsgSpace_msg_tasks_fuel fuel from to : forall s,
  0 <= msg_tasks_stack_id s < 2 ^ 16 ->
  (Z.to_nat (msg_tasks_stack_id s) <= fuel)%nat ->
  ClearMsgSpace_msg_tasks (S fuel) from to s
  = ClearMsgSpace_msg_tasks fuel from to s.
Proof.
  induction fuel as [|fuel IH]; intros s Hid Hfuel.
  - cbn [ClearMsgSpace_msg_tasks]. cbv [mbind alloc_bind get].
    rewrite (proj2 (Z.ltb_ge 0 _)) by lia. by rewrite andb_false_r.
  - rewrite (ClearMsgSpace_msg_tasks_S (S fuel)),
      (ClearMsgSpace_msg_tasks_S fuel).
    cbv [mbind alloc_bind get].
    destruct (_ && _) eqn:Ec; [|done]. bools.
    destruct (MsgAlloc_ClearMsgTask s) as [a1 s1| |] eqn:E1; try done.
    destruct (count_drop s1) as [a2 s2| |] eqn:E2; try done.
    apply ClearMsgTask_stack_id in E1 as [_ E1].
    apply count_drop_stack_ids in E2 as [_ E2].
    rewrite u16_small in E1 by lia.
    apply IH; lia.
Qed.

Lemma ClearMsgFromLuosTasks_loop_fuel fuel msg : forall id s,
  0 <= id ->
  0 <= luos_tasks_stack_id s < 2 ^ 16 ->
  (Z.to_nat (luos_tasks_stack_id s - id) <= fuel)%nat ->
  ClearMsgFromLuosTasks_loop (S fuel) id msg s
  = ClearMsgFromLuosTasks_loop fuel id msg s.
Proof.
  induction fuel as [|fuel IH]; intros id s Hi Hid Hfuel.
  - cbn [ClearMsgFromLuosTasks_loop]. cbv [mbind alloc_bind get].
    by rewrite (proj2 (Z.ltb_ge id _)) by lia.
  - rewrite (ClearMsgFromLuosTasks_loop_S (S fuel)),
      (ClearMsgFromLuosTasks_loop_S fuel).
    cbv [mbind alloc_bind get].
    destruct (id <? _) eqn:Ec; [|done]. bools.
    destruct (_ =? msg).
    + destruct (MsgAlloc_ClearLuosTask id s) as [a1 s1| |] eqn:E1; try done.
      apply ClearLuosTask_stack_id in E1.
      rewrite (proj2 (Z.eqb_neq _ 0)), u16_small in E1 by lia.
      apply IH; lia.
    + rewrite u16_small by lia. apply IH; lia.
Qed.

(** *** The LuosTasks stack seen by its consumers *)

Lemma live_lookup {A} (past : A) (a : list A) (stack_id i : Z) :
  0 <= i < stack_id -> (Z.to_nat stack_id <= length a)%nat ->
  live a stack_id !! Z.to_nat i = Some (rd past a i).
Proof.
  intros Hi Hlen. unfold live, rd.
  rewrite lookup_take_lt by lia.
  destruct (lookup_lt_is_Some_2 a (Z.to_nat i)) as [x Hx]; [lia|].
  by rewrite Hx.
Qed.

(** The live view of a stack after its entry [i] was taken off. *)
Lemma live_delete {A} (x : A) (a : list A) (stack_id i : Z) :
  0 <= i < stack_id -> (Z.to_nat stack_id <= length a)%nat ->
  live (take (Z.to_nat i) a ++ drop (S (Z.to_nat i)) (live a stack_id)
        ++ [x] ++ drop (Z.to_nat stack_id) a) (stack_id - 1)
  = delete (Z.to_nat i) (live a stack_id).
Proof.
  intros Hi Hlen. unfold live.
  rewrite delete_take_drop, take_take, Nat.min_l by lia.
  rewrite app_assoc. apply take_app_length'.
  rewrite length_app, length_take, length_drop, length_take. lia.
Qed.

Lemma ClearLuosTask_queue (i : Z) (s : state) :
  luos_tasks_ok s -> MAX_MSG_NB < 2 ^ 16 ->
  0 <= i < luos_tasks_stack_id s ->
  exists s',
    MsgAlloc_ClearLuosTask i s = Done tt s'
    /\ luos_queue s' = delete (Z.to_nat i) (luos_queue s)
    /\ luos_tasks_stack_id s' = luos_tasks_stack_id s - 1
    /\ luos_tasks_ok s'
    /\ used_msg s' = used_msg s
    /\ same_on beside_luos_tasks s s'.
Proof.
  intros (Hlen & Hid) H16 Hi.
  eexists. split; [apply ClearLuosTask_pop; lia|].
  unfold luos_queue, luos_tasks_ok. state_simpl.
  split; [apply live_delete; lia|]. split; [done|].
  split; [|done]. split; [|lia].
  rewrite !length_app, length_take, length_drop, length_live, length_drop;
    cbn [length]; lia.
Qed.
Lemma luos_queue_length (s : state) :
  luos_tasks_ok s -> length (luos_queue s) = Z.to_nat (luos_tasks_stack_id s).
Proof. intros (Hlen & Hid). apply length_live. lia. Qed.

Lemma luos_queue_lookup (s : state) (i : Z) (e : luos_task_t) :
  luos_tasks_ok s -> 0 <= i ->
  luos_queue s !! Z.to_nat i = Some e ->
  i < luos_tasks_stack_id s /\ rd luos_tasks_past (luos_tasks s) i = e.
Proof.
  intros Hok Hi He. pose proof Hok as (Hlen & Hid).
  pose proof (lookup_lt_Some _ _ _ He) as Hlt.
  rewrite luos_queue_length in Hlt by done.
  split; [lia|].
  unfold luos_queue in He.
  rewrite (live_lookup luos_tasks_past) in He by lia. by inversion He.
Qed.

(** X1: [MsgAlloc_PullMsgFromLuosTask i], when LuosTasks holds an entry
    [i], returns SUCCEED with the message of that entry and makes it the
    message in use; the entry is off the stack, the entries around it keep
    their order, and nothing but LuosTasks and [used_msg] changes. *)
Theorem PullMsgFromLuosTask_takes_entry (i : Z) (s : state) (e : luos_task_t) :
  luos_tasks_ok s -> MAX_MSG_NB < 2 ^ 16 ->
  0 <= i -> luos_queue s !! Z.to_nat i = Some e ->
  exists s',
    MsgAlloc_PullMsgFromLuosTask i s = Done (SUCCEED, Some (msg_pt e)) s'
    /\ used_msg s' = msg_pt e
    /\ luos_queue s' = delete (Z.to_nat i) (luos_queue s)
    /\ luos_tasks_stack_id s' = luos_tasks_stack_id s - 1
    /\ same_on beside_luos_tasks s s'.
Proof.
  intros Hok H16 Hi He.
  destruct (luos_queue_lookup s i e) as (Hlt & Hrd); [done..|].
  unfold MsgAlloc_PullMsgFromLuosTask. exec.
  rewrite (proj2 (Z.ltb_lt _ _) Hlt), Hrd.
  destruct (ClearLuosTask_queue i (set_used_msg (msg_pt e) s))
    as (s' & -> & Hq & Hn & _ & Hu & Hsame); [done..|].
  exists s'. split; [done|]. split; [done|]. split; [done|]. split; done.
Qed.

(** X2: [MsgAlloc_PullMsg] hands out the oldest entry that is for the
    endpoint: when LuosTasks holds [l1 ++ e :: l2] with no entry of [l1]
    for [target_module] and [e] for it, the call returns SUCCEED with the
    message of [e], makes it the message in use and leaves [l1 ++ l2] on
    the stack; nothing but LuosTasks and [used_msg] changes. *)
Theorem PullMsg_takes_oldest (target_module : Z) (s : state)
    (l1 l2 : list luos_task_t) (e : luos_task_t) :
  luos_tasks_ok s -> MAX_MSG_NB < 2 ^ 16 ->
  luos_queue s = l1 ++ e :: l2 ->
  Forall (fun x => ll_container_pt x <> target_module) l1 ->
  ll_container_pt e = target_module ->
  exists s',
    MsgAlloc_PullMsg target_module s = Done (SUCCEED, Some (msg_pt e)) s'
    /\ used_msg s' = msg_pt e
    /\ luos_queue s' = l1 ++ l2
    /\ same_on beside_luos_tasks s s'.
Proof.
  intros Hok H16 Hq Hl1 He.
  pose proof (luos_queue_length s Hok) as Hn.
  rewrite Hq, length_app in Hn. cbn [length] in Hn.
  assert (forall j x, (l1 ++ e :: l2) !! j = Some x ->
            rd luos_tasks_past (luos_tasks s) (Z.of_nat j) = x) as Hrd.
  { intros j x Hx. rewrite <- Hq in Hx.
    apply (luos_queue_lookup s (Z.of_nat j) x); [done|lia|].
    by rewrite Nat2Z.id. }
  unfold MsgAlloc_PullMsg. cbv [mbind alloc_bind get].
  rewrite <- Hn.
  rewrite (PullMsg_search_hit (length l1) (length l2) 0 target_module).
  2: { intros j Hj. rewrite <- (Z2Nat.id j) by lia.
       destruct (lookup_lt_is_Some_2 l1 (Z.to_nat j)) as [x Hx]; [lia|].
       rewrite (Hrd _ x) by (by rewrite lookup_app_l by lia).
       rewrite Forall_lookup in Hl1. by eapply Hl1. }
  2: { rewrite Z.add_0_l, (Hrd _ e); [done|]. by rewrite list_lookup_middle. }
  rewrite Z.add_0_l, (Hrd _ e) by (by rewrite list_lookup_middle).
  cbv [mbind alloc_bind modify].
  destruct (ClearLuosTask_queue (Z.of_nat (length l1))
              (set_used_msg (msg_pt e) s))
    as (s' & -> & Hq' & _ & _ & Hu & Hsame); [done|done|cbn; lia|].
  exists s'. split; [done|]. split; [done|]. split; [|done].
  rewrite Hq'. unfold luos_queue in *. state_simpl.
  rewrite Hq, Nat2Z.id. apply delete_middle.
Qed.
Lemma ClearMsgFromLuosTasks_loop_run (msg : Z) (fuel : nat) : forall id s,
  luos_tasks_ok s -> MAX_MSG_NB < 2 ^ 16 ->
  0 <= id <= luos_tasks_stack_id s ->
  (Z.to_nat (luos_tasks_stack_id s - id) <= fuel)%nat ->
  exists s',
    ClearMsgFromLuosTasks_loop fuel id msg s = Done tt s'
    /\ luos_queue s'
       = take (Z.to_nat id) (luos_queue s)
         ++ filter (fun e => msg_pt e <> msg)
              (drop (Z.to_nat id) (luos_queue s))
    /\ luos_tasks_ok s'
    /\ used_msg s' = used_msg s
    /\ same_on beside_luos_tasks s s'.
Proof.
  assert (forall id s, luos_tasks_ok s -> id = luos_tasks_stack_id s ->
            luos_queue s
            = take (Z.to_nat id) (luos_queue s)
              ++ filter (fun e => msg_pt e <> msg)
                   (drop (Z.to_nat id) (luos_queue s))) as Hend.
  { intros id s Hok ->. pose proof (luos_queue_length s Hok) as Hn.
    rewrite take_ge, drop_ge by lia. by rewrite app_nil_r. }
  induction fuel as [|fuel IH]; intros id s Hok H16 Hid Hfuel.
  - exists s. split; [done|]. split; [apply Hend; [done|lia]|done].
  - rewrite ClearMsgFromLuosTasks_loop_S. cbv [mbind alloc_bind get].
    destruct (Z.ltb_spec id (luos_tasks_stack_id s)) as [Hlt|Hge].
    2: { exists s. split; [done|]. split; [apply Hend; [done|lia]|done]. }
    pose proof (luos_queue_length s Hok) as Hn.
    pose proof Hok as (Hlen & Hmax).
    destruct (lookup_lt_is_Some_2 (luos_queue s) (Z.to_nat id)) as [e He];
      [lia|].
    destruct (luos_queue_lookup s id e) as (_ & ->); [done|lia|done|].
    rewrite (drop_S _ e _ He).
    destruct (Z.eqb_spec (msg_pt e) msg) as [Heq|Hne].
    + destruct (ClearLuosTask_queue id s)
        as (s1 & -> & Hq1 & Hn1 & Hok1 & Hu1 & Hsame1); [done|done|lia|].
      destruct (IH id s1) as (s' & -> & Hq' & Hok' & Hu' & Hsame');
        [done|done|lia|lia|].
      exists s'. split; [done|]. split; [|split; [done|split]].
      * rewrite Hq', Hq1, delete_take_drop.
        rewrite take_app_length', drop_app_length'
          by (rewrite length_take; lia).
        by rewrite filter_cons_False by (intros H; by apply H).
      * congruence.
      * by etransitivity.
    + rewrite u16_small by lia.
      destruct (IH (id + 1) s) as (s' & -> & Hq' & Hok' & Hu' & Hsame');
        [done|done|lia|lia|].
      exists s'. split; [done|]. split; [|done].
      rewrite Hq'. replace (Z.to_nat (id + 1)) with (S (Z.to_nat id)) by lia.
      rewrite (take_S_r _ _ e He), <- app_assoc.
      by rewrite filter_cons_True by done.
Qed.

(** X3: [MsgAlloc_ClearMsgFromLuosTasks msg] returns with every entry
    that points to [msg] off the LuosTasks stack, and the other entries
    on it in their order; nothing but LuosTasks changes, [used_msg]
    neither. *)
Theorem ClearMsgFromLuosTasks_filters (msg : Z) (s : state) :
  luos_tasks_ok s -> MAX_MSG_NB < 2 ^ 16 ->
  exists s',
    MsgAlloc_ClearMsgFromLuosTasks msg s = Done tt s'
    /\ luos_queue s' = filter (fun e => msg_pt e <> msg) (luos_queue s)
    /\ luos_tasks_stack_id s' = Z.of_nat (length (luos_queue s'))
    /\ used_msg s' = used_msg s
    /\ same_on beside_luos_tasks s s'.
Proof.
  intros Hok H16. pose proof Hok as (Hlen & Hid).
  unfold MsgAlloc_ClearMsgFromLuosTasks. cbv [mbind alloc_bind get].
  destruct (ClearMsgFromLuosTasks_loop_run msg
              (Z.to_nat (luos_tasks_stack_id s)) 0 s)
    as (s' & -> & Hq' & Hok' & Hu' & Hsame'); [done|done|lia|lia|].
  exists s'. split; [done|]. split; [by rewrite Hq'|].
  split; [|done].
  rewrite luos_queue_length by done. destruct Hok'. lia.
Qed.
Lemma live_wr {A} (a : list A) (n : Z) (v : A) :
  0 <= n -> (Z.to_nat n < length a)%nat ->
  live (wr a n v) (n + 1) = live a n ++ [v].
Proof.
  intros Hn Hlen. unfold live, wr.
  replace (Z.to_nat (n + 1)) with (S (Z.to_nat n)) by lia.
  rewrite (take_S_r _ _ v) by (by apply list_lookup_insert_eq).
  by rewrite take_insert_ge by lia.
Qed.

(** The cast in [(uint8_t)(((uint32_t)stack_id * 100) / MAX_MSG_NB)] loses
    nothing while the counter is within the stack. *)
Lemma percent_cast (n : Z) :
  0 < MAX_MSG_NB < 2 ^ 16 -> 0 <= n <= MAX_MSG_NB ->
  u8 (u32 (n * 100) / MAX_MSG_NB) = percent n /\ 0 <= percent n <= 100.
Proof.
  intros H16 Hn. unfold percent.
  assert (0 <= n * 100 / MAX_MSG_NB <= 100) as Hp.
  { split; [apply Z.div_pos; lia|].
    apply Z.div_le_upper_bound; lia. }
  rewrite u32_small by lia. rewrite u8_small by lia. done.
Qed.

Lemma raise_luos_stack_ratio_run (stat : Z) (s : state) (r : memory_stats_t) :
  mem_stat s <> NULL -> stats s !! mem_stat s = Some r ->
  raise_luos_stack_ratio stat s
  = Done tt
      (set_stats
         (<[mem_stat s :=
              mk_memory_stats (msg_stack_ratio r)
                (Z.max (luos_stack_ratio r) stat) (msg_drop_number r)]>
            (stats s)) s).
Proof.
  intros Hp Hr. apply Z.eqb_neq in Hp.
  unfold raise_luos_stack_ratio, mem_stat_load, mem_stat_store. exec.
  rewrite Hp, Hr. destruct (Z.ltb_spec (luos_stack_ratio r) stat); exec.
  - by rewrite Z.max_r by lia.
  - rewrite Z.max_l by lia. f_equal. symmetry.
    replace (mk_memory_stats _ _ _) with r by (by destruct r).
    by apply set_stats_same.
Qed.

Lemma raise_msg_stack_ratio_run (stat : Z) (s : state) (r : memory_stats_t) :
  mem_stat s <> NULL -> stats s !! mem_stat s = Some r ->
  raise_msg_stack_ratio stat s
  = Done tt
      (set_stats
         (<[mem_stat s :=
              mk_memory_stats (Z.max (msg_stack_ratio r) stat)
                (luos_stack_ratio r) (msg_drop_number r)]>
            (stats s)) s).
Proof.
  intros Hp Hr. apply Z.eqb_neq in Hp.
  unfold raise_msg_stack_ratio, mem_stat_load, mem_stat_store. exec.
  rewrite Hp, Hr. destruct (Z.ltb_spec (msg_stack_ratio r) stat); exec.
  - by rewrite Z.max_r by lia.
  - rewrite Z.max_l by lia. f_equal. symmetry.
    replace (mk_memory_stats _ _ _) with r by (by destruct r).
    by apply set_stats_same.
Qed.

(** X4: [MsgAlloc_LuosTaskAlloc] queues the task as the newest entry of
    LuosTasks, after it took the oldest entry off a full stack, and raises
    [luos_stack_ratio] to the share of the stack now in use if that is
    more than it was; it changes nothing else: the other statistics, the
    message in use, MsgTasks, TxTasks, the memory and the cursor are as
    they were. *)
Theorem LuosTaskAlloc_queues (c m : Z) (s : state) (r : memory_stats_t) :
  0 < MAX_MSG_NB < 2 ^ 16 ->
  luos_tasks_ok s ->
  mem_stat s <> NULL -> stats s !! mem_stat s = Some r ->
  exists s',
    MsgAlloc_LuosTaskAlloc c m s = Done tt s'
    /\ luos_queue s'
       = (if luos_tasks_stack_id s =? MAX_MSG_NB
          then drop 1 (luos_queue s) else luos_queue s)
         ++ [mk_luos_task m c]
    /\ luos_tasks_ok s'
    /\ stats s'
       = <[mem_stat s :=
             mk_memory_stats (msg_stack_ratio r)
               (Z.max (luos_stack_ratio r) (percent (luos_tasks_stack_id s')))
               (msg_drop_number r)]> (stats s)
    /\ same_on beside_luos_tasks_stats s s'.
Proof.
  intros H16 Hok Hp Hr. pose proof Hok as (Hlen & Hid).
  unfold MsgAlloc_LuosTaskAlloc. cbv [mbind alloc_bind get].
  assert (exists s1,
            (if luos_tasks_stack_id s =? MAX_MSG_NB
             then MsgAlloc_ClearLuosTask 0 else mret tt) s = Done tt s1
            /\ luos_queue s1
               = (if luos_tasks_stack_id s =? MAX_MSG_NB
                  then drop 1 (luos_queue s) else luos_queue s)
            /\ luos_tasks_ok s1
            /\ luos_tasks_stack_id s1 < MAX_MSG_NB
            /\ used_msg s1 = used_msg s
            /\ same_on beside_luos_tasks s s1)
    as (s1 & -> & Hq1 & Hok1 & Hlt1 & Hu1 & Hsame1).
  { destruct (Z.eqb_spec (luos_tasks_stack_id s) MAX_MSG_NB) as [Hfull|Hfree].
    - destruct (ClearLuosTask_queue 0 s)
        as (s1 & -> & Hq1 & Hn1 & Hok1 & Hu1 & Hsame1); [done|lia|lia|].
      exists s1. split; [done|].
      split; [rewrite Hq1; by destruct (luos_queue s)|].
      split; [done|]. split; [lia|done].
    - exists s. split; [done|]. split; [done|]. split; [done|].
      split; [lia|done]. }
  pose proof Hok1 as (Hlen1 & Hid1).
  unfold same_on, beside_luos_tasks, cursor in Hsame1.
  injection Hsame1 as Hmem Hstats Hms Hcm Hdp Hde Hctp Hmt Hmi Htt Hti.
  cbv [modify]. state_simpl. rewrite u16_small by lia.
  destruct (percent_cast (luos_tasks_stack_id s1 + 1)) as (-> & Hpc);
    [lia|lia|].
  rewrite (raise_luos_stack_ratio_run _ _ r)
    by (state_simpl; congruence).
  eexists. split; [reflexivity|]. unfold luos_queue, luos_tasks_ok in *.
  state_simpl. rewrite live_wr, length_wr by lia.
  split; [by rewrite Hq1|]. split; [split; [done|lia]|].
  split; [by rewrite Hstats, Hms|].
  unfold same_on, beside_luos_tasks_stats, cursor. state_simpl. congruence.
Qed.

(** X5: the peeks at LuosTasks describe the message a pull of the same
    entry hands out.  Whenever [MsgAlloc_PullMsgFromLuosTask i] returns
    SUCCEED with [m], then in the state it was called in
    [MsgAlloc_GetLuosTaskCmd i], [MsgAlloc_GetLuosTaskSourceId i] and
    [MsgAlloc_GetLuosTaskSize i] return SUCCEED with the command, source
    and size fields of the header of [m], [MsgAlloc_LookAtLuosTask i]
    returns SUCCEED too, [MsgAlloc_LuosTasksNbr] returns more than [i],
    and all of them leave the state as it is. *)
Theorem LuosTask_peeks_agree_with_pull (i m : Z) (s s' : state) :
  MsgAlloc_PullMsgFromLuosTask i s = Done (SUCCEED, Some m) s' ->
  MsgAlloc_GetLuosTaskCmd i s
  = Done (SUCCEED, Some (header_cmd (memory s) m)) s
  /\ MsgAlloc_GetLuosTaskSourceId i s
     = Done (SUCCEED, Some (header_source (memory s) m)) s
  /\ MsgAlloc_GetLuosTaskSize i s
     = Done (SUCCEED, Some (header_size (memory s) m)) s
  /\ (exists c, MsgAlloc_LookAtLuosTask i s = Done (SUCCEED, Some c) s)
  /\ (exists n, MsgAlloc_LuosTasksNbr s = Done n s /\ i < n).
Proof.
  unfold MsgAlloc_PullMsgFromLuosTask, MsgAlloc_GetLuosTaskCmd,
    MsgAlloc_GetLuosTaskSourceId, MsgAlloc_GetLuosTaskSize,
    MsgAlloc_LookAtLuosTask, MsgAlloc_LuosTasksNbr.
  exec. destruct (Z.ltb_spec i (luos_tasks_stack_id s)) as [Hlt|Hge].
  - intros H. split_outcome.
    repeat split; try done; eexists; split; done.
  - intros H. inversion H.
Qed.

(** *** The MsgTasks stack: frames in, frames out *)

Lemma msg_queue_head (s : state) (p : Z) (rest : list Z) :
  (Z.to_nat (msg_tasks_stack_id s) <= length (msg_tasks s))%nat ->
  msg_queue s = p :: rest ->
  0 < msg_tasks_stack_id s /\ rd msg_tasks_past (msg_tasks s) 0 = p.
Proof.
  intros Hlen Hq.
  assert (0 < msg_tasks_stack_id s) as Hpos.
  { destruct (Z.ltb_spec 0 (msg_tasks_stack_id s)); [done|].
    unfold msg_queue in Hq. by rewrite live_nil in Hq by lia. }
  split; [done|].
  unfold msg_queue in Hq.
  rewrite (live_cons msg_tasks_past) in Hq by lia. by inversion Hq.
Qed.

(** X6: [MsgAlloc_PullMsgToInterpret] hands out the frames in the order
    they were queued.  On a MsgTasks stack that holds [p :: rest], with
    [p] inside the buffer, it returns SUCCEED with [p] and leaves [rest]
    on the stack, and changes nothing but MsgTasks; with [p] outside the
    buffer its assertion halts the node. *)
Theorem PullMsgToInterpret_takes_oldest (s : state) (p : Z) (rest : list Z) :
  MAX_MSG_NB < 2 ^ 16 ->
  length (msg_tasks s) = Z.to_nat MAX_MSG_NB ->
  msg_tasks_stack_id s <= MAX_MSG_NB ->
  msg_queue s = p :: rest ->
  (in_buffer p = true ->
   exists s',
     MsgAlloc_PullMsgToInterpret s = Done (SUCCEED, Some p) s'
     /\ msg_queue s' = rest
     /\ msg_tasks_stack_id s' = msg_tasks_stack_id s - 1
     /\ same_on beside_msg_tasks s s')
  /\ (in_buffer p = false -> MsgAlloc_PullMsgToInterpret s = AssertFailed).
Proof.
  intros H16 Hlen Hid Hq.
  destruct (msg_queue_head s p rest) as (Hpos & Hrd); [lia|done|].
  unfold MsgAlloc_PullMsgToInterpret. exec.
  rewrite (proj2 (Z.ltb_lt _ _) Hpos), Hrd. fold (in_buffer p).
  split; intros ->; [|done].
  rewrite ClearMsgTask_pop by lia.
  eexists. split; [reflexivity|]. unfold msg_queue in *. state_simpl.
  split; [|done].
  change (drop 1 (live (msg_tasks s) (msg_tasks_stack_id s)) ++ [0]
          ++ drop (Z.to_nat (msg_tasks_stack_id s)) (msg_tasks s))
    with (popped 1 0 (msg_tasks s) (msg_tasks_stack_id s)).
  replace (msg_tasks_stack_id s - 1)
    with (msg_tasks_stack_id s - Z.of_nat 1) by lia.
  rewrite live_popped by lia. by rewrite Hq.
Qed.
Lemma leading_app_false {A} (P : A -> bool) (l : list A) (x : A) :
  P x = false -> (leading P (l ++ [x]) <= length l)%nat.
Proof.
  intros Hx. induction l as [|y l IH]; cbn.
  - by rewrite Hx.
  - destruct (P y); lia.
Qed.

(** What [MsgAlloc_ClearMsgSpace] does to the stacks it reclaims from:
    it takes entries off their heads, on MsgTasks no more than lie in the
    window at its head. *)
Lemma ClearMsgSpace_queues (from to : Z) (s : state) :
  MAX_MSG_NB < 2 ^ 16 ->
  stacks_ok s ->
  exists ret s' km kl,
    MsgAlloc_ClearMsgSpace from to s = Done ret s'
    /\ stacks_ok s' /\ (msg_tasks_ok s -> msg_tasks_ok s')
    /\ msg_queue s' = drop km (msg_queue s)
    /\ (km <= leading (in_space from to) (msg_queue s))%nat
    /\ luos_queue s' = drop kl (luos_queue s).
Proof.
  intros H16 Hok.
  destruct (Z.ltb_spec (u32 (msg_buffer + (MSG_BUFFER_SIZE - 1))) (u32 to))
    as [Hout|Hin].
  - exists FAILED, s, 0%nat, 0%nat. unfold MsgAlloc_ClearMsgSpace.
    rewrite (proj2 (Z.ltb_lt _ _) Hout).
    split; [done|]. split; [done|]. split; [done|].
    split; [done|]. split; [lia|done].
  - pose proof Hok as (Hml & Hmi & Hll & Hli & r & Hm).
    eexists SUCCEED, _, _, _. split.
    { apply (ClearMsgSpace_run from to s r); try done; lia. }
    set (km := leading (in_space from to) _).
    set (kl := leading _ (live (luos_tasks s) _)).
    assert (km <= Z.to_nat (msg_tasks_stack_id s))%nat
      by (apply leading_live_le; lia).
    assert (kl <= Z.to_nat (luos_tasks_stack_id s))%nat
      by (apply leading_live_le; lia).
    split; [|split; [|split; [|split]]].
    + repeat split; state_simpl; rewrite ?length_popped by lia;
        try done; try lia.
      eexists. repeat split; state_simpl;
        [apply Hm|by rewrite lookup_insert_eq|apply drops_counted_le].
    + intros (Hlive & Htail). unfold msg_tasks_ok. state_simpl.
      apply msg_tasks_ok_popped; [lia|done..].
    + unfold msg_queue. state_simpl. apply live_popped. lia.
    + done.
    + unfold luos_queue. state_simpl. apply live_popped. lia.
Qed.

Lemma EndMsg_makes_room_queue (s : state) :
  0 < MAX_MSG_NB < 2 ^ 16 ->
  stacks_ok s -> msg_tasks_ok s ->
  exists s' j,
    (if msg_tasks_stack_id s =? MAX_MSG_NB
     then MsgAlloc_ClearMsgTask;; count_drop
     else mret tt) s = Done tt s'
    /\ stacks_ok s' /\ msg_tasks_ok s'
    /\ msg_tasks_stack_id s' < MAX_MSG_NB
    /\ msg_queue s' = drop j (msg_queue s)
    /\ (j <= length (msg_queue s))%nat
    /\ same_on reception s s'.
Proof.
  intros H16 Hok Hmsg. pose proof Hok as (Hml & Hmi & Hll & Hli & r & Hm).
  assert (length (msg_queue s) = Z.to_nat (msg_tasks_stack_id s)) as Hlq
    by (apply length_live; lia).
  destruct (msg_tasks_stack_id s =? MAX_MSG_NB) eqn:E.
  - apply Z.eqb_eq in E. cbv [mbind alloc_bind].
    rewrite ClearMsgTask_pop by lia.
    rewrite (count_drop_run _ r) by exact Hm.
    eexists _, 1%nat. split; [reflexivity|]. state_simpl.
    change (drop 1 (live (msg_tasks s) (msg_tasks_stack_id s)) ++ [0]
            ++ drop (Z.to_nat (msg_tasks_stack_id s)) (msg_tasks s))
      with (popped 1 0 (msg_tasks s) (msg_tasks_stack_id s)).
    destruct Hmsg as (Hlive & Htail).
    destruct (msg_tasks_ok_popped 1 (msg_tasks s) (msg_tasks_stack_id s))
      as (Hlive' & Htail'); [lia|done..|].
    split; [|split; [|split; [|split; [|split]]]].
    + repeat split; state_simpl; rewrite ?length_popped by lia;
        try done; try lia.
      eexists. repeat split; state_simpl;
        [apply Hm|by rewrite lookup_insert_eq|apply drops_counted_le].
    + done.
    + state_simpl. lia.
    + unfold msg_queue. state_simpl.
      replace (msg_tasks_stack_id s - 1)
        with (msg_tasks_stack_id s - Z.of_nat 1) by lia.
      apply live_popped. lia.
    + lia.
    + done.
  - apply Z.eqb_neq in E. exists s, 0%nat.
    split; [done|]. split; [done|]. split; [done|]. split; [lia|].
    split; [done|]. split; [lia|done].
Qed.

(** Queueing a frame on a MsgTasks stack that has room. *)
Lemma msg_tasks_ok_push (a : list Z) (stack_id p : Z) :
  0 <= stack_id -> (Z.to_nat stack_id < length a)%nat ->
  in_buffer p = true ->
  Forall (fun p => in_buffer p = true) (live a stack_id) ->
  Forall (fun p => p = 0) (drop (Z.to_nat stack_id) a) ->
  Forall (fun p => in_buffer p = true) (live (wr a stack_id p) (stack_id + 1))
  /\ Forall (fun p => p = 0) (drop (Z.to_nat (stack_id + 1)) (wr a stack_id p)).
Proof.
  intros Hid Hlen Hp Hlive Htail. split.
  - rewrite live_wr by lia. apply Forall_app. split; [done|].
    by apply Forall_singleton.
  - unfold wr. rewrite drop_insert_lt by lia.
    replace (Z.to_nat (stack_id + 1)) with (Z.to_nat stack_id + 1)%nat by lia.
    rewrite <- drop_drop. by apply Forall_drop.
Qed.

(** [MsgAlloc_EndMsg] on well-kept stacks: it returns; MsgTasks then
    holds what is left of its entries, oldest taken off first, and behind
    them the frame just ended, unless the window of the next header took
    that one off as well. *)
Lemma EndMsg_queue (s : state) :
  0 < MAX_MSG_NB < 2 ^ 16 ->
  stacks_ok s -> msg_tasks_ok s ->
  exists s' j k,
    MsgAlloc_EndMsg s = Done tt s'
    /\ stacks_ok s'
    /\ (in_buffer (current_msg s) = true -> msg_tasks_ok s')
    /\ (j <= length (msg_queue s))%nat
    /\ msg_queue s' = drop k (drop j (msg_queue s) ++ [current_msg s])
    /\ (k <= leading
               (in_space (next_msg s) (next_msg s + (sizeof_header_t + 2)))
               (drop j (msg_queue s) ++ [current_msg s]))%nat.
Proof.
  intros H16 Hok Hmsg.
  destruct (MsgAlloc_EndMsg s) as [[] sf| |] eqn:Erun.
  2, 3: exfalso; destruct (EndMsg_returns s) as (s' & E'); try done;
        congruence.
  pose proof (EndMsg_cursor _ _ Erun) as (Hnext & _ & _).
  revert Erun. unfold MsgAlloc_EndMsg.
  cbv [mbind alloc_bind get].
  destruct (ClearMsgSpace_queues (current_msg s) (data_ptr s) s)
    as (ret1 & s1 & k1 & kl1 & E1 & Hok1 & Hmsg1 & Hq1 & Hk1 & _);
    [lia|done|].
  rewrite E1. specialize (Hmsg1 Hmsg).
  apply ClearMsgSpace_reception, same_reception in E1.
  destruct E1 as (Hmem1 & Hcm1 & Hdp1 & Hde1).
  destruct (EndMsg_makes_room_queue s1)
    as (s2 & j2 & E2 & Hok2 & Hmsg2 & Hlt2 & Hq2 & Hj2 & Hrec2); [done..|].
  cbv [mbind alloc_bind] in E2. rewrite E2.
  apply same_reception in Hrec2.
  destruct Hrec2 as (Hmem2 & Hcm2 & Hdp2 & Hde2).
  destruct (msg_tasks_ok_asserts s2) as (Hzero & Hhead); [done..|].
  unfold LUOS_ASSERT. rewrite Hzero. change (0 =? 0) with true.
  assert (negb (0 <? msg_tasks_stack_id s2)
          || (u32 msg_buffer <=? u32 (rd msg_tasks_past (msg_tasks s2) 0))
             && (u32 (rd msg_tasks_past (msg_tasks s2) 0)
                 <? u32 (msg_buffer + MSG_BUFFER_SIZE)) = true) as ->.
  { destruct (0 <? msg_tasks_stack_id s2) eqn:Epos; [|done].
    apply Z.ltb_lt in Epos. exact (Hhead Epos). }
  cbv [modify].
  set (s3 := set_data_ptr (data_ptr s2 - 2) _).
  pose proof Hok2 as (Hml2 & Hmi2 & Hll2 & Hli2 & Hm2).
  assert (stacks_ok s3) as Hok3.
  { subst s3. repeat split; state_simpl;
      rewrite ?length_wr, ?u16_small by lia; try done; lia. }
  assert (msg_queue s3 = msg_queue s2 ++ [current_msg s]) as Hq3.
  { subst s3. unfold msg_queue. state_simpl.
    rewrite u16_small, live_wr by lia. congruence. }
  assert (in_buffer (current_msg s) = true -> msg_tasks_ok s3) as Hmsg3.
  { intros Hin. subst s3. unfold msg_tasks_ok. state_simpl.
    rewrite u16_small by lia. destruct Hmsg2 as (Hlive2 & Htail2).
    apply msg_tasks_ok_push; try done; try lia. congruence. }
  assert (forall p s4,
            s4 = set_data_end_estimation (p + sizeof_header_t + 2)
                   (set_current_msg p (set_data_ptr p s3)) ->
            stacks_ok s4 /\ msg_queue s4 = msg_queue s3
            /\ (msg_tasks_ok s3 -> msg_tasks_ok s4)) as Hset.
  { intros p s4 ->. destruct Hok3 as (Hml & Hmi & Hll & Hli & Hm).
    split; [|done]. repeat split; try done; try apply Hmi; apply Hli. }
  assert (forall p,
            match
              MsgAlloc_ClearMsgSpace p (p + (sizeof_header_t + 2))
                (set_data_end_estimation (p + sizeof_header_t + 2)
                   (set_current_msg p (set_data_ptr p s3)))
            with
            | Done _ s5 => Done tt s5
            | AssertFailed => AssertFailed
            | Fault => Fault
            end = Done tt sf ->
            data_ptr sf = p
            /\ stacks_ok sf
            /\ (in_buffer (current_msg s) = true -> msg_tasks_ok sf)
            /\ exists k,
                 msg_queue sf = drop k (msg_queue s3)
                 /\ (k <= leading (in_space p (p + (sizeof_header_t + 2)))
                            (msg_queue s3))%nat) as Hlast.
  { intros p.
    destruct (Hset p _ eq_refl) as (Hok4 & Hq4 & Hmsg4).
    destruct (ClearMsgSpace_queues p (p + (sizeof_header_t + 2))
                (set_data_end_estimation (p + sizeof_header_t + 2)
                   (set_current_msg p (set_data_ptr p s3))))
      as (ret5 & s5 & k5 & kl5 & E5 & Hok5 & Hmsg5 & Hq5 & Hk5 & _);
      [lia|done|].
    rewrite E5. intros Hsf. inversion Hsf; subst s5.
    apply ClearMsgSpace_reception, same_reception in E5.
    destruct E5 as (_ & _ & Hdp5 & _).
    split; [done|]. split; [done|]. split; [by auto|].
    exists k5. by rewrite <- Hq4. }
  assert (j2 + k1 <= length (msg_queue s))%nat as Hj.
  { pose proof (leading_le (in_space (current_msg s) (data_ptr s))
                  (msg_queue s)).
    rewrite Hq1, length_drop in Hj2. lia. }
  assert (msg_queue s3 = drop (k1 + j2) (msg_queue s) ++ [current_msg s])
    as Hq3'.
  { by rewrite Hq3, Hq2, Hq1, drop_drop. }
  intros Erun.
  assert (exists p, data_ptr sf = p
            /\ stacks_ok sf
            /\ (in_buffer (current_msg s) = true -> msg_tasks_ok sf)
            /\ exists k,
                 msg_queue sf = drop k (msg_queue s3)
                 /\ (k <= leading (in_space p (p + (sizeof_header_t + 2)))
                            (msg_queue s3))%nat)
    as (p & Hp & Hokf & Hmsgf & k & Hqf & Hk).
  { revert Erun.
    destruct (MsgAlloc_DoWeHaveSpace _); [destruct (_ =? 1)|];
      cbv [mret alloc_ret]; state_simpl; intros Erun; eexists.
    - apply Hlast.
      replace s3 with (set_data_ptr (data_ptr s3) s3) in Erun at 3 4
        by (by destruct s3).
      exact Erun.
    - apply Hlast. exact Erun.
    - apply Hlast. exact Erun. }
  exists sf, (k1 + j2)%nat, k.
  split; [done|]. split; [done|]. split; [done|]. split; [lia|].
  rewrite <- Hq3'. split; [done|]. congruence.
Qed.
(** What [MsgAlloc_ClearMsgSpace] leaves of MsgTasks, entry for entry. *)
Lemma ClearMsgSpace_reclaims (from to : Z) (s : state) :
  MAX_MSG_NB < 2 ^ 16 ->
  stacks_ok s ->
  exists ret s',
    MsgAlloc_ClearMsgSpace from to s = Done ret s'
    /\ stacks_ok s' /\ (msg_tasks_ok s -> msg_tasks_ok s')
    /\ msg_queue s' = reclaimed from to (msg_queue s).
Proof.
  intros H16 Hok. unfold reclaimed.
  destruct (Z.ltb_spec (u32 (msg_buffer + (MSG_BUFFER_SIZE - 1))) (u32 to))
    as [Hout|Hin].
  - exists FAILED, s. unfold MsgAlloc_ClearMsgSpace.
    rewrite (proj2 (Z.ltb_lt _ _) Hout). done.
  - pose proof Hok as (Hml & Hmi & Hll & Hli & r & Hm).
    eexists SUCCEED, _. split.
    { apply (ClearMsgSpace_run from to s r); try done; lia. }
    set (km := leading (in_space from to) _).
    set (kl := leading _ (live (luos_tasks s) _)).
    assert (km <= Z.to_nat (msg_tasks_stack_id s))%nat
      by (apply leading_live_le; lia).
    assert (kl <= Z.to_nat (luos_tasks_stack_id s))%nat
      by (apply leading_live_le; lia).
    split; [|split].
    + repeat split; state_simpl; rewrite ?length_popped by lia;
        try done; try lia.
      eexists. repeat split; state_simpl;
        [apply Hm|by rewrite lookup_insert_eq|apply drops_counted_le].
    + intros (Hlive & Htail). unfold msg_tasks_ok. state_simpl.
      apply msg_tasks_ok_popped; [lia|done..].
    + unfold msg_queue. state_simpl. apply live_popped. lia.
Qed.

(** What the eviction of [MsgAlloc_EndMsg] leaves of MsgTasks. *)
Lemma EndMsg_makes_room_evicts (s : state) :
  0 < MAX_MSG_NB < 2 ^ 16 ->
  stacks_ok s -> msg_tasks_ok s ->
  exists s',
    (if msg_tasks_stack_id s =? MAX_MSG_NB
     then MsgAlloc_ClearMsgTask;; count_drop
     else mret tt) s = Done tt s'
    /\ stacks_ok s' /\ msg_tasks_ok s'
    /\ msg_tasks_stack_id s' < MAX_MSG_NB
    /\ msg_queue s' = evicted (msg_queue s)
    /\ same_on reception s s'.
Proof.
  intros H16 Hok Hmsg.
  destruct (EndMsg_makes_room_queue s)
    as (s' & j & Hrun & Hok' & Hmsg' & Hlt & Hq & _ & Hrec); [done..|].
  exists s'. split; [done|]. split; [done|]. split; [done|].
  split; [done|]. split; [|done].
  pose proof Hok as (Hml & Hmi & _).
  assert (length (msg_queue s) = Z.to_nat (msg_tasks_stack_id s)) as Hlq
    by (apply length_live; lia).
  unfold evicted. rewrite Hlq, Z2Nat.id by lia.
  destruct (msg_tasks_stack_id s =? MAX_MSG_NB) eqn:E.
  - apply Z.eqb_eq in E. cbv [mbind alloc_bind] in Hrun.
    rewrite ClearMsgTask_pop in Hrun by lia.
    destruct Hok as (_ & _ & _ & _ & r & Hm).
    rewrite (count_drop_run _ r) in Hrun by exact Hm.
    inversion Hrun. unfold msg_queue. state_simpl.
    change (drop 1 (live (msg_tasks s) (msg_tasks_stack_id s)) ++ 0
            :: drop (Z.to_nat (msg_tasks_stack_id s)) (msg_tasks s))
      with (popped 1 0 (msg_tasks s) (msg_tasks_stack_id s)).
    replace (msg_tasks_stack_id s - 1)
      with (msg_tasks_stack_id s - Z.of_nat 1) by lia.
    apply live_popped. lia.
  - inversion Hrun. done.
Qed.

(** [MsgAlloc_EndMsg] on well-kept stacks, entry for entry: the window of
    the frame is reclaimed, the oldest entry evicted from a full stack,
    the frame queued, and the window of the next header reclaimed. *)
Lemma EndMsg_reclaims (s : state) :
  0 < MAX_MSG_NB < 2 ^ 16 ->
  stacks_ok s -> msg_tasks_ok s ->
  exists s',
    MsgAlloc_EndMsg s = Done tt s'
    /\ msg_queue s'
       = reclaimed (next_msg s) (next_msg s + (sizeof_header_t + 2))
           (evicted (reclaimed (current_msg s) (data_ptr s) (msg_queue s))
            ++ [current_msg s]).
Proof.
  intros H16 Hok Hmsg.
  destruct (MsgAlloc_EndMsg s) as [[] sf| |] eqn:Erun.
  2, 3: exfalso; destruct (EndMsg_returns s) as (s' & E'); try done;
        congruence.
  exists sf. split; [done|].
  pose proof (EndMsg_cursor _ _ Erun) as (Hnext & _ & _).
  revert Erun. unfold MsgAlloc_EndMsg.
  cbv [mbind alloc_bind get].
  destruct (ClearMsgSpace_reclaims (current_msg s) (data_ptr s) s)
    as (ret1 & s1 & E1 & Hok1 & Hmsg1 & Hq1); [lia|done|].
  rewrite E1. specialize (Hmsg1 Hmsg).
  apply ClearMsgSpace_reception, same_reception in E1.
  destruct E1 as (Hmem1 & Hcm1 & Hdp1 & Hde1).
  destruct (EndMsg_makes_room_evicts s1)
    as (s2 & E2 & Hok2 & Hmsg2 & Hlt2 & Hq2 & Hrec2); [done..|].
  cbv [mbind alloc_bind] in E2. rewrite E2.
  apply same_reception in Hrec2.
  destruct Hrec2 as (Hmem2 & Hcm2 & Hdp2 & Hde2).
  destruct (msg_tasks_ok_asserts s2) as (Hzero & Hhead); [done..|].
  unfold LUOS_ASSERT. rewrite Hzero. change (0 =? 0) with true.
  assert (negb (0 <? msg_tasks_stack_id s2)
          || (u32 msg_buffer <=? u32 (rd msg_tasks_past (msg_tasks s2) 0))
             && (u32 (rd msg_tasks_past (msg_tasks s2) 0)
                 <? u32 (msg_buffer + MSG_BUFFER_SIZE)) = true) as ->.
  { destruct (0 <? msg_tasks_stack_id s2) eqn:Epos; [|done].
    apply Z.ltb_lt in Epos. exact (Hhead Epos). }
  cbv [modify].
  set (s3 := set_data_ptr (data_ptr s2 - 2) _).
  pose proof Hok2 as (Hml2 & Hmi2 & Hll2 & Hli2 & Hm2).
  assert (stacks_ok s3) as Hok3.
  { subst s3. repeat split; state_simpl;
      rewrite ?length_wr, ?u16_small by lia; try done; lia. }
  assert (msg_queue s3
          = evicted (reclaimed (current_msg s) (data_ptr s) (msg_queue s))
            ++ [current_msg s]) as Hq3.
  { subst s3. unfold msg_queue in *. state_simpl.
    rewrite u16_small, live_wr by lia. congruence. }
  assert (forall p,
            match
              MsgAlloc_ClearMsgSpace p (p + (sizeof_header_t + 2))
                (set_data_end_estimation (p + sizeof_header_t + 2)
                   (set_current_msg p (set_data_ptr p s3)))
            with
            | Done _ s5 => Done tt s5
            | AssertFailed => AssertFailed
            | Fault => Fault
            end = Done tt sf ->
            data_ptr sf = p
            /\ msg_queue sf
               = reclaimed p (p + (sizeof_header_t + 2)) (msg_queue s3))
    as Hlast.
  { intros p.
    destruct (ClearMsgSpace_reclaims p (p + (sizeof_header_t + 2))
                (set_data_end_estimation (p + sizeof_header_t + 2)
                   (set_current_msg p (set_data_ptr p s3))))
      as (ret5 & s5 & E5 & _ & _ & Hq5); [lia|by destruct Hok3|].
    rewrite E5. intros Hsf. inversion Hsf; subst s5.
    apply ClearMsgSpace_reception, same_reception in E5.
    destruct E5 as (_ & _ & Hdp5 & _).
    split; [done|]. exact Hq5. }
  intros Erun.
  assert (exists p, data_ptr sf = p
            /\ msg_queue sf
               = reclaimed p (p + (sizeof_header_t + 2)) (msg_queue s3))
    as (p & Hp & Hqf).
  { revert Erun.
    destruct (MsgAlloc_DoWeHaveSpace _); [destruct (_ =? 1)|];
      cbv [mret alloc_ret]; state_simpl; intros Erun; eexists.
    - apply Hlast.
      replace s3 with (set_data_ptr (data_ptr s3) s3) in Erun at 3 4
        by (by destruct s3).
      exact Erun.
    - apply Hlast. exact Erun.
    - apply Hlast. exact Erun. }
  rewrite Hqf, Hq3. congruence.
Qed.

(** X7: [MsgAlloc_EndMsg] queues the frame it ends, and takes off
    MsgTasks what lies in its way and nothing else.  On well-kept stacks
    it returns; of the entries MsgTasks held, those at its head that lie
    between the start of the frame and the cursor are reclaimed, and the
    oldest of the rest is evicted if they fill the stack; the frame,
    [current_msg], is queued behind them; and of that queue the entries
    at its head that lie in the room of the next header are reclaimed.
    The frame itself stays, as the newest entry, unless it starts in the
    room of the next header. *)
Theorem EndMsg_queues_frame (s : state) :
  0 < MAX_MSG_NB < 2 ^ 16 ->
  stacks_ok s -> msg_tasks_ok s ->
  exists s',
    MsgAlloc_EndMsg s = Done tt s'
    /\ msg_queue s'
       = reclaimed (next_msg s) (next_msg s + (sizeof_header_t + 2))
           (evicted (reclaimed (current_msg s) (data_ptr s) (msg_queue s))
            ++ [current_msg s])
    /\ (in_space (next_msg s) (next_msg s + (sizeof_header_t + 2))
          (current_msg s) = false ->
        last (msg_queue s') = Some (current_msg s)).
Proof.
  intros H16 Hok Hmsg.
  destruct (EndMsg_reclaims s) as (s' & Hrun & Hq); [done..|].
  exists s'. split; [done|]. split; [done|]. intros Hout.
  rewrite Hq. unfold reclaimed at 1.
  destruct (_ <? _); [apply last_snoc|].
  set (q := evicted _).
  pose proof (leading_app_false
                (in_space (next_msg s) (next_msg s + (sizeof_header_t + 2)))
                q (current_msg s) Hout) as Hle.
  rewrite drop_app_le by lia. apply last_snoc.
Qed.
(** *** Bytes stored by the reception *)

Lemma stored_outside (bytes : list Z) : forall p m a,
  a < p \/ p + Z.of_nat (length bytes) <= a ->
  stored bytes p m a = m a.
Proof.
  induction bytes as [|b bytes IH]; intros p m a Ha; [done|].
  cbn [stored length] in *. rewrite IH by lia.
  unfold store. rewrite (proj2 (Z.eqb_neq a p)); [done|lia].
Qed.

Lemma stored_lookup (bytes : list Z) : forall p m (i : nat) b,
  bytes !! i = Some b -> stored bytes p m (p + Z.of_nat i) = b.
Proof.
  induction bytes as [|b0 bytes IH]; intros p m i b Hi; [done|].
  cbn [stored]. destruct i as [|i].
  - inversion Hi; subst. rewrite stored_outside by lia.
    unfold store. by rewrite Z.add_0_r, Z.eqb_refl.
  - replace (p + Z.of_nat (S i)) with (p + 1 + Z.of_nat i) by lia.
    by apply IH.
Qed.

Lemma SetData_run_ops (bytes : list Z) : forall s,
  run_ops (SetData <$> bytes) s
  = Done tt
      (set_data_ptr (data_ptr s + Z.of_nat (length bytes))
         (set_memory (stored bytes (data_ptr s) (memory s)) s)).
Proof.
  induction bytes as [|b bytes IH]; intros s.
  - cbn. rewrite Z.add_0_r. by destruct s.
  - cbn [fmap list_fmap run_ops run_op]. unfold MsgAlloc_SetData at 1.
    exec. rewrite IH. state_simpl. cbn [stored length].
    replace (data_ptr s + 1 + Z.of_nat (length bytes))
      with (data_ptr s + Z.of_nat (S (length bytes))) by lia.
    same_state.
Qed.

(** X8: bytes handed to [MsgAlloc_SetData] one after the other lie in
    the memory in the order they came, from the old [data_ptr] on;
    [data_ptr] has moved past them, the rest of the memory is as it was,
    and nothing else has changed.  The calls always return: no bound is
    checked. *)
Theorem SetData_stores_in_order (bytes : list Z) (s : state) :
  exists s',
    run_ops (SetData <$> bytes) s = Done tt s'
    /\ data_ptr s' = data_ptr s + Z.of_nat (length bytes)
    /\ (forall (i : nat) b,
          bytes !! i = Some b -> memory s' (data_ptr s + Z.of_nat i) = b)
    /\ (forall a,
          a < data_ptr s \/ data_ptr s + Z.of_nat (length bytes) <= a ->
          memory s' a = memory s a)
    /\ s' = set_data_ptr (data_ptr s') (set_memory (memory s') s).
Proof.
  eexists. split; [apply SetData_run_ops|]. state_simpl.
  split; [done|]. split; [intros i b; apply stored_lookup|].
  split; [intros a; apply stored_outside|]. same_state.
Qed.
Lemma count_drop_memory : preserves (same_on memory) count_drop.
Proof.
  unfold count_drop, mem_stat_load, mem_stat_store.
  intros s a s'. exec. intros H. split_outcome; reflexivity.
Qed.

Lemma ClearMsgSpace_memory from to :
  preserves (same_on memory) (MsgAlloc_ClearMsgSpace from to).
Proof.
  apply ClearMsgSpace_preserves; try tc_solve; try (intros; reflexivity).
  apply count_drop_memory.
Qed.

Lemma ClearMsgTask_memory : preserves (same_on memory) MsgAlloc_ClearMsgTask.
Proof.
  apply ClearMsgTask_preserves; try tc_solve; try (intros; reflexivity).
Qed.

Lemma EndMsg_memory : preserves (same_on memory) MsgAlloc_EndMsg.
Proof.
  unfold MsgAlloc_EndMsg. pres;
    first [apply ClearMsgSpace_memory | apply ClearMsgTask_memory
          | apply count_drop_memory].
Qed.

(** X9: a frame received is a frame delivered.  From the start of a
    frame, with MsgTasks empty and room in the buffer for the frame and
    the header of the next one, storing the bytes of the frame (at least
    three, the last two its CRC) with [MsgAlloc_SetData] and ending it
    with [MsgAlloc_EndMsg] makes the next [MsgAlloc_PullMsgToInterpret]
    return SUCCEED with the address the frame started at, where the bytes
    lie in the order they came. *)
Theorem received_frame_is_delivered (bytes : list Z) (s : state) :
  sane_target -> 0 < MAX_MSG_NB < 2 ^ 16 ->
  stacks_ok s -> msg_tasks_ok s -> msg_queue s = [] ->
  data_ptr s = current_msg s ->
  msg_buffer <= current_msg s ->
  (3 <= length bytes)%nat ->
  current_msg s + Z.of_nat (length bytes) + sizeof_header_t
  < msg_buffer + MSG_BUFFER_SIZE ->
  exists s1 s2 s3,
    run_ops (SetData <$> bytes) s = Done tt s1
    /\ MsgAlloc_EndMsg s1 = Done tt s2
    /\ MsgAlloc_PullMsgToInterpret s2 = Done (SUCCEED, Some (current_msg s)) s3
    /\ (forall (i : nat) b,
          bytes !! i = Some b -> memory s3 (current_msg s + Z.of_nat i) = b)
    /\ msg_queue s3 = [].
Proof.
  intros Ht H16 Hok Hmsg Hempty Hstart Hlow Hn Hroom.
  set (n := Z.of_nat (length bytes)) in *.
  pose proof (SetData_run_ops bytes s) as Hrun1.
  set (s1 := set_data_ptr _ _) in Hrun1.
  assert (stacks_ok s1) as Hok1.
  { destruct Hok as (Hml & Hmi & Hll & Hli & Hm).
    repeat split; try done; try apply Hmi; apply Hli. }
  assert (msg_tasks_ok s1) as Hmsg1 by done.
  assert (next_msg s1 = current_msg s + n - 2
          \/ next_msg s1 = current_msg s + n - 1) as Hnext.
  { unfold next_msg, sane_target in *. subst s1. state_simpl.
    rewrite Hstart. fold n.
    rewrite (proj2 (Z.ltb_ge _ _)) by (unsigned; lia).
    destruct (Z.even _); [right|left]; lia. }
  assert (in_buffer (current_msg s) = true) as Hin.
  { unfold in_buffer, sane_target in *. unsigned.
    apply andb_true_intro. split; [apply Z.leb_le|apply Z.ltb_lt]; lia. }
  destruct (EndMsg_queue s1)
    as (s2 & j & k & Hrun & Hok2 & Hmsg2 & Hj & Hq & Hk); [done..|].
  change (msg_queue s1) with (msg_queue s) in *.
  change (current_msg s1) with (current_msg s) in *.
  rewrite Hempty in *. cbn [length] in Hj.
  assert (j = 0%nat) as -> by lia. rewrite drop_0, app_nil_l in *.
  assert (k = 0%nat) as ->.
  { cbn [leading] in Hk. unfold in_space, sane_target in *.
    rewrite (proj2 (Z.leb_gt _ _)) in Hk by (unsigned; lia).
    cbn in Hk. lia. }
  rewrite drop_0 in Hq. clear Hk Hj.
  exists s1, s2. eexists. split; [exact Hrun1|]. split; [exact Hrun|].
  apply EndMsg_memory in Hrun. unfold same_on in Hrun.
  destruct Hok2 as (Hml2 & Hmi2 & _).
  destruct (msg_queue_head s2 (current_msg s) []) as (Hpos & Hrd);
    [lia|done|].
  unfold MsgAlloc_PullMsgToInterpret. exec.
  rewrite (proj2 (Z.ltb_lt _ _) Hpos), Hrd. fold (in_buffer (current_msg s)).
  rewrite Hin. rewrite ClearMsgTask_pop by lia.
  split; [reflexivity|]. unfold msg_queue in *. state_simpl.
  split.
  - intros i b Hi. rewrite Hrun. subst s1. state_simpl.
    rewrite Hstart. by apply stored_lookup.
  - change (drop 1 (live (msg_tasks s2) (msg_tasks_stack_id s2)) ++ [0]
            ++ drop (Z.to_nat (msg_tasks_stack_id s2)) (msg_tasks s2))
      with (popped 1 0 (msg_tasks s2) (msg_tasks_stack_id s2)).
    replace (msg_tasks_stack_id s2 - 1)
      with (msg_tasks_stack_id s2 - Z.of_nat 1) by lia.
    rewrite live_popped by lia. by rewrite Hq.
Qed.

(** *** The stack ratios *)

#[local] Instance ratios_grow_preorder : PreOrder ratios_grow.
Proof.
  split.
  - intros s p r H. exists r. split; [done|lia].
  - intros s1 s2 s3 H12 H23 p r H.
    destruct (H12 p r H) as (r2 & H2 & Hm2 & Hl2).
    destruct (H23 p r2 H2) as (r3 & H3 & Hm3 & Hl3).
    exists r3. split; [done|lia].
Qed.

Lemma ratios_grow_same_stats s s' : stats s' = stats s -> ratios_grow s s'.
Proof. intros H p r Hr. exists r. rewrite H. split; [done|lia]. Qed.

Lemma ratios_grow_store s r r' :
  stats s !! mem_stat s = Some r ->
  msg_stack_ratio r <= msg_stack_ratio r' ->
  luos_stack_ratio r <= luos_stack_ratio r' ->
  ratios_grow s (set_stats (<[mem_stat s := r']> (stats s)) s).
Proof.
  intros Hr Hm Hl p r0 H0. cbn.
  destruct (decide (p = mem_stat s)) as [->|Hne].
  - rewrite lookup_insert_eq. exists r'. split; [done|].
    rewrite Hr in H0. inversion H0; subst. lia.
  - rewrite lookup_insert_ne by done. exists r0. split; [done|lia].
Qed.

Lemma count_drop_ratios : preserves ratios_grow count_drop.
Proof.
  intros s a s'. unfold count_drop, mem_stat_load, mem_stat_store. exec.
  intros H. split_outcome; [|reflexivity].
  eapply ratios_grow_store; [done|cbn; lia|cbn; lia].
Qed.

Lemma raise_msg_stack_ratio_ratios stat :
  preserves ratios_grow (raise_msg_stack_ratio stat).
Proof.
  intros s a s'. unfold raise_msg_stack_ratio, mem_stat_load, mem_stat_store.
  exec. intros H. split_outcome; [|reflexivity]. bools.
  eapply ratios_grow_store; [done|cbn; lia|cbn; lia].
Qed.

Lemma raise_luos_stack_ratio_ratios stat :
  preserves ratios_grow (raise_luos_stack_ratio stat).
Proof.
  intros s a s'. unfold raise_luos_stack_ratio, mem_stat_load, mem_stat_store.
  exec. intros H. split_outcome; [|reflexivity]. bools.
  eapply ratios_grow_store; [done|cbn; lia|cbn; lia].
Qed.

Ltac ratios_leaf :=
  solve [ apply count_drop_ratios
        | apply raise_msg_stack_ratio_ratios
        | apply raise_luos_stack_ratio_ratios
        | apply ratios_grow_same_stats; reflexivity
        | auto ].

Lemma ClearMsgSpace_ratios from to :
  preserves ratios_grow (MsgAlloc_ClearMsgSpace from to).
Proof. apply ClearMsgSpace_preserves; try tc_solve; intros; ratios_leaf. Qed.

Lemma ClearMsgTask_ratios : preserves ratios_grow MsgAlloc_ClearMsgTask.
Proof. apply ClearMsgTask_preserves; try tc_solve; intros; ratios_leaf. Qed.

Lemma ClearLuosTask_ratios i :
  preserves ratios_grow (MsgAlloc_ClearLuosTask i).
Proof. apply ClearLuosTask_preserves; try tc_solve; intros; ratios_leaf. Qed.

Ltac ratios :=
  repeat preserves_step;
  try first [ ratios_leaf | apply ClearMsgSpace_ratios
            | apply ClearMsgTask_ratios | apply ClearLuosTask_ratios ].

Lemma EndMsg_ratios : preserves ratios_grow MsgAlloc_EndMsg.
Proof. unfold MsgAlloc_EndMsg. ratios. Qed.

Lemma PullMsg_search_ratios count i target_module :
  preserves ratios_grow (PullMsg_search count i target_module).
Proof.
  revert i. induction count as [|k IH]; intros i; cbn [PullMsg_search];
    ratios.
Qed.

Lemma ClearMsgFromLuosTasks_loop_ratios fuel id msg :
  preserves ratios_grow (ClearMsgFromLuosTasks_loop fuel id msg).
Proof.
  revert id. induction fuel as [|k IH]; intros id;
    cbn [ClearMsgFromLuosTasks_loop]; ratios.
Qed.

Lemma run_op_ratios o : preserves ratios_grow (run_op o).
Proof.
  destruct o; cbn [run_op];
    unfold MsgAlloc_Init, MsgAlloc_loop, MsgAlloc_InvalidMsg,
      MsgAlloc_ValidHeader, MsgAlloc_SetData, MsgAlloc_SetMessage,
      MsgAlloc_GetCurrentMsg, MsgAlloc_IsEmpty, MsgAlloc_PullMsgToInterpret,
      MsgAlloc_UsedMsgEnd, MsgAlloc_LuosTaskAlloc, MsgAlloc_PullMsg,
      MsgAlloc_PullMsgFromLuosTask, MsgAlloc_LookAtLuosTask,
      MsgAlloc_GetLuosTaskCmd, MsgAlloc_GetLuosTaskSourceId,
      MsgAlloc_GetLuosTaskSize, MsgAlloc_LuosTasksNbr,
      MsgAlloc_ClearMsgFromLuosTasks, MsgAlloc_SetTxTask, MsgAlloc_GetTxTask,
      MsgAlloc_PullMsgFromTxTask;
    ratios;
    first [ apply EndMsg_ratios | apply PullMsg_search_ratios
          | apply ClearMsgFromLuosTasks_loop_ratios ].
Qed.

(** X10: the stack ratios are high-water marks.  Across every sequence
    of allocator calls no statistics record disappears and neither
    [msg_stack_ratio] nor [luos_stack_ratio] of a record goes down. *)
Theorem stack_ratios_never_decrease (l : list op) (s s' : state) :
  run_ops l s = Done tt s' ->
  forall p r, stats s !! p = Some r ->
    exists r', stats s' !! p = Some r'
      /\ msg_stack_ratio r <= msg_stack_ratio r'
      /\ luos_stack_ratio r <= luos_stack_ratio r'.
Proof.
  revert s. induction l as [|o l IH]; intros s H.
  - inversion H. intros p r Hr. exists r. split; [done|lia].
  - cbn [run_ops] in H. cbv [mbind alloc_bind] in H.
    destruct (run_op o s) as [[] s1| |] eqn:E; try discriminate.
    pose proof (run_op_ratios o _ _ _ E) as HE.
    pose proof (IH _ H) as HI.
    intros p r Hr.
    destruct (HE p r Hr) as (r1 & H1 & Hm1 & Hl1).
    destruct (HI p r1 H1) as (r2 & H2 & Hm2 & Hl2).
    exists r2. split; [done|lia].
Qed.
Lemma loop_run (s : state) (r : memory_stats_t) :
  mem_stat s <> NULL -> stats s !! mem_stat s = Some r ->
  let stat := u8 (u32 (msg_tasks_stack_id s * 100) / MAX_MSG_NB) in
  let s1 :=
    set_stats
      (<[mem_stat s :=
           mk_memory_stats (Z.max (msg_stack_ratio r) stat)
             (luos_stack_ratio r) (msg_drop_number r)]> (stats s)) s in
  MsgAlloc_loop s
  = Done tt
      (if copy_task_pointer s =? NULL then s1
       else set_copy_task_pointer NULL
              (set_memory
                 (memcpy (memory s) msg_buffer (copy_task_pointer s)
                    sizeof_header_t) s1)).
Proof.
  intros Hp Hr stat s1. unfold MsgAlloc_loop. cbv [mbind alloc_bind get].
  fold stat. rewrite (raise_msg_stack_ratio_run _ _ r) by done. fold s1.
  change (copy_task_pointer s1) with (copy_task_pointer s).
  destruct (copy_task_pointer s =? NULL); exec; done.
Qed.

(** X11: [MsgAlloc_loop] records how full MsgTasks is and is
    idempotent.  With the stack counter within the stack and [mem_stat]
    pointing to a record, the call returns; [msg_stack_ratio] is then the
    larger of what it was and the share of MsgTasks in use, in percent;
    no header copy is pending any more; and one more call changes
    nothing. *)
Theorem loop_records_occupancy (s : state) (r : memory_stats_t) :
  0 < MAX_MSG_NB < 2 ^ 16 ->
  0 <= msg_tasks_stack_id s <= MAX_MSG_NB ->
  mem_stat s <> NULL -> stats s !! mem_stat s = Some r ->
  exists s',
    MsgAlloc_loop s = Done tt s'
    /\ stats s'
       = <[mem_stat s :=
             mk_memory_stats
               (Z.max (msg_stack_ratio r) (percent (msg_tasks_stack_id s)))
               (luos_stack_ratio r) (msg_drop_number r)]> (stats s)
    /\ copy_task_pointer s' = NULL
    /\ MsgAlloc_loop s' = Done tt s'.
Proof.
  intros H16 Hid Hp Hr.
  destruct (percent_cast (msg_tasks_stack_id s)) as (Hcast & _); [done..|].
  pose proof (loop_run s r Hp Hr) as Hrun. cbv zeta in Hrun.
  rewrite Hcast in Hrun.
  set (r' := mk_memory_stats _ _ _) in Hrun.
  eexists. split; [exact Hrun|].
  set (s' := if _ =? _ then _ else _).
  assert (stats s' = <[mem_stat s := r']> (stats s)) as Hstats
    by (subst s'; by destruct (_ =? _)).
  assert (mem_stat s' = mem_stat s) as Hms
    by (subst s'; by destruct (_ =? _)).
  assert (msg_tasks_stack_id s' = msg_tasks_stack_id s) as Hmi
    by (subst s'; by destruct (_ =? _)).
  assert (copy_task_pointer s' = NULL) as Hctp.
  { subst s'. destruct (Z.eqb_spec (copy_task_pointer s) NULL); done. }
  split; [done|]. split; [done|].
  assert (stats s' !! mem_stat s' = Some r') as Hr'
    by (by rewrite Hstats, Hms, lookup_insert_eq).
  rewrite (loop_run s' r') by (done || congruence). cbv zeta.
  rewrite Hctp. change (NULL =? NULL) with true. cbv iota.
  rewrite Hmi, Hcast. f_equal.
  replace (mk_memory_stats _ _ _) with r'.
  - by apply set_stats_same.
  - subst r'. cbn. f_equal. lia.
Qed.

Lemma run_ops_app (l1 l2 : list op) (s : state) :
  run_ops (l1 ++ l2) s
  = match run_ops l1 s with
    | Done _ s1 => run_ops l2 s1
    | AssertFailed => AssertFailed
    | Fault => Fault
    end.
Proof.
  revert s. induction l1 as [|o l1 IH]; intros s; [done|].
  cbn [app run_ops]. cbv [mbind alloc_bind].
  destruct (run_op o s) as [[] s1| |]; [apply IH|done..].
Qed.

(** X12: a header received too close to the end of the buffer is moved
    to its start.  When [MsgAlloc_ValidHeader] finds that the frame does
    not fit behind [current_msg], reception goes on at the start of the
    buffer, behind the room of a header; and the next [MsgAlloc_loop]
    copies the header there, in front of the payload bytes stored
    meanwhile, provided these have not reached the place the header
    is copied from. *)
Theorem wrapped_header_is_moved (data_size : Z) (payload : list Z)
    (s : state) (r : memory_stats_t) :
  mem_stat_is r s ->
  current_msg s <> NULL ->
  u32 (msg_buffer + (MSG_BUFFER_SIZE - 1))
  < u32 (current_msg s + sizeof_header_t + (data_size + 2)) ->
  msg_buffer + sizeof_header_t + Z.of_nat (length payload) <= current_msg s ->
  exists s',
    run_ops ([ValidHeader 1 data_size] ++ (SetData <$> payload) ++ [Loop]) s
    = Done tt s'
    /\ current_msg s' = msg_buffer
    /\ data_ptr s'
       = msg_buffer + sizeof_header_t + Z.of_nat (length payload)
    /\ (forall i, 0 <= i < sizeof_header_t ->
          memory s' (msg_buffer + i) = memory s (current_msg s + i))
    /\ (forall (i : nat) b, payload !! i = Some b ->
          memory s' (msg_buffer + sizeof_header_t + Z.of_nat i) = b)
    /\ copy_task_pointer s' = NULL.
Proof.
  intros Hm Hcm Hwrap Hroom.
  assert (exists s1,
            MsgAlloc_ValidHeader 1 data_size s = Done tt s1
            /\ memory s1 = memory s
            /\ copy_task_pointer s1 = current_msg s
            /\ current_msg s1 = msg_buffer
            /\ data_ptr s1 = msg_buffer + sizeof_header_t
            /\ mem_stat s1 <> NULL
            /\ exists r1, stats s1 !! mem_stat s1 = Some r1)
    as (s1 & Hrun1 & Hmem1 & Hctp1 & Hcm1 & Hdp1 & Hp1 & r1 & Hr1).
  { unfold MsgAlloc_ValidHeader, MsgAlloc_DoWeHaveSpace.
    change (1 =? 1) with true. exec.
    rewrite (proj2 (Z.ltb_lt _ _) Hwrap). exec.
    destruct Hm as (Hp & Hr & Hd).
    destruct (_ && _); exec.
    - rewrite (count_drop_run _ r) by done.
      eexists. split; [reflexivity|]. state_simpl.
      repeat split; try done. eexists. by rewrite lookup_insert_eq.
    - eexists. split; [reflexivity|]. state_simpl.
      repeat split; try done. by eexists. }
  rewrite run_ops_app. cbn [run_ops run_op]. cbv [mbind alloc_bind].
  rewrite Hrun1. cbv [mret alloc_ret].
  rewrite run_ops_app, SetData_run_ops.
  set (s2 := set_data_ptr _ _).
  cbn [run_ops run_op]. cbv [mbind alloc_bind].
  rewrite (loop_run s2 r1) by done. cbv zeta.
  change (copy_task_pointer s2) with (copy_task_pointer s1).
  rewrite Hctp1, (proj2 (Z.eqb_neq _ _) Hcm).
  cbv [mret alloc_ret]. eexists. split; [reflexivity|].
  subst s2. state_simpl. rewrite Hcm1, Hdp1, Hmem1.
  split; [done|]. split; [done|]. split; [|split; [|done]].
  - intros i Hi. unfold memcpy.
    rewrite (proj2 (Z.leb_le _ _)), (proj2 (Z.ltb_lt _ _)) by lia.
    cbn [andb]. rewrite stored_outside by lia. f_equal. lia.
  - intros i b Hi.
    pose proof (lookup_lt_Some _ _ _ Hi) as Hlt. unfold memcpy.
    rewrite (proj2 (Z.ltb_ge _ _)) by lia. rewrite andb_false_r.
    by apply stored_lookup.
Qed.

(** *** Well-kept nodes *)

#[local] Instance keeps_preorder (P : state -> Prop) : PreOrder (keeps P).
Proof. split; unfold keeps; [by intros s|intros s1 s2 s3; tauto]. Qed.

Lemma keeps_same_frame (P : state -> Prop) (s s' : state) :
  (P s -> P s') -> keeps P s s'.
Proof. done. Qed.

Lemma count_drop_tasks_ok : preserves (keeps tasks_ok) count_drop.
Proof.
  intros s a s' Hrun (Hok & Hmsg).
  pose proof Hok as (_ & _ & _ & _ & r & Hm).
  rewrite (count_drop_run _ r) in Hrun by done.
  inversion Hrun; subst s'. split; [|done]. by apply stacks_ok_counted.
Qed.

Lemma stacks_ok_stats (r r' : memory_stats_t) (s : state) :
  stacks_ok s -> stats s !! mem_stat s = Some r ->
  msg_drop_number r' = msg_drop_number r ->
  stacks_ok (set_stats (<[mem_stat s := r']> (stats s)) s).
Proof.
  intros (H1 & H2 & H3 & H4 & r0 & Hp & Hr0 & Hd) Hr Hdrop.
  repeat split; try done; try apply H2; try apply H4.
  exists r'. repeat split; state_simpl; [done|by rewrite lookup_insert_eq|].
  rewrite Hdrop. congruence.
Qed.

Lemma raise_msg_stack_ratio_tasks_ok stat :
  preserves (keeps tasks_ok) (raise_msg_stack_ratio stat).
Proof.
  intros s a s' Hrun (Hok & Hmsg).
  pose proof Hok as (_ & _ & _ & _ & r & Hp & Hr & Hd).
  rewrite (raise_msg_stack_ratio_run _ _ r) in Hrun by done.
  inversion Hrun; subst s'. split; [|done]. by eapply stacks_ok_stats.
Qed.

Lemma raise_luos_stack_ratio_tasks_ok stat :
  preserves (keeps tasks_ok) (raise_luos_stack_ratio stat).
Proof.
  intros s a s' Hrun (Hok & Hmsg).
  pose proof Hok as (_ & _ & _ & _ & r & Hp & Hr & Hd).
  rewrite (raise_luos_stack_ratio_run _ _ r) in Hrun by done.
  inversion Hrun; subst s'. split; [|done]. by eapply stacks_ok_stats.
Qed.

Lemma ClearMsgSpace_tasks_ok from to :
  MAX_MSG_NB < 2 ^ 16 ->
  preserves (keeps tasks_ok) (MsgAlloc_ClearMsgSpace from to).
Proof.
  intros H16 s a s' Hrun (Hok & Hmsg).
  destruct (ClearMsgSpace_returns from to s) as (ret & s1 & E & Hok1 & Hmsg1);
    [done..|].
  rewrite E in Hrun. inversion Hrun; subst. split; [done|auto].
Qed.

Lemma ClearMsgTask_tasks_ok :
  MAX_MSG_NB < 2 ^ 16 ->
  preserves (keeps tasks_ok) MsgAlloc_ClearMsgTask.
Proof.
  intros H16 s a s' Hrun (Hok & Hmsg).
  pose proof Hok as (Hml & Hmi & Hll & Hli & Hm).
  pose proof (ClearMsgTask_stack_id _ _ _ Hrun) as (Hpos & _).
  rewrite ClearMsgTask_pop in Hrun by lia. inversion Hrun; subst s'.
  change (drop 1 (live (msg_tasks s) (msg_tasks_stack_id s)) ++ [0]
          ++ drop (Z.to_nat (msg_tasks_stack_id s)) (msg_tasks s))
    with (popped 1 0 (msg_tasks s) (msg_tasks_stack_id s)).
  destruct Hmsg as (Hlive & Htail).
  destruct (msg_tasks_ok_popped 1 (msg_tasks s) (msg_tasks_stack_id s))
    as (Hlive' & Htail'); [lia|done..|].
  split; [|done]. unfold stacks_ok. state_simpl.
  change (drop 1 (live (msg_tasks s) (msg_tasks_stack_id s))
          ++ 0 :: drop (Z.to_nat (msg_tasks_stack_id s)) (msg_tasks s))
    with (popped 1 0 (msg_tasks s) (msg_tasks_stack_id s)).
  rewrite length_popped by lia.
  split; [done|]. split; [lia|]. split; [done|]. split; [done|exact Hm].
Qed.

Lemma ClearLuosTask_tasks_ok i :
  MAX_MSG_NB < 2 ^ 16 ->
  preserves (keeps tasks_ok) (MsgAlloc_ClearLuosTask i).
Proof.
  intros H16 s a s'. unfold MsgAlloc_ClearLuosTask. exec.
  intros Hrun ((Hml & Hmi & Hll & Hli & Hm) & Hmsg).
  split_outcome; bools; (split; [|done]);
    repeat split; state_simpl; rewrite ?length_slide_left;
    rewrite ?u16_small by lia; try done; lia.
Qed.

(** A store to a field the stacks of the reception side do not read. *)
Ltac tasks_leaf :=
  solve [ apply count_drop_tasks_ok
        | apply raise_msg_stack_ratio_tasks_ok
        | apply raise_luos_stack_ratio_tasks_ok
        | apply ClearMsgSpace_tasks_ok; assumption
        | apply ClearMsgTask_tasks_ok; assumption
        | apply ClearLuosTask_tasks_ok; assumption
        | apply keeps_same_frame; let H := fresh in intros H; exact H
        | auto ].

Ltac tasks := repeat preserves_step; try tasks_leaf.

Lemma PullMsg_search_tasks_ok count i target_module :
  MAX_MSG_NB < 2 ^ 16 ->
  preserves (keeps tasks_ok) (PullMsg_search count i target_module).
Proof.
  intros H16. revert i.
  induction count as [|k IH]; intros i; cbn [PullMsg_search]; tasks.
Qed.

Lemma ClearMsgFromLuosTasks_loop_tasks_ok fuel id msg :
  MAX_MSG_NB < 2 ^ 16 ->
  preserves (keeps tasks_ok) (ClearMsgFromLuosTasks_loop fuel id msg).
Proof.
  intros H16. revert id.
  induction fuel as [|k IH]; intros id; cbn [ClearMsgFromLuosTasks_loop];
    tasks.
Qed.

Lemma PullMsgFromTxTask_tasks_ok :
  preserves (keeps tasks_ok) MsgAlloc_PullMsgFromTxTask.
Proof. unfold MsgAlloc_PullMsgFromTxTask. tasks. Qed.

Lemma SetTxTask_tasks_ok data size :
  MAX_MSG_NB < 2 ^ 16 ->
  preserves (keeps tasks_ok) (MsgAlloc_SetTxTask data size).
Proof.
  intros H16. unfold MsgAlloc_SetTxTask. tasks.
  apply PullMsgFromTxTask_tasks_ok.
Qed.
Lemma cursor_kept_in_buffer (s : state) :
  sane_target -> cursor_kept s -> in_buffer (current_msg s) = true.
Proof.
  unfold sane_target, cursor_kept, cursor_ordered, in_buffer.
  intros Ht Hk. unsigned.
  apply andb_true_intro. split; [apply Z.leb_le|apply Z.ltb_lt]; lia.
Qed.

Lemma buffer_start_in_buffer : sane_target -> in_buffer msg_buffer = true.
Proof.
  unfold sane_target, in_buffer. intros Ht. unsigned.
  apply andb_true_intro. split; [apply Z.leb_le|apply Z.ltb_lt]; lia.
Qed.

Lemma Init_tasks_ok (memory_stats : Z) (s s' : state) :
  0 <= MAX_MSG_NB ->
  (memory_stats = NULL /\ (exists r, mem_stat_is r s)
   \/ memory_stats <> NULL
      /\ exists r, stats s !! memory_stats = Some r
                   /\ msg_drop_number r <= 255) ->
  MsgAlloc_Init memory_stats s = Done tt s' -> tasks_ok s'.
Proof.
  intros HMAX Hstat. unfold MsgAlloc_Init. exec. intros Hrun.
  assert (forall (A : Type) (x : A), length (replicate (Z.to_nat MAX_MSG_NB) x)
            = Z.to_nat MAX_MSG_NB) as Hrep by (intros; apply length_replicate).
  destruct Hstat as [(-> & r & Hm)|(Hne & r & Hr & Hd)].
  - change (NULL =? NULL) with true in Hrun. cbv iota in Hrun.
    inversion Hrun; subst s'. unfold tasks_ok, stacks_ok, msg_tasks_ok.
    state_simpl. rewrite !Hrep.
    split; [repeat split; try lia; by exists r|].
    split; [by rewrite live_nil|]. cbn [Z.to_nat drop].
    by apply Forall_replicate.
  - rewrite (proj2 (Z.eqb_neq _ _) Hne) in Hrun.
    inversion Hrun; subst s'. unfold tasks_ok, stacks_ok, msg_tasks_ok.
    state_simpl. rewrite !Hrep.
    split; [repeat split; try lia; by exists r|].
    split; [by rewrite live_nil|]. cbn [Z.to_nat drop].
    by apply Forall_replicate.
Qed.

Lemma EndMsg_tasks_ok (s s' : state) :
  0 < MAX_MSG_NB < 2 ^ 16 ->
  tasks_ok s -> in_buffer (current_msg s) = true ->
  MsgAlloc_EndMsg s = Done tt s' -> tasks_ok s'.
Proof.
  intros H16 (Hok & Hmsg) Hin Hrun.
  destruct (EndMsg_queue s) as (s1 & j & k & E & Hok1 & Hmsg1 & _);
    [done..|].
  rewrite E in Hrun. inversion Hrun; subst. split; [done|auto].
Qed.

Lemma SetMessage_tasks_ok (msg : Z) (s s' : state) :
  sane_target -> 0 < MAX_MSG_NB < 2 ^ 16 ->
  cursor_kept s -> tasks_ok s ->
  MsgAlloc_SetMessage msg s = Done tt s' -> tasks_ok s'.
Proof.
  intros Ht H16 Hk Hok.
  pose proof (cursor_kept_in_buffer s Ht Hk) as Hin.
  pose proof (buffer_start_in_buffer Ht) as Hin0.
  unfold MsgAlloc_SetMessage. cbv [mbind alloc_bind get].
  set (ds := if _ <? _ then u16 _ else u16 _). clearbody ds.
  exec. intros Hrun. split_outcome.
  all: match goal with
       | E : MsgAlloc_ClearMsgSpace _ _ ?sa = Done _ ?sb,
         E' : MsgAlloc_EndMsg _ = Done ?u ?sc |- _ =>
           assert (tasks_ok sb) as Hokb
             by (eapply (ClearMsgSpace_tasks_ok _ _ ltac:(lia) _ _ _ E);
                 exact Hok);
           apply ClearMsgSpace_reception, same_reception in E;
           destruct E as (_ & Hcmb & _ & _); state_simpl in Hcmb;
           destruct u;
           apply EndMsg_tasks_ok in E'; [exact E'|done|exact Hokb|];
           state_simpl; by rewrite Hcmb
       end.
Qed.

Lemma LuosTaskAlloc_tasks_ok (c m : Z) (s s' : state) :
  0 < MAX_MSG_NB < 2 ^ 16 ->
  tasks_ok s ->
  MsgAlloc_LuosTaskAlloc c m s = Done tt s' -> tasks_ok s'.
Proof.
  intros H16 (Hok & Hmsg) Hrun.
  pose proof Hok as (Hml & Hmi & Hll & Hli & r & Hp & Hr & Hd).
  destruct (LuosTaskAlloc_run c m s r) as (ratio & E); try done.
  rewrite E in Hrun. inversion Hrun; subst s'. clear Hrun E.
  split; [|by destruct (_ =? _)].
  assert (exists r', mem_stat_is r'
            (set_stats
               (<[mem_stat s :=
                    mk_memory_stats (msg_stack_ratio r) ratio
                      (msg_drop_number r)]> (stats s)) s)) as Hm'.
  { eexists. repeat split; state_simpl; [done|by rewrite lookup_insert_eq|].
    done. }
  destruct (Z.eqb_spec (luos_tasks_stack_id s) MAX_MSG_NB) as [Hfull|Hfree];
    unfold stacks_ok; state_simpl.
  - rewrite length_app, length_drop. cbn [length].
    split; [done|]. split; [done|]. split; [lia|]. split; [done|exact Hm'].
  - rewrite length_wr.
    split; [done|]. split; [done|]. split; [done|]. split; [lia|exact Hm'].
Qed.

Lemma run_op_tasks_ok (o : op) (s s' : state) :
  sane_target -> 0 < MAX_MSG_NB < 2 ^ 16 ->
  cursor_kept s -> tasks_ok s -> node_contract o s ->
  run_op o s = Done tt s' -> tasks_ok s'.
Proof.
  intros Ht H16 Hk Hok (_ & Hc) Hrun.
  assert (MAX_MSG_NB < 2 ^ 16) as H16' by lia.
  destruct o; cbn [run_op] in Hrun;
    try (revert s s' Hrun Hk Hok Hc;
         match goal with
         | |- forall s s', ?m s = Done tt s' -> _ =>
             enough (preserves (keeps tasks_ok) m) as Hp
               by (intros s s' Hrun _ Hok _; exact (Hp s tt s' Hrun Hok))
         end;
         unfold MsgAlloc_loop, MsgAlloc_InvalidMsg,
           MsgAlloc_ValidHeader, MsgAlloc_SetData,
           MsgAlloc_GetCurrentMsg, MsgAlloc_IsEmpty,
           MsgAlloc_PullMsgToInterpret,
           MsgAlloc_UsedMsgEnd, MsgAlloc_PullMsg,
           MsgAlloc_PullMsgFromLuosTask, MsgAlloc_LookAtLuosTask,
           MsgAlloc_GetLuosTaskCmd, MsgAlloc_GetLuosTaskSourceId,
           MsgAlloc_GetLuosTaskSize, MsgAlloc_LuosTasksNbr,
           MsgAlloc_ClearMsgFromLuosTasks, MsgAlloc_GetTxTask;
         tasks;
         first [ apply PullMsg_search_tasks_ok
               | apply ClearMsgFromLuosTasks_loop_tasks_ok
               | apply SetTxTask_tasks_ok
               | apply PullMsgFromTxTask_tasks_ok ]; assumption).
  - (* Init *)
    eapply Init_tasks_ok; [lia| |exact Hrun].
    destruct (decide (memory_stats = NULL)) as [->|Hne].
    + left. split; [done|]. apply Hok.
    + right. split; [done|]. destruct Hc as [Hc|Hc]; [done|exact Hc].
  - (* EndMsg *)
    eapply EndMsg_tasks_ok; try exact Hrun; try done.
    by apply cursor_kept_in_buffer.
  - (* SetMessage *)
    by eapply SetMessage_tasks_ok.
  - (* LuosTaskAlloc *)
    by eapply LuosTaskAlloc_tasks_ok.
Qed.
Lemma same_tx_view s s' :
  same_on tx_view s s' ->
  tx_tasks s' = tx_tasks s /\ tx_tasks_stack_id s' = tx_tasks_stack_id s.
Proof. unfold same_on, tx_view. intros H. by inversion H. Qed.

Lemma count_drop_tx_view : preserves (same_on tx_view) count_drop.
Proof.
  unfold count_drop, mem_stat_load, mem_stat_store.
  intros s a s'. exec. intros H. split_outcome; reflexivity.
Qed.

Lemma raise_msg_stack_ratio_tx_view stat :
  preserves (same_on tx_view) (raise_msg_stack_ratio stat).
Proof.
  unfold raise_msg_stack_ratio, mem_stat_load, mem_stat_store.
  intros s a s'. exec. intros H. split_outcome; reflexivity.
Qed.

Lemma raise_luos_stack_ratio_tx_view stat :
  preserves (same_on tx_view) (raise_luos_stack_ratio stat).
Proof.
  unfold raise_luos_stack_ratio, mem_stat_load, mem_stat_store.
  intros s a s'. exec. intros H. split_outcome; reflexivity.
Qed.

Lemma ClearMsgSpace_tx_view from to :
  preserves (same_on tx_view) (MsgAlloc_ClearMsgSpace from to).
Proof.
  apply ClearMsgSpace_preserves; try tc_solve; try (intros; reflexivity).
  apply count_drop_tx_view.
Qed.

Lemma ClearMsgTask_tx_view : preserves (same_on tx_view) MsgAlloc_ClearMsgTask.
Proof.
  apply ClearMsgTask_preserves; try tc_solve; try (intros; reflexivity).
Qed.

Lemma ClearLuosTask_tx_view i :
  preserves (same_on tx_view) (MsgAlloc_ClearLuosTask i).
Proof.
  apply ClearLuosTask_preserves; try tc_solve; try (intros; reflexivity).
Qed.

Ltac tx_leaf :=
  solve [ apply count_drop_tx_view
        | apply raise_msg_stack_ratio_tx_view
        | apply raise_luos_stack_ratio_tx_view
        | apply ClearMsgSpace_tx_view
        | apply ClearMsgTask_tx_view
        | apply ClearLuosTask_tx_view
        | unfold same_on; reflexivity
        | auto ].

Ltac tx_frame := repeat preserves_step; try tx_leaf.

Lemma EndMsg_tx_view : preserves (same_on tx_view) MsgAlloc_EndMsg.
Proof. unfold MsgAlloc_EndMsg. tx_frame. Qed.

Lemma PullMsg_search_tx_view count i target_module :
  preserves (same_on tx_view) (PullMsg_search count i target_module).
Proof.
  revert i. induction count as [|k IH]; intros i; cbn [PullMsg_search];
    tx_frame.
Qed.

Lemma ClearMsgFromLuosTasks_loop_tx_view fuel id msg :
  preserves (same_on tx_view) (ClearMsgFromLuosTasks_loop fuel id msg).
Proof.
  revert id. induction fuel as [|k IH]; intros id;
    cbn [ClearMsgFromLuosTasks_loop]; tx_frame.
Qed.

(** The calls that do not stage a frame leave TxTasks alone. *)
Lemma run_op_tx_view (o : op) :
  stages_tx o = false -> preserves (same_on tx_view) (run_op o).
Proof.
  destruct o; try discriminate; intros _; cbn [run_op];
    unfold MsgAlloc_Init, MsgAlloc_loop, MsgAlloc_InvalidMsg,
      MsgAlloc_ValidHeader, MsgAlloc_SetData, MsgAlloc_SetMessage,
      MsgAlloc_GetCurrentMsg, MsgAlloc_IsEmpty, MsgAlloc_PullMsgToInterpret,
      MsgAlloc_UsedMsgEnd, MsgAlloc_LuosTaskAlloc, MsgAlloc_PullMsg,
      MsgAlloc_PullMsgFromLuosTask, MsgAlloc_LookAtLuosTask,
      MsgAlloc_GetLuosTaskCmd, MsgAlloc_GetLuosTaskSourceId,
      MsgAlloc_GetLuosTaskSize, MsgAlloc_LuosTasksNbr,
      MsgAlloc_ClearMsgFromLuosTasks, MsgAlloc_GetTxTask;
    tx_frame;
    first [ apply EndMsg_tx_view | apply PullMsg_search_tx_view
          | apply ClearMsgFromLuosTasks_loop_tx_view ].
Qed.

Lemma PullMsgFromTxTask_tx_tasks_ok (s s' : state) :
  MAX_MSG_NB < 2 ^ 16 -> length (tx_tasks s) = Z.to_nat MAX_MSG_NB ->
  MsgAlloc_PullMsgFromTxTask s = Done tt s' -> tx_tasks_ok s'.
Proof.
  intros H16 Hlen. unfold MsgAlloc_PullMsgFromTxTask. exec.
  intros Hrun. split_outcome. bools. unfold tx_tasks_ok. state_simpl.
  rewrite length_wr, length_slide_left, u16_small by lia. split; [done|lia].
Qed.

Ltac tx_frames :=
  repeat match goal with
  | E : MsgAlloc_ClearMsgSpace _ _ _ = Done _ _ |- _ =>
      apply ClearMsgSpace_tx_view, same_tx_view in E;
      state_simpl in E; destruct E as (? & ?)
  | E : count_drop _ = Done _ _ |- _ =>
      apply count_drop_tx_view, same_tx_view in E;
      state_simpl in E; destruct E as (? & ?)
  end.

Lemma SetTxTask_tx_tasks_ok (data size : Z) (s s' : state) :
  0 < MAX_MSG_NB < 2 ^ 16 -> tx_tasks_ok s ->
  MsgAlloc_SetTxTask data size s = Done tt s' -> tx_tasks_ok s'.
Proof.
  intros H16 (Hlen & Hid). unfold MsgAlloc_SetTxTask. exec. intros Hrun.
  split_outcome;
    try match goal with
    | E : MsgAlloc_PullMsgFromTxTask _ = Done _ _ |- _ =>
        exfalso; apply PullMsgFromTxTask_asserts in E; state_simpl in E
    end;
    tx_frames; bools; unfold tx_tasks_ok; state_simpl in *;
    repeat match goal with
    | H : tx_tasks_stack_id ?x = _ |- _ =>
        is_var x; rewrite H in *; clear H
    | H : tx_tasks ?x = _ |- _ => is_var x; rewrite H in *; clear H
    end;
    rewrite ?length_wr; rewrite u16_small in * by lia;
    first [lia | split; [done|lia]].
Qed.

Lemma run_op_tx_tasks_ok (o : op) (s s' : state) :
  0 < MAX_MSG_NB < 2 ^ 16 -> tx_tasks_ok s ->
  run_op o s = Done tt s' -> tx_tasks_ok s'.
Proof.
  intros H16 Hok Hrun.
  destruct (stages_tx o) eqn:Etx.
  - destruct o; try discriminate; cbn [run_op] in Hrun.
    + by eapply SetTxTask_tx_tasks_ok.
    + eapply PullMsgFromTxTask_tx_tasks_ok; try exact Hrun; [lia|apply Hok].
  - apply (run_op_tx_view o Etx), same_tx_view in Hrun as (Ht & Hi).
    unfold tx_tasks_ok. by rewrite Ht, Hi.
Qed.

(** X13: a node in order stays in order.  On a target whose arithmetic
    does not wrap, every call that is made with arguments of its C types
    under the callers' contract, and that returns, takes a well-kept
    state to a well-kept state: the cursor ordered inside the buffer, the
    three stack counters within their arrays, the entries of MsgTasks
    inside the buffer, and [mem_stat] on a record. *)
Theorem well_kept_is_invariant (o : op) (s s' : state) :
  sane_target -> 0 < MAX_MSG_NB < 2 ^ 16 ->
  well_kept s -> op_typed o -> node_contract o s ->
  run_op o s = Done tt s' -> well_kept s'.
Proof.
  intros Ht H16 (Hk & Hok & Htx) Hty Hc Hrun. split; [|split].
  - eapply run_op_cursor_kept; try exact Hrun; try done. apply Hc.
  - by eapply run_op_tasks_ok.
  - by eapply run_op_tx_tasks_ok.
Qed.
(** X14: [MsgAlloc_Init] puts a node in order.  On a target whose
    arithmetic does not wrap, given the address of a statistics record
    whose drop counter fits 8 bits, and with TxTasks within its array (the
    call leaves it alone), it returns in a well-kept state with MsgTasks
    and LuosTasks empty, on which [MsgAlloc_IsEmpty] returns SUCCEED. *)
Theorem Init_puts_in_order (memory_stats : Z) (s : state)
    (r : memory_stats_t) :
  sane_target -> 0 <= MAX_MSG_NB ->
  tx_tasks_ok s ->
  memory_stats <> NULL -> stats s !! memory_stats = Some r ->
  msg_drop_number r <= 255 ->
  exists s',
    MsgAlloc_Init memory_stats s = Done tt s'
    /\ well_kept s'
    /\ msg_queue s' = [] /\ luos_queue s' = []
    /\ mem_stat s' = memory_stats
    /\ MsgAlloc_IsEmpty s' = Done SUCCEED s'.
Proof.
  intros Ht HMAX Htx Hne Hr Hd.
  destruct (MsgAlloc_Init memory_stats s) as [[] s'| |] eqn:Hrun.
  2, 3: revert Hrun; unfold MsgAlloc_Init; exec;
        by destruct (memory_stats =? NULL).
  exists s'. split; [done|].
  assert (well_kept s') as Hwk.
  { split; [|split].
    - by eapply Init_cursor_kept.
    - eapply Init_tasks_ok; [done| |exact Hrun]. right. split; [done|].
      by exists r.
    - apply (run_op_tx_view (Init memory_stats) eq_refl), same_tx_view
        in Hrun as (Ht' & Hi').
      unfold tx_tasks_ok. by rewrite Ht', Hi'. }
  split; [done|]. revert Hrun. unfold MsgAlloc_Init. exec.
  rewrite (proj2 (Z.eqb_neq _ _) Hne). intros Hrun.
  inversion Hrun; subst s'. unfold msg_queue, luos_queue, MsgAlloc_IsEmpty.
  exec. rewrite !live_nil by lia. by rewrite Z.eqb_refl.
Qed.

(** *** Calls that return *)

Lemma ClearLuosTask_returns (i : Z) (s : state) :
  luos_tasks_stack_id s <= MAX_MSG_NB ->
  exists s', MsgAlloc_ClearLuosTask i s = Done tt s'
             /\ same_on beside_luos_tasks s s'.
Proof.
  intros Hid. unfold MsgAlloc_ClearLuosTask. exec.
  rewrite (proj2 (Z.leb_le (luos_tasks_stack_id s) _) Hid), orb_true_r.
  destruct (_ =? 0); eexists; split; reflexivity.
Qed.

Lemma PullMsg_search_returns (count : nat) (target_module : Z) (s : state) :
  luos_tasks_stack_id s <= MAX_MSG_NB ->
  forall i, exists out s', PullMsg_search count i target_module s = Done out s'.
Proof.
  intros Hid. induction count as [|k IH]; intros i.
  - by eexists _, _.
  - cbn [PullMsg_search]. exec. destruct (_ =? target_module); [|apply IH].
    destruct (ClearLuosTask_returns i
                (set_used_msg
                   (msg_pt (rd luos_tasks_past (luos_tasks s) i)) s))
      as (s' & -> & _); [done|].
    by eexists _, _.
Qed.

Lemma loop_returns (s : state) :
  tasks_ok s -> exists s', MsgAlloc_loop s = Done tt s'.
Proof.
  intros ((_ & _ & _ & _ & r & Hp & Hr & _) & _).
  eexists. by apply (loop_run s r).
Qed.

Lemma InvalidMsg_returns (s : state) :
  MAX_MSG_NB < 2 ^ 16 -> tasks_ok s ->
  exists s', MsgAlloc_InvalidMsg s = Done tt s'.
Proof.
  intros H16 (Hok & _). unfold MsgAlloc_InvalidMsg.
  cbv [mbind alloc_bind get].
  destruct (ClearMsgSpace_returns (current_msg s) (data_ptr s) s)
    as (ret & s1 & -> & _); [done..|].
  exec. destruct (_ =? msg_buffer); by eexists.
Qed.

Lemma ValidHeader_returns (valid data_size : Z) (s : state) :
  tasks_ok s -> exists s', MsgAlloc_ValidHeader valid data_size s = Done tt s'.
Proof.
  intros ((_ & _ & _ & _ & r & Hm) & _).
  unfold MsgAlloc_ValidHeader. destruct (valid =? 1); [|by eexists].
  exec. destruct (MsgAlloc_DoWeHaveSpace _); exec;
    (destruct (_ && _); [|by eexists]); exec;
    rewrite (count_drop_run _ r) by exact Hm; by eexists.
Qed.

Lemma SetMessage_returns (msg : Z) (s : state) :
  0 < MAX_MSG_NB < 2 ^ 16 -> tasks_ok s ->
  exists s', MsgAlloc_SetMessage msg s = Done tt s'.
Proof.
  intros H16 Hok. unfold MsgAlloc_SetMessage. cbv [mbind alloc_bind get].
  set (ds := if _ <? _ then u16 _ else u16 _). clearbody ds.
  assert (forall s0, tasks_ok s0 ->
            exists s', (MsgAlloc_ClearMsgSpace (current_msg s0)
                          (current_msg s0 + ds);;
                        modify (set_data_ptr (current_msg s0 + (ds + 2)));;
                        MsgAlloc_EndMsg;;
                        s1 ← get;
                        modify (set_memory
                                  (memcpy (memory s1) (current_msg s0) msg ds)))
                         s0 = Done tt s') as Hrest.
  { intros s0 (Hok0 & Hmsg0). cbv [mbind alloc_bind get].
    destruct (ClearMsgSpace_returns (current_msg s0) (current_msg s0 + ds) s0)
      as (ret & s1 & -> & Hok1 & Hmsg1); [lia|done|].
    cbv [modify].
    destruct (EndMsg_returns
                (set_data_ptr (current_msg s0 + (ds + 2)) s1))
      as (s2 & ->); [done| |by auto|by eexists].
    destruct Hok1 as (Hml & Hmi & Hll & Hli & Hm).
    repeat split; try done; try apply Hmi; apply Hli. }
  destruct (MsgAlloc_DoWeHaveSpace _); cbv [mret alloc_ret modify].
  - apply (Hrest s Hok).
  - apply (Hrest (set_current_msg msg_buffer s)).
    destruct Hok as ((Hml & Hmi & Hll & Hli & Hm) & Hmsg). split; [|done].
    repeat split; try done; try apply Hmi; apply Hli.
Qed.

Lemma PullMsgToInterpret_returns (s : state) :
  MAX_MSG_NB < 2 ^ 16 -> tasks_ok s ->
  exists out s', MsgAlloc_PullMsgToInterpret s = Done out s'.
Proof.
  intros H16 ((Hml & Hmi & _) & (Hlive & _)).
  unfold MsgAlloc_PullMsgToInterpret. exec.
  destruct (Z.ltb_spec 0 (msg_tasks_stack_id s)) as [Hpos|]; [|by eexists _, _].
  rewrite (live_cons msg_tasks_past) in Hlive by lia.
  inversion Hlive as [|p l Hin _]; subst. unfold in_buffer in Hin.
  rewrite Hin. rewrite ClearMsgTask_pop by lia. by eexists _, _.
Qed.

(** X15: the reception side and the LuosTasks side never halt a node in
    order.  Whenever the stacks of the reception side are well kept and
    TxTasks is within its array, every call of the interface other than
    [MsgAlloc_SetTxTask] and [MsgAlloc_PullMsgFromTxTask] returns, with
    whatever arguments: none of its assertions fails and none of its
    accesses through [mem_stat] goes wrong. *)
Theorem calls_return_on_kept_stacks (o : op) (s : state) :
  0 < MAX_MSG_NB < 2 ^ 16 ->
  tasks_ok s -> tx_tasks_ok s ->
  stages_tx o = false ->
  exists s', run_op o s = Done tt s'.
Proof.
  intros H16 Hok Htx Ho.
  assert (MAX_MSG_NB < 2 ^ 16) as H16' by lia.
  pose proof Hok as ((Hml & Hmi & Hll & Hli & r & Hp & Hr & Hd) & Hmsg).
  destruct o; try discriminate; cbn [run_op].
  - unfold MsgAlloc_Init. exec. destruct (memory_stats =? NULL);
    by eexists.
  - by apply loop_returns.
  - by apply InvalidMsg_returns.
  - by apply ValidHeader_returns.
  - apply EndMsg_returns; [done|apply Hok..].
  - by eexists.
  - by apply SetMessage_returns.
  - by eexists.
  - unfold MsgAlloc_IsEmpty. exec. destruct (_ =? _); by eexists.
  - cbv [mbind alloc_bind].
    destruct (PullMsgToInterpret_returns s) as (out & s' & ->); [done..|].
    by eexists.
  - by eexists.
  - destruct (LuosTaskAlloc_run container msg s r) as (ratio & ->);
      try done. by eexists.
  - unfold MsgAlloc_PullMsg. cbv [mbind alloc_bind get].
    destruct (PullMsg_search_returns (Z.to_nat (luos_tasks_stack_id s))
                target_module s ltac:(lia) 0) as (out & s' & ->).
    by eexists.
  - unfold MsgAlloc_PullMsgFromLuosTask. exec.
    destruct (_ <? _); [|by eexists].
    destruct (ClearLuosTask_returns luos_task_id
                (set_used_msg
                   (msg_pt (rd luos_tasks_past (luos_tasks s) luos_task_id))
                   s)) as (s' & -> & _); [cbn; lia|].
    by eexists.
  - unfold MsgAlloc_LookAtLuosTask. exec. destruct (_ <? _); by eexists.
  - unfold MsgAlloc_GetLuosTaskCmd. exec. destruct (_ <? _); by eexists.
  - unfold MsgAlloc_GetLuosTaskSourceId. exec. destruct (_ <? _); by eexists.
  - unfold MsgAlloc_GetLuosTaskSize. exec. destruct (_ <? _); by eexists.
  - by eexists.
  - unfold MsgAlloc_ClearMsgFromLuosTasks. cbv [mbind alloc_bind get].
    destruct (ClearMsgFromLuosTasks_loop_run msg
                (Z.to_nat (luos_tasks_stack_id s)) 0 s)
      as (s' & -> & _); try done; try lia. by eexists.
  - destruct Htx as (_ & Hti). unfold MsgAlloc_GetTxTask. exec.
    rewrite (proj2 (Z.leb_le 0 _)), (proj2 (Z.ltb_lt _ MAX_MSG_NB)) by lia.
    cbn. destruct (0 <? _); by eexists.
Qed.

(** *** The TxTasks stack *)

Lemma PullMsgFromTxTask_pop (s : state) :
  0 < tx_tasks_stack_id s < MAX_MSG_NB ->
  (Z.to_nat (tx_tasks_stack_id s) <= length (tx_tasks s))%nat ->
  MAX_MSG_NB < 2 ^ 16 ->
  MsgAlloc_PullMsgFromTxTask s =
  Done tt
    (set_tx_tasks_stack_id (tx_tasks_stack_id s - 1)
       (set_tx_tasks
          (popped 1 (mk_tx_task 0 0) (tx_tasks s) (tx_tasks_stack_id s)) s)).
Proof.
  intros Hi Hlen H16. unfold MsgAlloc_PullMsgFromTxTask. exec.
  rewrite (proj2 (Z.ltb_lt 0 _)), (proj2 (Z.ltb_lt _ MAX_MSG_NB)) by lia. cbn.
  rewrite u16_small by lia.
  pose proof (slide_left_pop tx_tasks_past 0 (Z.to_nat (tx_tasks_stack_id s))
                (tx_tasks s)) as Hs.
  rewrite Nat.sub_0_r in Hs. change (Z.of_nat 0) with 0 in Hs.
  rewrite Hs by lia. clear Hs.
  unfold set_tx_tasks_stack_id, set_tx_tasks, popped, live; cbn. f_equal.
  unfold wr. rewrite take_0, app_nil_l.
  set (l := drop 1 (take _ _)).
  assert (length l = Z.to_nat (tx_tasks_stack_id s - 1)) as Hl.
  { unfold l. rewrite length_drop, length_take. lia. }
  rewrite <- Hl. rewrite insert_app_r_alt by lia.
  by rewrite Nat.sub_diag.
Qed.

Lemma tx_queue_head (s : state) (t : tx_task_t) (rest : list tx_task_t) :
  (Z.to_nat (tx_tasks_stack_id s) <= length (tx_tasks s))%nat ->
  tx_queue s = t :: rest ->
  0 < tx_tasks_stack_id s /\ rd tx_tasks_past (tx_tasks s) 0 = t.
Proof.
  intros Hlen Hq.
  assert (0 < tx_tasks_stack_id s) as Hpos.
  { destruct (Z.ltb_spec 0 (tx_tasks_stack_id s)); [done|].
    unfold tx_queue in Hq. by rewrite live_nil in Hq by lia. }
  split; [done|].
  unfold tx_queue in Hq.
  rewrite (live_cons tx_tasks_past) in Hq by lia. by inversion Hq.
Qed.

(** X16: TxTasks hands out the staged frames oldest first.  On a stack
    that holds [t :: rest], [MsgAlloc_GetTxTask] returns SUCCEED with the
    address and the size of [t] and changes nothing, and
    [MsgAlloc_PullMsgFromTxTask] takes [t] off, leaves [rest] and changes
    nothing but TxTasks.  On an empty stack
    [MsgAlloc_PullMsgFromTxTask] does not return: its assertion halts
    the node. *)
Theorem TxTasks_oldest_first (s : state) :
  0 < MAX_MSG_NB < 2 ^ 16 -> tx_tasks_ok s ->
  (forall t rest, tx_queue s = t :: rest ->
     MsgAlloc_GetTxTask s = Done (SUCCEED, Some (data_pt t, size t)) s
     /\ exists s',
          MsgAlloc_PullMsgFromTxTask s = Done tt s'
          /\ tx_queue s' = rest
          /\ tx_tasks_stack_id s' = tx_tasks_stack_id s - 1
          /\ same_on beside_tx_tasks s s')
  /\ (tx_queue s = [] -> MsgAlloc_PullMsgFromTxTask s = AssertFailed).
Proof.
  intros H16 (Hlen & Hid). split.
  - intros t rest Hq.
    destruct (tx_queue_head s t rest) as (Hpos & Hrd); [lia|done|].
    split.
    + unfold MsgAlloc_GetTxTask. exec.
      rewrite (proj2 (Z.leb_le 0 _)), (proj2 (Z.ltb_lt _ MAX_MSG_NB)),
        (proj2 (Z.ltb_lt 0 _)), Hrd by lia.
      done.
    + rewrite PullMsgFromTxTask_pop by lia.
      eexists. split; [reflexivity|]. unfold tx_queue in *. state_simpl.
      split; [|done].
      replace (tx_tasks_stack_id s - 1)
        with (tx_tasks_stack_id s - Z.of_nat 1) by lia.
      rewrite live_popped by lia. by rewrite Hq.
  - intros Hq.
    assert (tx_tasks_stack_id s = 0) as Hz.
    { destruct (Z.eq_dec (tx_tasks_stack_id s) 0) as [|Hne]; [done|].
      exfalso. unfold tx_queue in Hq.
      rewrite (live_cons tx_tasks_past) in Hq by lia. done. }
    unfold MsgAlloc_PullMsgFromTxTask. exec. by rewrite Hz.
Qed.
(** What [MsgAlloc_SetTxTask] leaves when it returns: the frame queued
    last on TxTasks, at the place the call chose for it, and the memory
    after its three copies. *)
Lemma SetTxTask_result (data size : Z) (s s' : state) :
  0 < MAX_MSG_NB < 2 ^ 16 -> tx_tasks_ok s ->
  MsgAlloc_SetTxTask data size s = Done tt s' ->
  let tx :=
    if u32 (msg_buffer + (MSG_BUFFER_SIZE - 1))
       <? u32 (u32 (u32 (current_msg s) + size))
    then msg_buffer else current_msg s in
  let progression_size :=
    u16 (u32 (u32 (data_ptr s) - u32 (current_msg s))) in
  tx_queue s' = tx_queue s ++ [mk_tx_task tx size]
  /\ data_ptr s' = u32 (u32 (current_msg s') + progression_size)
  /\ data_end_estimation s'
     = u32 (u32 (current_msg s')
            + u16 (u32 (u32 (data_end_estimation s) - u32 (current_msg s))))
  /\ (current_msg s' = u32 (u32 tx + size)
      \/ current_msg s' = msg_buffer /\ tx = current_msg s)
  /\ memory s'
     = memcpy
         (memcpy
            (memcpy (memory s) (current_msg s') (current_msg s)
               progression_size)
            tx data 3)
         (tx + 3) (data + 3) (u32 (size - 3)).
Proof.
  intros H16 (Hlen & Hid). unfold MsgAlloc_SetTxTask, MsgAlloc_DoWeHaveSpace.
  exec. intros Hrun.
  split_outcome;
    try match goal with
    | E : MsgAlloc_PullMsgFromTxTask _ = Done _ _ |- _ =>
        exfalso; apply PullMsgFromTxTask_asserts in E; state_simpl in E
    end;
    repeat match goal with
    | E : MsgAlloc_ClearMsgSpace _ _ _ = Done _ _ |- _ =>
        let E' := fresh E in
        pose proof (ClearMsgSpace_tx_view _ _ _ _ _ E) as E';
        apply same_tx_view in E'; state_simpl in E';
        destruct E' as (? & ?);
        apply ClearMsgSpace_reception, same_reception in E;
        state_simpl in E; destruct E as (? & ? & ? & ?)
    end;
    bools; unfold tx_queue; state_simpl in *;
    repeat match goal with
    | H : tx_tasks_stack_id ?x = _ |- _ =>
        is_var x; rewrite H in *; clear H
    | H : tx_tasks ?x = _ |- _ => is_var x; rewrite H in *; clear H
    end;
    chain;
    rewrite ?u16_small in * by lia;
    try lia;
    (split; [apply live_wr; lia|]);
    (split; [reflexivity|]); (split; [reflexivity|]);
    (split; [|reflexivity]); auto.
Qed.
Lemma SetTxTask_returns (data size : Z) (s : state) :
  sane_target -> 0 < MAX_MSG_NB < 2 ^ 16 ->
  cursor_kept s -> tasks_ok s -> tx_tasks_ok s ->
  tx_tasks_stack_id s + 1 < MAX_MSG_NB ->
  0 < u32 data -> 0 < size < 2 ^ 16 ->
  size + (data_end_estimation s - current_msg s) <= MSG_BUFFER_SIZE ->
  exists s', MsgAlloc_SetTxTask data size s = Done tt s'.
Proof.
  intros Ht H16 Hk Hok (Hlen & Hid) Hfree Hdata Hsize Hfit.
  assert (MAX_MSG_NB < 2 ^ 16) as H16' by lia.
  assert ((0 <=? tx_tasks_stack_id s) && (tx_tasks_stack_id s <? MAX_MSG_NB)
          && (0 <? u32 data)
          && (u32 (current_msg s) <? u32 (msg_buffer + MSG_BUFFER_SIZE))
          && (u32 msg_buffer <=? u32 (current_msg s)) = true) as Hassert.
  { unfold cursor_kept, cursor_ordered, sane_target in *. unsigned.
    rewrite (proj2 (Z.leb_le 0 _)), (proj2 (Z.ltb_lt _ MAX_MSG_NB)),
      (proj2 (Z.ltb_lt 0 _)), (proj2 (Z.ltb_lt (current_msg s) _)),
      (proj2 (Z.leb_le msg_buffer _)) by lia.
    done. }
  destruct (MsgAlloc_SetTxTask data size s) as [[] s'| |] eqn:Hrun;
    [by eexists|exfalso..];
    revert Hrun; unfold MsgAlloc_SetTxTask, MsgAlloc_DoWeHaveSpace;
    unfold cursor_kept, cursor_ordered, sane_target in *;
    exec; rewrite Hassert; intros Hrun; split_outcome;
    repeat match goal with
    | E : MsgAlloc_ClearMsgSpace ?a ?b ?st = Done _ ?st' |- _ =>
        lazymatch goal with
        | _ : tasks_ok st' |- _ => fail
        | _ => idtac
        end;
        assert (tasks_ok st')
          by (apply (ClearMsgSpace_tasks_ok a b H16' _ _ _ E);
              match goal with H : tasks_ok _ |- _ => exact H end)
    end;
    try match goal with
    | E : MsgAlloc_ClearMsgSpace ?a ?b ?st = AssertFailed |- _ =>
        destruct (ClearMsgSpace_returns a b st) as (? & ? & E' & _);
          [done|match goal with H : tasks_ok _ |- _ => exact (proj1 H) end|];
        congruence
    | E : MsgAlloc_ClearMsgSpace ?a ?b ?st = Fault |- _ =>
        destruct (ClearMsgSpace_returns a b st) as (? & ? & E' & _);
          [done|match goal with H : tasks_ok _ |- _ => exact (proj1 H) end|];
        congruence
    end;
    repeat match goal with
    | E : MsgAlloc_ClearMsgSpace _ _ _ = Done _ _ |- _ =>
        let E' := fresh E in
        pose proof (ClearMsgSpace_tx_view _ _ _ _ _ E) as E';
        apply same_tx_view in E'; state_simpl in E';
        destruct E' as (? & ?);
        apply ClearMsgSpace_reception, same_reception in E;
        state_simpl in E; destruct E as (? & ? & ? & ?)
    end;
    bools; state_simpl in *;
    repeat match goal with
    | H : tx_tasks_stack_id ?x = _ |- _ =>
        is_var x; rewrite H in *; clear H
    | H : tx_tasks ?x = _ |- _ => is_var x; rewrite H in *; clear H
    end;
    chain; unsigned; try lia.
Qed.
(** X17: [MsgAlloc_SetTxTask] stages a frame for transmission.  On a node
    in order, with at least two free slots in TxTasks, for a frame of 3
    to 65535 bytes that fits in the buffer beside the frame in reception
    and whose bytes lie outside the buffer, the call returns; the frame
    is the newest entry of TxTasks, at an address [tx] with
    [tx .. tx + size] inside the buffer, where its bytes now lie; and the
    node is still in order. *)
Theorem SetTxTask_stages_frame (data size : Z) (s : state) :
  sane_target -> 0 < MAX_MSG_NB < 2 ^ 16 ->
  well_kept s ->
  tx_tasks_stack_id s + 1 < MAX_MSG_NB ->
  0 < data < 2 ^ 32 -> 3 <= size < 2 ^ 16 ->
  size + (data_end_estimation s - current_msg s) <= MSG_BUFFER_SIZE ->
  data + size <= msg_buffer \/ msg_buffer + MSG_BUFFER_SIZE <= data ->
  exists s' tx,
    MsgAlloc_SetTxTask data size s = Done tt s'
    /\ tx_queue s' = tx_queue s ++ [mk_tx_task tx size]
    /\ msg_buffer <= tx /\ tx + size <= msg_buffer + MSG_BUFFER_SIZE
    /\ (forall i, 0 <= i < size -> memory s' (tx + i) = memory s (data + i))
    /\ well_kept s'.
Proof.
  intros Ht H16 (Hk & Hok & Htx) Hfree Hdata Hsize Hfit Hsrc.
  destruct (SetTxTask_returns data size s Ht H16 Hk Hok Htx Hfree)
    as (s' & Hrun); [rewrite u32_small by lia; lia|lia|lia|].
  assert (cursor_kept s') as Hk'
    by (eapply SetTxTask_cursor_kept; try exact Hrun; try done; lia).
  assert (well_kept s') as Hwk.
  { split; [done|]. split.
    - eapply SetTxTask_tasks_ok; try exact Hrun; [lia|done].
    - by eapply SetTxTask_tx_tasks_ok. }
  destruct (SetTxTask_result data size s s') as (Hq & Hdp & _ & _ & Hmem);
    [done..|].
  unfold cursor_kept, cursor_ordered, sane_target in *.
  set (prog := u16 _) in *.
  assert (0 <= prog < 2 ^ 16) as Hprog by apply u16_range.
  rewrite (u32_small (current_msg s')) in Hdp by lia.
  rewrite (u32_small (_ + prog)) in Hdp by lia.
  rewrite (u32_small (current_msg s)), (u32_small (_ + size)),
    (u32_small (_ + size)), (u32_small (msg_buffer + _)) in Hq by lia.
  rewrite (u32_small (current_msg s)), (u32_small (_ + size)),
    (u32_small (_ + size)), (u32_small (msg_buffer + _)) in Hmem by lia.
  rewrite (u32_small (size - 3)) in Hmem by lia.
  set (tx := if _ <? _ then _ else _) in *.
  exists s', tx. split; [done|]. split; [exact Hq|].
  assert (msg_buffer <= tx /\ tx + size <= msg_buffer + MSG_BUFFER_SIZE)
    as (Hlo & Hhi).
  { subst tx. destruct (Z.ltb_spec (msg_buffer + (MSG_BUFFER_SIZE - 1))
                          (current_msg s + size)); lia. }
  split; [done|]. split; [done|]. split; [|done].
  intros i Hi. rewrite Hmem. unfold memcpy.
  assert (forall x, data <= x < data + size ->
            (current_msg s' <=? x) && (x <? current_msg s' + prog) = false)
    as Hout1.
  { intros x Hx. destruct (Z.leb_spec (current_msg s') x); [|done].
    rewrite (proj2 (Z.ltb_ge _ _)); [done|lia]. }
  assert (forall x, data <= x < data + size ->
            (tx <=? x) && (x <? tx + 3) = false) as Hout2.
  { intros x Hx. destruct (Z.leb_spec tx x); [|done].
    rewrite (proj2 (Z.ltb_ge _ _)); [done|lia]. }
  destruct (Z.lt_ge_cases i 3) as [Hhead|Htail].
  - rewrite (proj2 (Z.leb_gt (tx + 3) _)) by lia. cbn [andb].
    rewrite (proj2 (Z.leb_le tx _)), (proj2 (Z.ltb_lt _ (tx + 3))) by lia.
    cbn [andb]. rewrite Hout1 by lia. f_equal. lia.
  - rewrite (proj2 (Z.leb_le (tx + 3) _)),
      (proj2 (Z.ltb_lt _ (tx + 3 + (size - 3)))) by lia.
    cbn [andb]. rewrite Hout2, Hout1 by lia. f_equal. lia.
Qed.
(** *** Copies between regions that do not overlap *)

Lemma memcpy_copy_up (n : nat) : forall m dst src x,
  apart dst src (Z.of_nat n) ->
  copy_up n m dst src x = memcpy m dst src (Z.of_nat n) x.
Proof.
  unfold apart.
  induction n as [|k IH]; intros m dst src x Hap; cbn [copy_up].
  - unfold memcpy.
    destruct (Z.leb_spec dst x), (Z.ltb_spec x (dst + Z.of_nat 0));
      cbn [andb]; try done; lia.
  - rewrite IH by lia. unfold memcpy, store.
    destruct (Z.leb_spec (dst + 1) x), (Z.ltb_spec x (dst + 1 + Z.of_nat k)),
      (Z.leb_spec dst x), (Z.ltb_spec x (dst + Z.of_nat (S k)));
      cbn [andb]; try lia;
      repeat match goal with
      | |- context [?a =? ?b] => destruct (Z.eqb_spec a b)
      end; try lia; try done; f_equal; lia.
Qed.

Lemma memcpy_copy_down (n : nat) : forall m dst src x,
  apart dst src (Z.of_nat n) ->
  copy_down n m dst src x = memcpy m dst src (Z.of_nat n) x.
Proof.
  unfold apart.
  induction n as [|k IH]; intros m dst src x Hap; cbn [copy_down].
  - unfold memcpy.
    destruct (Z.leb_spec dst x), (Z.ltb_spec x (dst + Z.of_nat 0));
      cbn [andb]; try done; lia.
  - rewrite IH by lia. unfold memcpy, store.
    destruct (Z.leb_spec dst x), (Z.ltb_spec x (dst + Z.of_nat k)),
      (Z.ltb_spec x (dst + Z.of_nat (S k)));
      cbn [andb]; try lia;
      repeat match goal with
      | |- context [?a =? ?b] => destruct (Z.eqb_spec a b)
      end; try lia; try done; f_equal; lia.
Qed.

Lemma SetTxTask_moves (data size : Z) (s s' : state) :
  sane_target -> cursor_kept s ->
  0 <= size < 2 ^ 16 ->
  size + (data_end_estimation s - current_msg s) <= MSG_BUFFER_SIZE ->
  MsgAlloc_SetTxTask data size s = Done tt s' ->
  current_msg s' = moved_msg s size.
Proof.
  intros Ht Hk Hty Hc. unfold MsgAlloc_SetTxTask, MsgAlloc_DoWeHaveSpace.
  unfold moved_msg.
  cursor_start; bools; unsigned;
    repeat match goal with
    | |- context [?a <=? ?b] => destruct (Z.leb_spec a b)
    end; lia.
Qed.

(** X18: [MsgAlloc_SetTxTask] carries the frame in reception along.  On
    a node in order, for a frame to transmit whose bytes lie outside the
    buffer, and when the bytes received so far do not overlap the place
    they are moved to, the call returns with [current_msg] at that place,
    with [data_ptr] and [data_end_estimation] as far behind [current_msg]
    as they were, and with the bytes received so far read from the new
    [current_msg] on as they were read from the old one. *)
Theorem SetTxTask_carries_reception (data size : Z) (s : state) :
  sane_target -> 0 < MAX_MSG_NB < 2 ^ 16 ->
  well_kept s ->
  tx_tasks_stack_id s + 1 < MAX_MSG_NB ->
  0 < data < 2 ^ 32 -> 3 <= size < 2 ^ 16 ->
  size + (data_end_estimation s - current_msg s) <= MSG_BUFFER_SIZE ->
  data + size <= msg_buffer \/ msg_buffer + MSG_BUFFER_SIZE <= data ->
  apart (current_msg s) (moved_msg s size) (data_ptr s - current_msg s) ->
  exists s',
    MsgAlloc_SetTxTask data size s = Done tt s'
    /\ current_msg s' = moved_msg s size
    /\ data_ptr s' - current_msg s' = data_ptr s - current_msg s
    /\ data_end_estimation s' - current_msg s'
       = data_end_estimation s - current_msg s
    /\ (forall i, 0 <= i < data_ptr s - current_msg s ->
          memory s' (current_msg s' + i) = memory s (current_msg s + i)).
Proof.
  intros Ht H16 (Hk & Hok & Htx) Hfree Hdata Hsize Hfit Hsrc Hap.
  destruct (SetTxTask_returns data size s Ht H16 Hk Hok Htx Hfree)
    as (s' & Hrun); [rewrite u32_small by lia; lia|lia|lia|].
  assert (cursor_kept s') as Hk'
    by (eapply SetTxTask_cursor_kept; try exact Hrun; try done; lia).
  assert (current_msg s' = moved_msg s size) as Hplace
    by (eapply SetTxTask_moves; try exact Hrun; try done; lia).
  destruct (SetTxTask_result data size s s')
    as (_ & Hdp & Hde & _ & Hmem); [done..|].
  unfold apart in Hap. rewrite <- Hplace in Hap.
  unfold moved_msg in Hplace.
  unfold cursor_kept, cursor_ordered, sane_target in *.
  unsigned.
  set (tx := if _ <? _ then _ else _) in *.
  assert (msg_buffer <= tx /\ tx + size <= msg_buffer + MSG_BUFFER_SIZE)
    as (Hlo & Hhi).
  { subst tx. destruct (Z.ltb_spec (msg_buffer + (MSG_BUFFER_SIZE - 1))
                          (current_msg s + size)); lia. }
  unsigned.
  exists s'. split; [done|]. split; [done|]. split; [lia|]. split; [lia|].
  intros i Hi. rewrite Hmem. unfold memcpy.
  assert (current_msg s' + i < tx \/ tx + size <= current_msg s' + i)
    as Hout.
  { subst tx. revert Hplace.
    destruct (Z.ltb_spec (msg_buffer + (MSG_BUFFER_SIZE - 1))
                (current_msg s + size));
      repeat match goal with
      | |- context [?a <=? ?b] => destruct (Z.leb_spec a b)
      end; lia. }
  assert ((tx + 3 <=? current_msg s' + i)
          && (current_msg s' + i <? tx + 3 + (size - 3)) = false) as ->.
  { destruct (Z.leb_spec (tx + 3) (current_msg s' + i)); [|done].
    rewrite (proj2 (Z.ltb_ge _ _)); [done|lia]. }
  assert ((tx <=? current_msg s' + i)
          && (current_msg s' + i <? tx + 3) = false) as ->.
  { destruct (Z.leb_spec tx (current_msg s' + i)); [|done].
    rewrite (proj2 (Z.ltb_ge _ _)); [done|lia]. }
  rewrite (proj2 (Z.leb_le (current_msg s') _)),
    (proj2 (Z.ltb_lt _ (current_msg s' + _))) by lia.
  cbn [andb]. f_equal. lia.
Qed.

(** *** Messages from the node itself *)

Lemma SetMessage_rest (msg ds : Z) (s0 : state) :
  sane_target -> 0 < MAX_MSG_NB < 2 ^ 16 ->
  tasks_ok s0 ->
  0 < ds ->
  msg_buffer <= current_msg s0 ->
  current_msg s0 + ds + sizeof_header_t + 2 < msg_buffer + MSG_BUFFER_SIZE ->
  exists s',
    (MsgAlloc_ClearMsgSpace (current_msg s0) (current_msg s0 + ds);;
     modify (set_data_ptr (current_msg s0 + (ds + 2)));;
     MsgAlloc_EndMsg;;
     s1 ← get;
     modify (set_memory (memcpy (memory s1) (current_msg s0) msg ds))) s0
    = Done tt s'
    /\ last (msg_queue s') = Some (current_msg s0)
    /\ memory s' = memcpy (memory s0) (current_msg s0) msg ds
    /\ (current_msg s' = current_msg s0 + ds
        \/ current_msg s' = current_msg s0 + ds + 1).
Proof.
  intros Ht H16 (Hok0 & Hmsg0) Hds Hlow Hroom. cbv [mbind alloc_bind get].
  destruct (ClearMsgSpace_queues (current_msg s0) (current_msg s0 + ds) s0)
    as (ret & s1 & km & kl & E1 & Hok1 & Hmsg1 & _); [lia|done|].
  rewrite E1. specialize (Hmsg1 Hmsg0).
  pose proof (ClearMsgSpace_memory _ _ _ _ _ E1) as Hmem1.
  apply ClearMsgSpace_reception, same_reception in E1.
  destruct E1 as (_ & Hcm1 & _ & _).
  cbv [modify].
  set (s1' := set_data_ptr (current_msg s0 + (ds + 2)) s1).
  assert (stacks_ok s1') as Hok1' by exact Hok1.
  destruct (EndMsg_queue s1') as (s2 & j & k & E2 & _ & _ & Hj & Hq & Hk);
    [done..|].
  rewrite E2.
  pose proof (EndMsg_memory _ _ _ E2) as Hmem2.
  pose proof (EndMsg_cursor _ _ E2) as (_ & Hcm2 & _).
  change (msg_queue s1') with (msg_queue s1) in *.
  change (current_msg s1') with (current_msg s1) in *.
  rewrite Hcm1 in *.
  assert (next_msg s1' = current_msg s0 + ds
          \/ next_msg s1' = current_msg s0 + ds + 1) as Hnext.
  { unfold next_msg, sane_target in *. subst s1'. state_simpl.
    rewrite (proj2 (Z.ltb_ge _ _)) by (unsigned; lia).
    destruct (Z.even _); [right|left]; lia. }
  assert (in_space (next_msg s1') (next_msg s1' + (sizeof_header_t + 2))
            (current_msg s0) = false) as Hout.
  { unfold in_space, sane_target in *.
    rewrite (proj2 (Z.leb_gt _ _)); [done|]. unsigned. lia. }
  pose proof (leading_app_false
                (in_space (next_msg s1')
                   (next_msg s1' + (sizeof_header_t + 2)))
                (drop j (msg_queue s1)) (current_msg s0) Hout) as Hle.
  eexists. split; [reflexivity|]. unfold msg_queue in *. state_simpl.
  split; [|split].
  - rewrite Hq, drop_app_le by lia. apply last_snoc.
  - unfold same_on in *. subst s1'. state_simpl in Hmem2. congruence.
  - rewrite Hcm2. lia.
Qed.

(** X19: a message from the node itself is copied into the buffer and
    queued for interpretation.  On a node in order, when the message
    (its header and its payload, cut at [MAX_DATA_MSG_SIZE]) and the
    header of a next frame fit behind the place the allocator picks, and
    the message does not overlap that place,
    [MsgAlloc_SetMessage] returns; the newest entry of MsgTasks is that
    place, where the bytes of the message now lie; the next frame starts
    right behind the message, or one byte further; and the node is still
    in order. *)
Theorem SetMessage_queues_copy (msg : Z) (s : state) :
  sane_target -> 0 < MAX_MSG_NB < 2 ^ 16 ->
  well_kept s ->
  0 <= header_size (memory s) msg ->
  0 <= MAX_DATA_MSG_SIZE -> 0 < sizeof_header_t ->
  MAX_DATA_MSG_SIZE + sizeof_header_t < 2 ^ 16 ->
  local_msg_place s msg + local_msg_size s msg + sizeof_header_t + 2
  < msg_buffer + MSG_BUFFER_SIZE ->
  apart msg (local_msg_place s msg) (local_msg_size s msg) ->
  exists s',
    MsgAlloc_SetMessage msg s = Done tt s'
    /\ last (msg_queue s') = Some (local_msg_place s msg)
    /\ (forall i, 0 <= i < local_msg_size s msg ->
          memory s' (local_msg_place s msg + i) = memory s (msg + i))
    /\ (current_msg s' = local_msg_place s msg + local_msg_size s msg
        \/ current_msg s' = local_msg_place s msg + local_msg_size s msg + 1)
    /\ well_kept s'.
Proof.
  intros Ht H16 (Hk & Hok & Htx) Hsize HMAXD Hhdr Hfits Hroom Hap.
  assert (exists s',
            MsgAlloc_SetMessage msg s = Done tt s'
            /\ last (msg_queue s') = Some (local_msg_place s msg)
            /\ memory s'
               = memcpy (memory s) (local_msg_place s msg) msg
                   (local_msg_size s msg)
            /\ (current_msg s'
                = local_msg_place s msg + local_msg_size s msg
                \/ current_msg s'
                   = local_msg_place s msg + local_msg_size s msg + 1))
    as (s' & Hrun & Hlast & Hmem & Hnext).
  { unfold MsgAlloc_SetMessage, MsgAlloc_DoWeHaveSpace.
    cbv [mbind alloc_bind get].
    assert ((if MAX_DATA_MSG_SIZE <? header_size (memory s) msg
             then u16 (MAX_DATA_MSG_SIZE + sizeof_header_t)
             else u16 (header_size (memory s) msg + sizeof_header_t))
            = local_msg_size s msg) as ->.
    { unfold local_msg_size.
      destruct (Z.ltb_spec MAX_DATA_MSG_SIZE (header_size (memory s) msg));
        rewrite u16_small by lia; lia. }
    unfold local_msg_place in *. set (ds := local_msg_size s msg) in *.
    assert (0 < ds) as Hds by (subst ds; unfold local_msg_size; lia).
    unfold cursor_kept, cursor_ordered in Hk.
    pose proof Ht as Ht'. unfold sane_target in Ht'.
    rewrite (u32_small (msg_buffer + _)) by lia.
    destruct (Z.ltb_spec (current_msg s + ds) (msg_buffer + MSG_BUFFER_SIZE))
      as [Hfit|Hwrap].
    - rewrite (u32_small (current_msg s + ds)) by lia.
      rewrite (proj2 (Z.ltb_ge _ _)) by lia. cbv [mret alloc_ret].
      destruct (SetMessage_rest msg ds s) as (s' & E & H1 & H2 & H3);
        try done; try lia.
      exists s'. cbv [mbind alloc_bind get] in E. by rewrite E.
    - destruct (Z.ltb_spec (msg_buffer + (MSG_BUFFER_SIZE - 1))
                  (u32 (current_msg s + ds))) as [_|Hno].
      2: { exfalso. rewrite u32_small in Hno; lia. }
      cbv [modify].
      destruct (SetMessage_rest msg ds (set_current_msg msg_buffer s))
        as (s' & E & H1 & H2 & H3); try done; state_simpl; try lia.
      exists s'. cbv [mbind alloc_bind get modify] in E. state_simpl in E.
      by rewrite E. }
  exists s'. split; [done|]. split; [done|]. split; [|split; [done|]].
  - intros i Hi. rewrite Hmem. unfold memcpy.
    rewrite (proj2 (Z.leb_le _ _)), (proj2 (Z.ltb_lt _ _)) by lia.
    cbn [andb]. f_equal. lia.
  - split; [|split].
    + by eapply SetMessage_cursor_kept.
    + by eapply SetMessage_tasks_ok.
    + apply (run_op_tx_view (SetMessage msg) eq_refl), same_tx_view
        in Hrun as (Ht' & Hi').
      unfold tx_tasks_ok. by rewrite Ht', Hi'.
Qed.

(** *** Messages taken back, frames abandoned, statistics left out *)

Lemma PullMsg_search_entry (count : nat) (target_module : Z) (s : state) :
  forall i m s',
    0 <= i ->
    PullMsg_search count i target_module s = Done (SUCCEED, Some m) s' ->
    exists j, i <= j < i + Z.of_nat count
              /\ msg_pt (rd luos_tasks_past (luos_tasks s) j) = m.
Proof.
  induction count as [|k IH]; intros i m s' Hi Hrun; [by inversion Hrun|].
  cbn [PullMsg_search] in Hrun. revert Hrun. exec.
  destruct (_ =? target_module).
  - intros Hrun. split_outcome. exists i. split; [lia|done].
  - intros Hrun. destruct (IH (i + 1) m s') as (j & Hj & Hm); [lia|done|].
    exists j. split; [lia|done].
Qed.

(** X20: a message taken back is never handed out.  After
    [MsgAlloc_ClearMsgFromLuosTasks msg], no [MsgAlloc_PullMsg], for
    whatever endpoint, and no [MsgAlloc_PullMsgFromLuosTask], for whatever
    entry, returns [msg]. *)
Theorem cleared_msg_is_never_pulled (msg : Z) (s : state) :
  luos_tasks_ok s -> MAX_MSG_NB < 2 ^ 16 ->
  exists s',
    MsgAlloc_ClearMsgFromLuosTasks msg s = Done tt s'
    /\ (forall target_module m s'',
          MsgAlloc_PullMsg target_module s' = Done (SUCCEED, Some m) s'' ->
          m <> msg)
    /\ (forall i m s'',
          0 <= i ->
          MsgAlloc_PullMsgFromLuosTask i s' = Done (SUCCEED, Some m) s'' ->
          m <> msg).
Proof.
  intros Hok H16. pose proof Hok as (Hlen & Hid).
  unfold MsgAlloc_ClearMsgFromLuosTasks. cbv [mbind alloc_bind get].
  destruct (ClearMsgFromLuosTasks_loop_run msg
              (Z.to_nat (luos_tasks_stack_id s)) 0 s)
    as (s' & -> & Hq' & Hok' & _); [done|done|lia|lia|].
  rewrite take_0, drop_0, app_nil_l in Hq'.
  exists s'. split; [done|].
  pose proof Hok' as (Hlen' & Hid').
  assert (forall j, 0 <= j < luos_tasks_stack_id s' ->
            msg_pt (rd luos_tasks_past (luos_tasks s') j) <> msg) as Hall.
  { intros j Hj.
    pose proof (live_lookup luos_tasks_past (luos_tasks s')
                  (luos_tasks_stack_id s') j Hj ltac:(lia)) as Hlk.
    fold (luos_queue s') in Hlk. rewrite Hq' in Hlk.
    apply list_elem_of_lookup_2, list_elem_of_filter in Hlk. apply Hlk. }
  split.
  - intros t m s'' Hrun. unfold MsgAlloc_PullMsg in Hrun.
    cbv [mbind alloc_bind get] in Hrun.
    apply PullMsg_search_entry in Hrun as (j & Hj & <-); [|lia].
    apply Hall. lia.
  - intros i m s'' Hi. unfold MsgAlloc_PullMsgFromLuosTask. exec.
    destruct (Z.ltb_spec i (luos_tasks_stack_id s')); [|done].
    intros Hrun. split_outcome. apply Hall. lia.
Qed.

(** X21: a node started without statistics cannot count.  [mem_stat] is
    NULL until [MsgAlloc_Init] is given a record, and [MsgAlloc_Init]
    with NULL leaves it so; from there [MsgAlloc_loop] and
    [MsgAlloc_LuosTaskAlloc] read through the NULL pointer. *)
Theorem Init_without_stats_faults (s : state) :
  0 < MAX_MSG_NB < 2 ^ 16 ->
  mem_stat s = NULL ->
  exists s',
    MsgAlloc_Init NULL s = Done tt s'
    /\ mem_stat s' = NULL
    /\ MsgAlloc_loop s' = Fault
    /\ (forall c m, MsgAlloc_LuosTaskAlloc c m s' = Fault).
Proof.
  intros H16 Hnull. unfold MsgAlloc_Init. exec.
  change (NULL =? NULL) with true. cbv iota.
  eexists. split; [reflexivity|]. state_simpl. split; [done|].
  split.
  - unfold MsgAlloc_loop, raise_msg_stack_ratio, mem_stat_load. exec.
    by rewrite Hnull.
  - intros c m.
    unfold MsgAlloc_LuosTaskAlloc, raise_luos_stack_ratio, mem_stat_load.
    exec. rewrite (proj2 (Z.eqb_neq 0 MAX_MSG_NB)) by lia. exec.
    by rewrite Hnull.
Qed.

Lemma ClearMsgSpace_copy_task from to :
  preserves (same_on copy_task_pointer) (MsgAlloc_ClearMsgSpace from to).
Proof.
  apply ClearMsgSpace_preserves; try tc_solve; try (intros; reflexivity).
  unfold count_drop, mem_stat_load, mem_stat_store.
  intros s a s'. exec. intros H. split_outcome; reflexivity.
Qed.

(** X22: [MsgAlloc_InvalidMsg] abandons the frame in reception.  From
    the start of a frame, whatever bytes were stored since, the call
    returns on well-kept stacks; the cursor is back at the start of the
    frame, ready for a header; a header copy still pending is dropped
    when the frame starts the buffer, and kept otherwise; and TxTasks is
    as it was. *)
Theorem InvalidMsg_rewinds (bytes : list Z) (s : state) :
  MAX_MSG_NB < 2 ^ 16 -> tasks_ok s ->
  data_ptr s = current_msg s ->
  exists s',
    run_ops ((SetData <$> bytes) ++ [InvalidMsg]) s = Done tt s'
    /\ current_msg s' = current_msg s
    /\ data_ptr s' = current_msg s
    /\ data_end_estimation s' = current_msg s + sizeof_header_t + 2
    /\ copy_task_pointer s'
       = (if current_msg s =? msg_buffer then NULL else copy_task_pointer s)
    /\ same_on tx_view s s'.
Proof.
  intros H16 Hok Hstart.
  rewrite run_ops_app, SetData_run_ops.
  set (s1 := set_data_ptr _ _).
  assert (tasks_ok s1) as Hok1 by exact Hok.
  cbn [run_ops run_op]. unfold MsgAlloc_InvalidMsg.
  cbv [mbind alloc_bind get].
  destruct (ClearMsgSpace_returns (current_msg s1) (data_ptr s1) s1)
    as (ret & s2 & E & _); [done|apply Hok1|].
  rewrite E.
  pose proof (ClearMsgSpace_tx_view _ _ _ _ _ E) as Htx.
  pose proof (ClearMsgSpace_copy_task _ _ _ _ _ E) as Hctp.
  unfold same_on in Hctp.
  apply ClearMsgSpace_reception, same_reception in E.
  destruct E as (_ & Hcm & _ & _).
  change (current_msg s1) with (current_msg s) in *.
  change (copy_task_pointer s1) with (copy_task_pointer s) in *.
  exec. rewrite Hcm.
  destruct (current_msg s =? msg_buffer); exec; eexists;
    (split; [reflexivity|]); state_simpl; repeat split; try done;
    unfold same_on in *; exact Htx.
Qed.

(** X23: a message released is not counted as dropped.  On a target
    whose arithmetic does not wrap, with the cursor in order, once
    [MsgAlloc_UsedMsgEnd] has released the message in use,
    [MsgAlloc_ValidHeader] returns without a change to the statistics,
    whatever frame the header announces and wherever the released message
    lay. *)
Theorem UsedMsgEnd_releases_message (data_size : Z) (s : state) :
  sane_target -> cursor_kept s ->
  exists s',
    run_ops [UsedMsgEnd; ValidHeader 1 data_size] s = Done tt s'
    /\ stats s' = stats s
    /\ used_msg s' = NULL.
Proof.
  intros Ht Hk. unfold sane_target, cursor_kept, cursor_ordered in *.
  cbn [run_ops run_op].
  unfold MsgAlloc_UsedMsgEnd, MsgAlloc_ValidHeader, MsgAlloc_DoWeHaveSpace.
  change (1 =? 1) with true. exec.
  destruct (u32 _ <? u32 _); exec; change (u32 NULL) with 0.
  - rewrite (proj2 (Z.leb_gt _ 0)) by (unsigned; lia). exec.
    by eexists.
  - rewrite (proj2 (Z.leb_gt _ 0)) by (unsigned; lia). exec.
    by eexists.
Qed.

End Properties.

(** ** Runs on the scenario target *)

Section Scenario.

#[local] Existing Instance scenario.




Lemma busy_mem_stat : mem_stat_is (mk_memory_stats 50 75 7) busy.
Proof.
  split; [discriminate|]. split; [vm_compute; reflexivity|].
  vm_compute; discriminate.
Defined.

Lemma busy_stacks_ok : stacks_ok busy.
Proof.
  repeat split; try (vm_compute; congruence).
  exists (mk_memory_stats 50 75 7). exact busy_mem_stat.
Defined.

Lemma busy_msg_tasks_ok : msg_tasks_ok busy.
Proof.
  split.
  - assert (live (msg_tasks busy) (msg_tasks_stack_id busy)
            = [536870936; 536870952; 536870912; 536870922]) as ->
      by (vm_compute; reflexivity).
    repeat (constructor; [vm_compute; reflexivity|]). constructor.
  - assert (drop (Z.to_nat (msg_tasks_stack_id busy)) (msg_tasks busy) = [])
      as -> by (vm_compute; reflexivity).
    constructor.
Defined.

(** On [busy], reclaiming offsets 20 to 32 returns SUCCEED: it nulls
    [used_msg], takes two entries off LuosTasks and one off MsgTasks, and
    counts four drops. *)
Lemma ClearMsgSpace_spec_witness :
  exists s',
    MsgAlloc_ClearMsgSpace 536870932 536870944 busy = Done SUCCEED s'
    /\ used_msg s' = NULL
    /\ luos_tasks_stack_id s' = 1
    /\ live (luos_tasks s') (luos_tasks_stack_id s')
       = [mk_luos_task 536870962 1]
    /\ msg_tasks_stack_id s' = 3
    /\ live (msg_tasks s') (msg_tasks_stack_id s')
       = [536870952; 536870912; 536870922]
    /\ stats s' !! 4096 = Some (mk_memory_stats 50 75 11).
Proof.
  destruct (ClearMsgSpace_spec 536870932 536870944 busy
              (mk_memory_stats 50 75 7))
    as (ret & s' & Hrun & Hret & _ & Hs).
  - vm_compute. reflexivity.
  - exact busy_mem_stat.
  - vm_compute. split; congruence.
  - reflexivity.
  - vm_compute. split; congruence.
  - reflexivity.
  - destruct ret.
    2: { exfalso. destruct Hret as [Hret _]. specialize (Hret eq_refl).
         vm_compute in Hret. discriminate. }
    exists s'. split; [exact Hrun|].
    destruct (Hs eq_refl) as (H1 & H2 & H3 & H4 & H5 & H6 & _).
    rewrite H3, H5, H6, H1, H2, H4. clear.
    repeat split; vm_compute; reflexivity.
Defined.

(** On [busy_full], allocating a task for endpoint 9 evicts the oldest
    entry and leaves the drop counter at 7. *)
Lemma LuosTaskAlloc_full_counts_no_drop_witness :
  exists s' r',
    MsgAlloc_LuosTaskAlloc 9 536870952 busy_full = Done tt s'
    /\ luos_tasks s'
       = [mk_luos_task 536870942 2; mk_luos_task 536870962 1;
          mk_luos_task 536870912 3; mk_luos_task 536870952 9]
    /\ luos_tasks_stack_id s' = 4
    /\ stats s' !! 4096 = Some r'
    /\ msg_drop_number r' = 7.
Proof.
  destruct (LuosTaskAlloc_full_counts_no_drop 9 536870952 busy_full
              (mk_memory_stats 50 75 7))
    as (s' & r' & Hrun & Hl & Hid & Hp & Hr & Hd).
  - vm_compute. split; reflexivity.
  - reflexivity.
  - reflexivity.
  - discriminate.
  - vm_compute. reflexivity.
  - exists s', r'. rewrite Hp in Hr. repeat split; try done.
Defined.

(** On [busy], a header that announces 40 bytes does not fit behind
    offset 20: the frame moves to the buffer start, the header copy is
    armed, and [used_msg], which lies in the new frame, is dropped. *)
Lemma ValidHeader_spec_witness :
  exists s',
    MsgAlloc_ValidHeader 1 40 busy = Done tt s'
    /\ copy_task_pointer s' = 536870932
    /\ current_msg s' = 536870912
    /\ data_ptr s' = 536870919
    /\ data_end_estimation s' = 536870961
    /\ used_msg s' = NULL
    /\ stats s' !! 4096 = Some (mk_memory_stats 50 75 8)
    /\ MsgAlloc_ValidHeader 0 40 busy
       = Done tt (set_data_ptr 536870932 busy).
Proof.
  destruct (ValidHeader_spec 40 busy (mk_memory_stats 50 75 7) busy_mem_stat)
    as [Hvalid Hinvalid].
  eexists. split; [exact Hvalid|].
  repeat (split; [vm_compute; reflexivity|]).
  apply Hinvalid. discriminate.
Defined.

(** On [busy], ending the frame puts the cursor at offset 31: the byte at
    offset 30 is 0, which is even. *)
Lemma EndMsg_advances_cursor_witness :
  exists s',
    MsgAlloc_EndMsg busy = Done tt s'
    /\ data_ptr s' = 536870943
    /\ current_msg s' = 536870943
    /\ data_end_estimation s' = 536870952.
Proof.
  destruct (EndMsg_advances_cursor busy) as [Hcursor Hreturns].
  destruct Hreturns as (s' & Hrun).
  - vm_compute. split; reflexivity.
  - exact busy_stacks_ok.
  - exact busy_msg_tasks_ok.
  - exists s'. split; [exact Hrun|].
    destruct (Hcursor s' Hrun) as (H1 & H2 & H3).
    rewrite H1, H2, H3. clear.
    repeat split; vm_compute; reflexivity.
Defined.

Lemma SetTxTask_overflow_example :
  MsgAlloc_SetTxTask 8192 10 busy_tx = AssertFailed.
Proof. vm_compute. reflexivity. Qed.

(** On [busy_tx], staging one more frame never returns. *)
Lemma SetTxTask_overflow_never_returns_witness :
  ~ exists s', MsgAlloc_SetTxTask 8192 10 busy_tx = Done tt s'.
Proof.
  intros [s' Hrun].
  apply (SetTxTask_overflow_never_returns 8192 10 busy_tx) in Hrun.
  - exact Hrun.
  - vm_compute. split; reflexivity.
  - reflexivity.
Defined.




(** On [busy], a task for endpoint 9 comes back once. *)
Lemma alloc_then_pull_witness :
  exists s1 s2,
    MsgAlloc_LuosTaskAlloc 9 536870952 busy = Done tt s1
    /\ MsgAlloc_PullMsg 9 s1 = Done (SUCCEED, Some 536870952) s2
    /\ used_msg s2 = 536870952
    /\ MsgAlloc_PullMsg 9 s2 = Done (FAILED, None) s2.
Proof.
  apply (alloc_then_pull 9 536870952 busy (mk_memory_stats 50 75 7)).
  - vm_compute. split; reflexivity.
  - reflexivity.
  - vm_compute. split; congruence.
  - discriminate.
  - vm_compute. reflexivity.
  - intros i Hi.
    assert (i = 0 \/ i = 1 \/ i = 2) as [Hi0|[Hi1|Hi2]]
      by (change (luos_tasks_stack_id busy) with 3 in Hi; lia);
      subst i; vm_compute; discriminate.
Defined.

Lemma busy_run_run : run_ops busy_run busy = Done tt busy_run_state.
Proof. vm_compute. reflexivity. Qed.

(** Across [busy_run] the drop counter of the record at 4096 does not go
    down from 7 and stays at most 255. *)
Lemma drop_counter_monotone_witness :
  exists r',
    stats busy_run_state !! 4096 = Some r'
    /\ 7 <= msg_drop_number r'
    /\ (7 <= 255 -> msg_drop_number r' <= 255).
Proof.
  apply (drop_counter_monotone busy_run busy busy_run_state busy_run_run
           4096 (mk_memory_stats 50 75 7)).
  vm_compute. reflexivity.
Defined.

(** On [started], whose stacks are empty, every pull fails and changes
    nothing. *)
Lemma failed_pull_changes_nothing_witness :
  MsgAlloc_PullMsgToInterpret started = Done (FAILED, None) started
  /\ MsgAlloc_PullMsg 1 started = Done (FAILED, None) started
  /\ MsgAlloc_PullMsgFromLuosTask 0 started = Done (FAILED, None) started
  /\ MsgAlloc_GetTxTask started = Done (FAILED, None) started.
Proof.
  destruct (failed_pull_changes_nothing) as (_ & H1 & H2 & H3 & H4).
  - vm_compute. reflexivity.
  - split; [apply H1; reflexivity|].
    split.
    { apply H2. intros i Hi. change (luos_tasks_stack_id started) with 0 in Hi.
      lia. }
    split; [apply H3; vm_compute; discriminate|].
    apply H4. reflexivity.
Defined.

(** A second way out of the ordering, with every byte stored under a
    validated header: after one 12-byte frame, a 60-byte frame to transmit
    no longer fits behind [current_msg]; [MsgAlloc_SetTxTask] puts it at
    the buffer start and the reception behind it, where
    [data_end_estimation] lands past the end of the 64-byte buffer. *)
Lemma SetTxTask_overrun_example :
  match run_ops (frame12 ++ [SetTxTask 8192 60]) started with
  | Done _ s =>
      current_msg s = msg_buffer + 60
      /\ data_end_estimation s = msg_buffer + MSG_BUFFER_SIZE + 5
  | _ => False
  end.
Proof. vm_compute. split; reflexivity. Qed.

(** The sibling of [MsgAlloc_LuosTaskAlloc] on MsgTasks: on [busy_quiet],
    whose MsgTasks stack is full, [MsgAlloc_EndMsg] evicts the oldest
    frame, pushes the new one last and counts the drop, 7 to 8. *)
Lemma EndMsg_full_counts_drop_example :
  match MsgAlloc_EndMsg busy_quiet with
  | Done _ s =>
      msg_tasks s = [536870962; 536870912; 536870922; 536870932]
      /\ msg_tasks_stack_id s = 4
      /\ stats s !! 4096 = Some (mk_memory_stats 50 75 8)
  | _ => False
  end.
Proof. vm_compute. repeat split. Qed.

(** Why the contract asks that a header be validated before the cursor
    has passed the end it announces: twenty bytes stored under a header
    that announced fifty, then a header that announces none. *)
Lemma ValidHeader_overrun_example :
  match run_ops ([ValidHeader 1 50] ++ replicate 20 (SetData 1)
                 ++ [ValidHeader 1 0]) started with
  | Done _ s =>
      data_ptr s = msg_buffer + 20
      /\ data_end_estimation s = msg_buffer + 9
  | _ => False
  end.
Proof. vm_compute. split; reflexivity. Qed.

(** Why the callers' contract asks for the two CRC bytes: ended right
    after [MsgAlloc_Init], the frame starts one byte before the buffer,
    with its cursor still ordered. *)
Lemma EndMsg_underrun_example :
  match run_ops [EndMsg] started with
  | Done _ s =>
      current_msg s = msg_buffer - 1
      /\ data_ptr s = msg_buffer - 1
      /\ data_end_estimation s = msg_buffer + 8
  | _ => False
  end.
Proof. vm_compute. repeat split. Qed.

(** The same call on [busy], which has three free slots in TxTasks,
    returns: the frame is staged where the reception stood and the
    reception moves behind it.  On [busy_tx] it is the full stack alone
    that stops the call. *)
Lemma SetTxTask_fits_example :
  match MsgAlloc_SetTxTask 8192 10 busy with
  | Done _ s =>
      tx_tasks_stack_id s = 2
      /\ rd tx_tasks_past (tx_tasks s) 1 = mk_tx_task 536870932 10
      /\ current_msg s = 536870942
      /\ data_ptr s = 536870954
      /\ data_end_estimation s = 536870954
  | _ => False
  end.
Proof. vm_compute. repeat split. Qed.

(** The two evictions from a freshly initialised node.  Five tasks
    allocated in a row: the fifth evicts the first and no drop is counted. *)
Lemma LuosTaskAlloc_fifth_call_example :
  match run_ops (replicate 5 (LuosTaskAlloc 7 536870912)) started with
  | Done _ s =>
      luos_tasks_stack_id s = 4
      /\ stats s !! 4096 = Some (mk_memory_stats 0 100 0)
  | _ => False
  end.
Proof. vm_compute. repeat split. Qed.

(** Four frames staged in a row: three calls return, the fourth halts. *)
Lemma SetTxTask_fourth_call_example :
  match run_ops (replicate 3 (SetTxTask 8192 10)) started with
  | Done _ s => tx_tasks_stack_id s = 3
  | _ => False
  end
  /\ run_ops (replicate 4 (SetTxTask 8192 10)) started = AssertFailed.
Proof. split; vm_compute; reflexivity. Qed.

(** ** Runs on the scenario target: the stacks *)

Lemma busy_luos_tasks_ok : luos_tasks_ok busy.
Proof. split; [reflexivity|]. vm_compute. split; congruence. Defined.

Lemma busy_tx_tasks_ok : tx_tasks_ok busy.
Proof. split; [reflexivity|]. vm_compute. split; congruence. Defined.

Lemma busy_cursor_kept : cursor_kept busy.
Proof. vm_compute. repeat split; congruence. Defined.

Lemma busy_well_kept : well_kept busy.
Proof.
  split; [exact busy_cursor_kept|]. split; [|exact busy_tx_tasks_ok].
  split; [exact busy_stacks_ok|exact busy_msg_tasks_ok].
Defined.

Lemma scenario_sane : sane_target.
Proof. vm_compute. repeat split; congruence. Defined.

(** On [busy], pulling entry 1 of LuosTasks hands out the message at
    offset 30 and leaves the entries 0 and 2. *)
Lemma PullMsgFromLuosTask_takes_entry_witness :
  exists s',
    MsgAlloc_PullMsgFromLuosTask 1 busy = Done (SUCCEED, Some 536870942) s'
    /\ used_msg s' = 536870942
    /\ luos_queue s'
       = [mk_luos_task 536870932 1; mk_luos_task 536870962 1].
Proof.
  destruct (PullMsgFromLuosTask_takes_entry 1 busy
              (mk_luos_task 536870942 2))
    as (s' & Hrun & Hu & Hq & _).
  - exact busy_luos_tasks_ok.
  - reflexivity.
  - lia.
  - vm_compute. reflexivity.
  - exists s'. split; [exact Hrun|]. split; [exact Hu|].
    rewrite Hq. vm_compute. reflexivity.
Defined.

(** On [busy], endpoint 2 gets the message at offset 30, the only one
    for it, from between the two entries for endpoint 1. *)
Lemma PullMsg_takes_oldest_witness :
  exists s',
    MsgAlloc_PullMsg 2 busy = Done (SUCCEED, Some 536870942) s'
    /\ used_msg s' = 536870942
    /\ luos_queue s'
       = [mk_luos_task 536870932 1; mk_luos_task 536870962 1].
Proof.
  destruct (PullMsg_takes_oldest 2 busy
              [mk_luos_task 536870932 1] [mk_luos_task 536870962 1]
              (mk_luos_task 536870942 2))
    as (s' & Hrun & Hu & Hq & _).
  - exact busy_luos_tasks_ok.
  - reflexivity.
  - vm_compute. reflexivity.
  - constructor; [vm_compute; discriminate|constructor].
  - reflexivity.
  - exists s'. split; [exact Hrun|]. split; [exact Hu|exact Hq].
Defined.

Lemma busy_shared_luos_tasks_ok : luos_tasks_ok busy_shared.
Proof. split; [reflexivity|]. vm_compute. split; congruence. Defined.

(** On [busy_shared], taking back the message at offset 20 leaves the
    one entry for the message at offset 30. *)
Lemma ClearMsgFromLuosTasks_filters_witness :
  exists s',
    MsgAlloc_ClearMsgFromLuosTasks 536870932 busy_shared = Done tt s'
    /\ luos_queue s' = [mk_luos_task 536870942 2]
    /\ luos_tasks_stack_id s' = 1.
Proof.
  destruct (ClearMsgFromLuosTasks_filters 536870932 busy_shared)
    as (s' & Hrun & Hq & Hn & _).
  - exact busy_shared_luos_tasks_ok.
  - reflexivity.
  - exists s'. split; [exact Hrun|].
    assert (luos_queue s' = [mk_luos_task 536870942 2]) as Hq'
      by (rewrite Hq; vm_compute; reflexivity).
    split; [exact Hq'|]. rewrite Hn, Hq'. reflexivity.
Defined.

(** On [busy], a task for endpoint 9 goes behind the three entries, and
    [luos_stack_ratio] goes from 75 to 100. *)
Lemma LuosTaskAlloc_queues_witness :
  exists s',
    MsgAlloc_LuosTaskAlloc 9 536870952 busy = Done tt s'
    /\ luos_queue s'
       = [mk_luos_task 536870932 1; mk_luos_task 536870942 2;
          mk_luos_task 536870962 1; mk_luos_task 536870952 9]
    /\ stats s' !! 4096 = Some (mk_memory_stats 50 100 7).
Proof.
  destruct (LuosTaskAlloc_queues 9 536870952 busy (mk_memory_stats 50 75 7))
    as (s' & Hrun & Hq & (_ & Hid) & Hstats & _).
  - vm_compute. split; reflexivity.
  - exact busy_luos_tasks_ok.
  - discriminate.
  - vm_compute. reflexivity.
  - exists s'. split; [exact Hrun|].
    assert (luos_queue s'
            = [mk_luos_task 536870932 1; mk_luos_task 536870942 2;
               mk_luos_task 536870962 1; mk_luos_task 536870952 9]) as Hq'
      by (rewrite Hq; vm_compute; reflexivity).
    split; [exact Hq'|].
    assert (luos_tasks_stack_id s' = 4) as Hn.
    { pose proof (f_equal length Hq') as Hlen.
      unfold luos_queue, live in Hlen. rewrite length_take in Hlen.
      cbn [length] in Hlen. change MAX_MSG_NB with 4 in Hid. lia. }
    rewrite Hstats, Hn. vm_compute. reflexivity.
Defined.

(** On [busy], entry 1 of LuosTasks can be pulled, so the peeks at it
    succeed and leave [busy] as it is. *)
Lemma LuosTask_peeks_agree_with_pull_witness :
  MsgAlloc_GetLuosTaskCmd 1 busy
  = Done (SUCCEED, Some (header_cmd (memory busy) 536870942)) busy
  /\ MsgAlloc_GetLuosTaskSize 1 busy
     = Done (SUCCEED, Some (header_size (memory busy) 536870942)) busy
  /\ exists n, MsgAlloc_LuosTasksNbr busy = Done n busy /\ 1 < n.
Proof.
  edestruct (LuosTask_peeks_agree_with_pull 1 536870942 busy)
    as (Hcmd & _ & Hsize & _ & Hn).
  - vm_compute. reflexivity.
  - split; [exact Hcmd|]. split; [exact Hsize|exact Hn].
Defined.
(** ** Runs on the scenario target: frames *)

(** On [busy], the next frame to interpret is the oldest one, at offset
    24. *)
Lemma PullMsgToInterpret_takes_oldest_witness :
  exists s',
    MsgAlloc_PullMsgToInterpret busy = Done (SUCCEED, Some 536870936) s'
    /\ msg_queue s' = [536870952; 536870912; 536870922]
    /\ msg_tasks_stack_id s' = 3.
Proof.
  destruct (PullMsgToInterpret_takes_oldest busy 536870936
              [536870952; 536870912; 536870922]) as [Hin _].
  - reflexivity.
  - reflexivity.
  - vm_compute. congruence.
  - vm_compute. reflexivity.
  - destruct Hin as (s' & Hrun & Hq & Hn & _); [vm_compute; reflexivity|].
    exists s'. split; [exact Hrun|]. split; [exact Hq|].
    rewrite Hn. reflexivity.
Defined.

(** On [busy], whose MsgTasks stack is full, ending the frame at offset
    20 reclaims the entry at offset 24, which lies in the frame, so that
    none is evicted; the frame is queued; and the room of the next header,
    from offset 31 on, reclaims the entry at offset 40. *)
Lemma EndMsg_queues_frame_witness :
  exists s',
    MsgAlloc_EndMsg busy = Done tt s'
    /\ msg_queue s' = [536870912; 536870922; 536870932]
    /\ last (msg_queue s') = Some 536870932.
Proof.
  destruct (EndMsg_queues_frame busy) as (s' & Hrun & Hq & Hlast).
  - vm_compute. split; reflexivity.
  - exact busy_stacks_ok.
  - exact busy_msg_tasks_ok.
  - exists s'. split; [exact Hrun|]. split.
    + rewrite Hq. vm_compute. reflexivity.
    + apply Hlast. vm_compute. reflexivity.
Defined.

Lemma started_stacks_ok : stacks_ok started.
Proof.
  repeat split; try (vm_compute; congruence).
  exists (mk_memory_stats 0 0 0).
  split; [vm_compute; discriminate|]. split; [vm_compute; reflexivity|].
  vm_compute; discriminate.
Defined.

Lemma started_msg_tasks_ok : msg_tasks_ok started.
Proof.
  split.
  - assert (live (msg_tasks started) (msg_tasks_stack_id started) = [])
      as -> by (vm_compute; reflexivity).
    constructor.
  - assert (drop (Z.to_nat (msg_tasks_stack_id started)) (msg_tasks started)
            = [0; 0; 0; 0]) as -> by (vm_compute; reflexivity).
    repeat (constructor; [reflexivity|]). constructor.
Defined.

(** On [started], a frame of five bytes is delivered at the start of the
    buffer, its third byte at offset 2. *)
Lemma received_frame_is_delivered_witness :
  exists s1 s2 s3,
    run_ops (SetData <$> [1; 2; 3; 4; 5]) started = Done tt s1
    /\ MsgAlloc_EndMsg s1 = Done tt s2
    /\ MsgAlloc_PullMsgToInterpret s2 = Done (SUCCEED, Some 536870912) s3
    /\ memory s3 536870914 = 3.
Proof.
  destruct (received_frame_is_delivered [1; 2; 3; 4; 5] started)
    as (s1 & s2 & s3 & H1 & H2 & H3 & Hmem & _).
  - exact scenario_sane.
  - vm_compute. split; reflexivity.
  - exact started_stacks_ok.
  - exact started_msg_tasks_ok.
  - vm_compute. reflexivity.
  - reflexivity.
  - vm_compute. congruence.
  - cbn [length]. lia.
  - vm_compute. reflexivity.
  - exists s1, s2, s3. split; [exact H1|]. split; [exact H2|].
    split; [exact H3|]. exact (Hmem 2%nat 3 eq_refl).
Defined.

(** Across [busy_run] the stack ratios of the record at 4096 do not go
    down from 50 and 75. *)
Lemma stack_ratios_never_decrease_witness :
  exists r',
    stats busy_run_state !! 4096 = Some r'
    /\ 50 <= msg_stack_ratio r'
    /\ 75 <= luos_stack_ratio r'.
Proof.
  apply (stack_ratios_never_decrease busy_run busy busy_run_state
           busy_run_run 4096 (mk_memory_stats 50 75 7)).
  vm_compute. reflexivity.
Defined.

(** On [busy], whose MsgTasks stack is full, [MsgAlloc_loop] raises
    [msg_stack_ratio] from 50 to 100, and a second call changes
    nothing. *)
Lemma loop_records_occupancy_witness :
  exists s',
    MsgAlloc_loop busy = Done tt s'
    /\ stats s' !! 4096 = Some (mk_memory_stats 100 75 7)
    /\ MsgAlloc_loop s' = Done tt s'.
Proof.
  destruct (loop_records_occupancy busy (mk_memory_stats 50 75 7))
    as (s' & Hrun & Hstats & _ & Hagain).
  - vm_compute. split; reflexivity.
  - vm_compute. split; congruence.
  - discriminate.
  - vm_compute. reflexivity.
  - exists s'. split; [exact Hrun|]. split; [|exact Hagain].
    rewrite Hstats. vm_compute. reflexivity.
Defined.

Lemma busy_header_mem_stat : mem_stat_is (mk_memory_stats 50 75 7) busy_header.
Proof.
  split; [discriminate|]. split; [vm_compute; reflexivity|].
  vm_compute; discriminate.
Defined.

(** On [busy_header], a header that announces 40 bytes does not fit
    behind offset 20; after three payload bytes and [MsgAlloc_loop], the
    header lies at the start of the buffer, its fourth byte at offset 3,
    and the payload behind it, its second byte at offset 8. *)
Lemma wrapped_header_is_moved_witness :
  exists s',
    run_ops ([ValidHeader 1 40] ++ (SetData <$> [8; 9; 10]) ++ [Loop])
      busy_header = Done tt s'
    /\ current_msg s' = 536870912
    /\ data_ptr s' = 536870922
    /\ memory s' 536870915 = 4
    /\ memory s' 536870920 = 9
    /\ copy_task_pointer s' = NULL.
Proof.
  destruct (wrapped_header_is_moved 40 [8; 9; 10] busy_header
              (mk_memory_stats 50 75 7))
    as (s' & Hrun & Hcm & Hdp & Hhdr & Hpay & Hctp).
  - exact busy_header_mem_stat.
  - discriminate.
  - vm_compute. reflexivity.
  - vm_compute. congruence.
  - exists s'. split; [exact Hrun|]. split; [exact Hcm|]. split; [exact Hdp|].
    split; [|split; [|exact Hctp]].
    + change 536870915 with (msg_buffer + 3). rewrite Hhdr.
      * vm_compute. reflexivity.
      * vm_compute. split; congruence.
    + exact (Hpay 1%nat 9 eq_refl).
Defined.
(** ** Runs on the scenario target: nodes in order *)

(** [busy] is in order, and so is [busy] after the frame in reception
    was ended. *)
Lemma well_kept_is_invariant_witness : well_kept busy_ended.
Proof.
  apply (well_kept_is_invariant EndMsg busy busy_ended).
  - exact scenario_sane.
  - vm_compute. split; reflexivity.
  - exact busy_well_kept.
  - exact I.
  - split; [|exact I]. vm_compute. congruence.
  - vm_compute. reflexivity.
Defined.

Lemma boot_tx_tasks_ok : tx_tasks_ok boot.
Proof. split; [reflexivity|]. vm_compute. split; [congruence|reflexivity]. Defined.

(** [MsgAlloc_Init] with the record at 4096 puts [boot] in order. *)
Lemma Init_puts_in_order_witness :
  exists s',
    MsgAlloc_Init 4096 boot = Done tt s'
    /\ well_kept s'
    /\ msg_queue s' = [] /\ luos_queue s' = []
    /\ mem_stat s' = 4096
    /\ MsgAlloc_IsEmpty s' = Done SUCCEED s'.
Proof.
  apply (Init_puts_in_order 4096 boot (mk_memory_stats 0 0 0)).
  - exact scenario_sane.
  - vm_compute. congruence.
  - exact boot_tx_tasks_ok.
  - discriminate.
  - vm_compute. reflexivity.
  - vm_compute. congruence.
Defined.

(** On [busy], pulling a frame to interpret returns. *)
Lemma calls_return_on_kept_stacks_witness :
  exists s', run_op PullMsgToInterpret busy = Done tt s'.
Proof.
  apply (calls_return_on_kept_stacks PullMsgToInterpret busy).
  - vm_compute. split; reflexivity.
  - split; [exact busy_stacks_ok|exact busy_msg_tasks_ok].
  - exact busy_tx_tasks_ok.
  - reflexivity.
Defined.

Lemma started_tx_tasks_ok : tx_tasks_ok started.
Proof. split; [reflexivity|]. vm_compute. split; [congruence|reflexivity]. Defined.

(** On [busy], the frame staged at offset 44 is the next to transmit,
    and taking it off empties TxTasks; on [started], whose TxTasks stack
    is empty, taking a frame off halts the node. *)
Lemma TxTasks_oldest_first_witness :
  MsgAlloc_GetTxTask busy = Done (SUCCEED, Some (536870956, 6)) busy
  /\ (exists s',
        MsgAlloc_PullMsgFromTxTask busy = Done tt s'
        /\ tx_queue s' = []
        /\ tx_tasks_stack_id s' = 0)
  /\ MsgAlloc_PullMsgFromTxTask started = AssertFailed.
Proof.
  destruct (TxTasks_oldest_first busy) as [Hhead _].
  { vm_compute. split; reflexivity. }
  { exact busy_tx_tasks_ok. }
  destruct (TxTasks_oldest_first started) as [_ Hempty].
  { vm_compute. split; reflexivity. }
  { exact started_tx_tasks_ok. }
  destruct (Hhead (mk_tx_task 536870956 6) [])
    as (Hget & s' & Hrun & Hq & Hn & _); [vm_compute; reflexivity|].
  split; [exact Hget|]. split.
  - exists s'. split; [exact Hrun|]. split; [exact Hq|].
    rewrite Hn. reflexivity.
  - apply Hempty. vm_compute. reflexivity.
Defined.

(** On [busy], a frame of ten bytes at address 8192 is staged behind the
    one staged before, inside the buffer, and leaves the node in
    order. *)
Lemma SetTxTask_stages_frame_witness :
  exists s' tx,
    MsgAlloc_SetTxTask 8192 10 busy = Done tt s'
    /\ tx_queue s' = [mk_tx_task 536870956 6; mk_tx_task tx 10]
    /\ 536870912 <= tx /\ tx + 10 <= 536870976
    /\ memory s' (tx + 4) = memory busy 8196
    /\ well_kept s'.
Proof.
  destruct (SetTxTask_stages_frame 8192 10 busy)
    as (s' & tx & Hrun & Hq & Hlo & Hhi & Hmem & Hwk).
  - exact scenario_sane.
  - vm_compute. split; reflexivity.
  - exact busy_well_kept.
  - vm_compute. reflexivity.
  - vm_compute. split; reflexivity.
  - vm_compute. split; [congruence|reflexivity].
  - vm_compute. congruence.
  - left. vm_compute. congruence.
  - exists s', tx. split; [exact Hrun|]. split; [exact Hq|].
    split; [exact Hlo|]. split; [exact Hhi|]. split; [|exact Hwk].
    apply (Hmem 4). lia.
Defined.

(** On [busy], staging a frame of twelve bytes moves the twelve bytes
    received so far from offset 20 to offset 32, right behind where they
    lay. *)
Lemma SetTxTask_carries_reception_witness :
  exists s',
    MsgAlloc_SetTxTask 8192 12 busy = Done tt s'
    /\ current_msg s' = 536870944
    /\ data_ptr s' - current_msg s' = 12
    /\ data_end_estimation s' - current_msg s' = 12
    /\ memory s' (current_msg s' + 5) = memory busy 536870937.
Proof.
  destruct (SetTxTask_carries_reception 8192 12 busy)
    as (s' & Hrun & Hcm & Hdp & Hde & Hmem).
  - exact scenario_sane.
  - vm_compute. split; reflexivity.
  - exact busy_well_kept.
  - vm_compute. reflexivity.
  - vm_compute. split; reflexivity.
  - vm_compute. split; [congruence|reflexivity].
  - vm_compute. congruence.
  - left. vm_compute. congruence.
  - left. vm_compute. congruence.
  - exists s'. split; [exact Hrun|]. split; [exact Hcm|].
    split; [exact Hdp|]. split; [exact Hde|].
    apply (Hmem 5). vm_compute. split; [congruence|reflexivity].
Defined.

Lemma busy_local_well_kept : well_kept busy_local.
Proof. exact busy_well_kept. Defined.

(** On [busy_local], the message at address 8192, ten bytes with its
    header, is copied to offset 20 and queued; its size field, 3, is
    read back at offset 25. *)
Lemma SetMessage_queues_copy_witness :
  exists s',
    MsgAlloc_SetMessage 8192 busy_local = Done tt s'
    /\ last (msg_queue s') = Some 536870932
    /\ memory s' 536870937 = 3
    /\ well_kept s'.
Proof.
  destruct (SetMessage_queues_copy 8192 busy_local)
    as (s' & Hrun & Hlast & Hmem & _ & Hwk).
  - exact scenario_sane.
  - vm_compute. split; reflexivity.
  - exact busy_local_well_kept.
  - vm_compute. congruence.
  - vm_compute. congruence.
  - reflexivity.
  - reflexivity.
  - vm_compute. reflexivity.
  - left. vm_compute. congruence.
  - exists s'. split; [exact Hrun|]. split; [exact Hlast|].
    split; [|exact Hwk].
    change 536870937 with (local_msg_place busy_local 8192 + 5).
    rewrite Hmem.
    + vm_compute. reflexivity.
    + vm_compute. split; [congruence|reflexivity].
Defined.

(** On [busy_shared], once the message at offset 20 is taken back,
    endpoint 1, which had an entry for it, is not handed it. *)
Lemma cleared_msg_is_never_pulled_witness :
  exists s',
    MsgAlloc_ClearMsgFromLuosTasks 536870932 busy_shared = Done tt s'
    /\ forall m s'',
         MsgAlloc_PullMsg 1 s' = Done (SUCCEED, Some m) s'' ->
         m <> 536870932.
Proof.
  destruct (cleared_msg_is_never_pulled 536870932 busy_shared)
    as (s' & Hrun & Hpull & _).
  - exact busy_shared_luos_tasks_ok.
  - reflexivity.
  - exists s'. split; [exact Hrun|]. exact (Hpull 1).
Defined.

(** On [boot], which has no statistics record yet, [MsgAlloc_Init] with
    NULL leaves [MsgAlloc_loop] reading through NULL. *)
Lemma Init_without_stats_faults_witness :
  exists s',
    MsgAlloc_Init NULL boot = Done tt s'
    /\ mem_stat s' = NULL
    /\ MsgAlloc_loop s' = Fault.
Proof.
  destruct (Init_without_stats_faults boot) as (s' & Hrun & Hnull & Hloop & _).
  - vm_compute. split; reflexivity.
  - reflexivity.
  - exists s'. split; [exact Hrun|]. split; [exact Hnull|exact Hloop].
Defined.

(** On [started], three bytes stored and the frame abandoned: the cursor
    is back at the start of the buffer. *)
Lemma InvalidMsg_rewinds_witness :
  exists s',
    run_ops ((SetData <$> [1; 2; 3]) ++ [InvalidMsg]) started = Done tt s'
    /\ current_msg s' = 536870912
    /\ data_ptr s' = 536870912
    /\ data_end_estimation s' = 536870921
    /\ copy_task_pointer s' = NULL.
Proof.
  destruct (InvalidMsg_rewinds [1; 2; 3] started)
    as (s' & Hrun & Hcm & Hdp & Hde & Hctp & _).
  - reflexivity.
  - split; [exact started_stacks_ok|exact started_msg_tasks_ok].
  - reflexivity.
  - exists s'. split; [exact Hrun|]. split; [exact Hcm|]. split; [exact Hdp|].
    split; [exact Hde|]. exact Hctp.
Defined.

(** On [busy], whose message in use lies at offset 28, inside the frame
    a header of 3 payload bytes announces: once it is released, the
    header is validated without a drop counted. *)
Lemma UsedMsgEnd_releases_message_witness :
  exists s',
    run_ops [UsedMsgEnd; ValidHeader 1 3] busy = Done tt s'
    /\ stats s' !! 4096 = Some (mk_memory_stats 50 75 7)
    /\ used_msg s' = NULL.
Proof.
  destruct (UsedMsgEnd_releases_message 3 busy) as (s' & Hrun & Hstats & Hu).
  - exact scenario_sane.
  - exact busy_cursor_kept.
  - exists s'. split; [exact Hrun|]. split; [|exact Hu].
    rewrite Hstats. vm_compute. reflexivity.
Defined.

End Scenario.
